(** * Personal Finance Tracker: balances, budgets and analytics

    A shallow embedding of the three services that derive figures from the
    transaction ledger, of the error handler and of the routes that name a
    record by its id, and the properties of their results.

    - [TransactionService] (backend/src/services/transaction.service.ts):
      [createTransaction], [getTransactions], [getTransaction],
      [updateTransaction], [deleteTransaction], [getStatistics] and the
      private [updateAccountBalance] that recomputes the balance of an
      account from its transactions;
    - [BudgetService] (backend/src/services/budget.service.ts):
      [createBudget], [getBudgets], [getBudget], [updateBudget],
      [deleteBudget], [getBudgetAlerts] and the private [calculateSpending];
    - [AnalyticsService] (analytics.service.ts): [getTotalByType],
      [getTotalBalance], [getDashboardOverview], [getSpendingByCategory],
      [getSpendingTrends], [getMonthlySummary], [getYearToDateSummary] and
      [getRecentTransactions];
    - [errorHandler] (middleware/errorHandler.ts) and the routes GET and
      DELETE [/:id] of the transaction and budget routers.

    Conventions of the embedding.

    - A JavaScript [number] is modelled by [JS.number]: an exact rational or
      one of the special values Infinity, -Infinity and NaN.  Arithmetic on
      finite values is exact: binary rounding of IEEE doubles and the sign of
      zero are not modelled, the special values of division by zero are.
    - A Prisma [Decimal] column is a rational [Q]; [Number(d)] is [JS.Fin d].
    - A [Date] is its epoch time in milliseconds, a [Z]; date-fns runs in the
      UTC time zone, and [new Date()] is a parameter [now].
    - The database is a [Store]; a service method is a function in the monad
      [Prisma], which threads the store and may throw.  A write that happened
      before a throw stays written, as in the source, which opens no database
      transaction.  What the database engine decides and the sources do not
      show (the order by an arbitrary column, the text match) is a
      parameter, an [Engine].
    - The store also keeps a trace of the balance recalculations that
      completed, so that statements can say which accounts a request
      recalculated. *)

From Stdlib Require Import ZArith QArith Qround Qabs Lia Lra List String Bool.
From Stdlib Require Import Permutation Sorted.
From stdpp Require Import gmap strings list pretty.

Local Open Scope string_scope.
Local Open Scope Z_scope.

(* ===================================================================== *)
(** * JavaScript numbers *)
(* ===================================================================== *)

Module JS.

Inductive number : Type :=
| Fin (q : Q)
| PosInf
| NegInf
| NaN.

(** [undefined], [null], [0], [NaN] and the empty string are falsy. *)
Definition truthy (x : number) : bool :=
  match x with
  | Fin q => negb (Qeq_bool q 0)
  | PosInf | NegInf => true
  | NaN => false
  end.

Definition truthyString (s : string) : bool :=
  match s with
  | EmptyString => false
  | String _ _ => true
  end.

(** [Number(d || 0)] for a nullable Decimal [d]: a Decimal object is truthy
    whatever its value, so only [null] takes the default. *)
Definition NumberOr0 (d : option Q) : number :=
  match d with
  | Some q => Fin q
  | None => Fin 0
  end.

Definition neg (x : number) : number :=
  match x with
  | Fin q => Fin (- q)
  | PosInf => NegInf
  | NegInf => PosInf
  | NaN => NaN
  end.

Definition add (x y : number) : number :=
  match x, y with
  | NaN, _ | _, NaN => NaN
  | Fin a, Fin b => Fin (a + b)
  | PosInf, NegInf | NegInf, PosInf => NaN
  | PosInf, _ | _, PosInf => PosInf
  | NegInf, _ | _, NegInf => NegInf
  end.

Definition sub (x y : number) : number := add x (neg y).

(** The infinity with the sign of [a], NaN for [a = 0]. *)
Definition signedInf (a : Q) (positive : bool) : number :=
  match (a ?= 0)%Q with
  | Eq => NaN
  | Gt => if positive then PosInf else NegInf
  | Lt => if positive then NegInf else PosInf
  end.

Definition mul (x y : number) : number :=
  match x, y with
  | NaN, _ | _, NaN => NaN
  | Fin a, Fin b => Fin (a * b)
  | Fin a, PosInf | PosInf, Fin a => signedInf a true
  | Fin a, NegInf | NegInf, Fin a => signedInf a false
  | PosInf, PosInf | NegInf, NegInf => PosInf
  | PosInf, NegInf | NegInf, PosInf => NegInf
  end.

(** Division does not throw: a finite non-zero value over zero is an
    infinity, zero over zero is NaN. *)
Definition div (x y : number) : number :=
  match x, y with
  | NaN, _ | _, NaN => NaN
  | Fin a, Fin b =>
      match (b ?= 0)%Q with
      | Eq => signedInf a true
      | _ => Fin (a / b)
      end
  | Fin _, PosInf | Fin _, NegInf => Fin 0
  | PosInf, Fin b => if Qle_bool 0 b then PosInf else NegInf
  | NegInf, Fin b => if Qle_bool 0 b then NegInf else PosInf
  | _, _ => NaN
  end.

(** Ordering; [None] when an operand is NaN, so that every comparison with
    NaN is false. *)
Definition compare (x y : number) : option comparison :=
  match x, y with
  | NaN, _ | _, NaN => None
  | Fin a, Fin b => Some (a ?= b)%Q
  | PosInf, PosInf | NegInf, NegInf => Some Eq
  | NegInf, _ | _, PosInf => Some Lt
  | PosInf, _ | _, NegInf => Some Gt
  end.

Definition gt (x y : number) : bool :=
  match compare x y with Some Gt => true | _ => false end.

Definition ge (x y : number) : bool :=
  match compare x y with Some Gt | Some Eq => true | _ => false end.

(** [x === y] on numbers. *)
Definition eqb (x y : number) : bool :=
  match compare x y with Some Eq => true | _ => false end.

(** [Math.max(x, y)] and [Math.abs(x)]. *)
Definition max (x y : number) : number :=
  match compare x y with
  | None => NaN
  | Some Lt => y
  | Some _ => x
  end.

Definition abs (x : number) : number :=
  match x with
  | Fin q => Fin (Qabs q)
  | PosInf | NegInf => PosInf
  | NaN => NaN
  end.

(** ** [Number.prototype.toFixed] *)

Definition digit (d : Z) : Ascii.ascii :=
  Ascii.ascii_of_N (48 + Z.to_N (d mod 10)).

(** Exactly [k] decimal digits of [n], the least significant last. *)
Fixpoint fixedDigits (k : nat) (n : Z) : string :=
  match k with
  | O => ""
  | S k' => fixedDigits k' (n / 10) ++ String (digit n) ""
  end.

(** [x.toFixed(digits)]: the nearest multiple of [10^-digits] to the absolute
    value, the larger one on a tie, printed with exactly [digits] decimals
    and a minus sign when [x < 0].  Values of magnitude [10^21] and more,
    which JavaScript prints in exponent notation, are printed in full. *)
Definition toFixed (x : number) (digits : nat) : string :=
  match x with
  | NaN => "NaN"
  | PosInf => "Infinity"
  | NegInf => "-Infinity"
  | Fin q =>
      let scale := 10 ^ Z.of_nat digits in
      let n := Qfloor (Qabs q * inject_Z scale + (1 # 2))%Q in
      let body :=
        match digits with
        | O => pretty n
        | S _ => pretty (n / scale) ++ "." ++ fixedDigits digits (n mod scale)
        end in
      if Qle_bool 0 q then body else "-" ++ body
  end.

End JS.

(* ===================================================================== *)
(** * The data model *)
(* ===================================================================== *)

(** The enumerations of the Prisma client.  [TransactionType] and the
    account types are listed by the routers. *)
Inductive TransactionType : Type := INCOME | EXPENSE | TRANSFER.

(** Modelled from the spec: the Prisma schema is not among the sources, and
    the services name one member of [TransactionStatus], [POSTED], the only
    status the aggregations use.  Every other member is an [OTHER_STATUS]. *)
Inductive TransactionStatus : Type := POSTED | OTHER_STATUS (label : string).

(** Modelled from the spec: the members of [BudgetPeriod] are declared by the
    Prisma schema; the spec lists weekly, monthly and yearly. *)
Inductive BudgetPeriod : Type := WEEKLY | MONTHLY | YEARLY.

Inductive AccountType : Type :=
  CHECKING | SAVINGS | CREDIT_CARD | INVESTMENT | LOAN | MORTGAGE | OTHER.

#[global] Instance TransactionType_eq_dec : EqDecision TransactionType.
Proof. solve_decision. Defined.
#[global] Instance TransactionStatus_eq_dec : EqDecision TransactionStatus.
Proof. solve_decision. Defined.
#[global] Instance BudgetPeriod_eq_dec : EqDecision BudgetPeriod.
Proof. solve_decision. Defined.

(** A [Date]: milliseconds since the epoch. *)
Abbreviation Date := Z.

Module Account.
Record t : Type := mk {
  id : string;
  userId : string;
  name : string;
  type : AccountType;
  balance : Q;
  isActive : bool
}.
End Account.

Module Category.
Record t : Type := mk {
  id : string;
  name : string;
  userId : option string;
  isSystem : bool
}.
End Category.

(** [CreateTransactionData].  The interface has no status field.  The router
    admits only amounts that are finite decimals ([isFloat]), so the amount is
    given as the decimal that is stored. *)
Module CreateTransactionData.
Record t : Type := mk {
  accountId : string;
  amount : Q;
  currency : option string;
  type : TransactionType;
  description : string;
  merchantName : option string;
  categoryId : option string;
  date : Date;
  notes : option string;
  tags : option (list string);
  receiptUrl : option string;
  taxDeductible : option bool;
  taxCategory : option string
}.
End CreateTransactionData.

(** [UpdateTransactionData = Partial<CreateTransactionData>]: [None] is a
    field left [undefined]. *)
Module UpdateTransactionData.
Record t : Type := mk {
  accountId : option string;
  amount : option Q;
  currency : option string;
  type : option TransactionType;
  description : option string;
  merchantName : option string;
  categoryId : option string;
  date : option Date;
  notes : option string;
  tags : option (list string);
  receiptUrl : option string;
  taxDeductible : option bool;
  taxCategory : option string
}.
End UpdateTransactionData.

(** A row of the transaction table.  An optional column that was never
    written is [None]. *)
Module Transaction.
Record t : Type := mk {
  id : string;
  userId : string;
  accountId : string;
  amount : Q;
  currency : option string;
  type : TransactionType;
  description : string;
  merchantName : option string;
  categoryId : option string;
  date : Date;
  notes : option string;
  tags : option (list string);
  receiptUrl : option string;
  taxDeductible : option bool;
  taxCategory : option string;
  status : TransactionStatus
}.
End Transaction.

Module Budget.
Record t : Type := mk {
  id : string;
  userId : string;
  name : string;
  amount : Q;
  period : BudgetPeriod;
  startDate : Date;
  endDate : option Date;
  categoryId : option string;
  rollover : bool;
  alertEnabled : bool;
  alertThreshold : option Q;
  createdAt : Date
}.
End Budget.

(** [BudgetWithProgress extends Budget]: the row and the four derived
    fields. *)
Module BudgetWithProgress.
Record t : Type := mk {
  budget : Budget.t;
  spent : JS.number;
  remaining : JS.number;
  percentageUsed : JS.number;
  isOverBudget : bool
}.
End BudgetWithProgress.

(** ** The store *)

(** The tables the three services read and write.  The transaction table is
    kept in row order, which is the order [findMany] returns without an
    [orderBy].  [balanceUpdates] is a trace, not a table: the account ids for
    which [updateAccountBalance] has completed, the earliest first. *)
Record Store : Type := mkStore {
  accounts : gmap string Account.t;
  categories : gmap string Category.t;
  transactions : list Transaction.t;
  budgets : list Budget.t;
  balanceUpdates : list string
}.

(** ** Errors and the service monad *)

Inductive Error : Type :=
| AppError (statusCode : Z) (message : string)
| PrismaError (code : string).

Inductive Outcome (A : Type) : Type :=
| Ok (a : A)
| Throw (e : Error).
Arguments Ok {A} a.
Arguments Throw {A} e.

Definition Prisma (A : Type) : Type := Store -> Outcome A * Store.

Definition ret {A} (a : A) : Prisma A := fun st => (Ok a, st).

Definition throw {A} (e : Error) : Prisma A := fun st => (Throw e, st).

Definition bind {A B} (m : Prisma A) (k : A -> Prisma B) : Prisma B :=
  fun st =>
    match m st with
    | (Ok a, st') => k a st'
    | (Throw e, st') => (Throw e, st')
    end.

Notation "x <- m ;; k" := (bind m (fun x => k))
  (at level 100, m at next level, right associativity).
Notation "m ;;; k" := (bind m (fun _ => k))
  (at level 100, k at level 200, right associativity).

(** [if (c) { m }] *)
Definition when (c : bool) (m : Prisma unit) : Prisma unit :=
  if c then m else ret tt.

(* ===================================================================== *)
(** * date-fns, in the UTC time zone *)
(* ===================================================================== *)

Module DateFns.

Definition msPerDay : Z := 86400000.

(** The day number of an instant (days since 1970-01-01) and the time
    elapsed since the start of its day. *)
Definition dayOf (d : Date) : Z := d / msPerDay.
Definition timeOfDay (d : Date) : Z := d mod msPerDay.

(** The proleptic Gregorian calendar: year, month (1 to 12) and day of the
    month of a day number, and back. *)
Definition civilFromDays (z : Z) : Z * Z * Z :=
  let z := z + 719468 in
  let era := z / 146097 in
  let doe := z - era * 146097 in
  let yoe := (doe - doe / 1460 + doe / 36524 - doe / 146096) / 365 in
  let doy := doe - (365 * yoe + yoe / 4 - yoe / 100) in
  let mp := (5 * doy + 2) / 153 in
  let d := doy - (153 * mp + 2) / 5 + 1 in
  let m := if mp <? 10 then mp + 3 else mp - 9 in
  let y := yoe + era * 400 in
  (if m <=? 2 then y + 1 else y, m, d).

Definition daysFromCivil (y m d : Z) : Z :=
  let y := if m <=? 2 then y - 1 else y in
  let era := y / 400 in
  let yoe := y - era * 400 in
  let doy := (153 * (if 2 <? m then m - 3 else m + 9) + 2) / 5 + d - 1 in
  let doe := yoe * 365 + yoe / 4 - yoe / 100 + doy in
  era * 146097 + doe - 719468.

Definition yearOf (d : Date) : Z := fst (fst (civilFromDays (dayOf d))).
Definition monthOf (d : Date) : Z := snd (fst (civilFromDays (dayOf d))).
Definition dayOfMonth (d : Date) : Z := snd (civilFromDays (dayOf d)).

(** Months counted from year 0: the month [m] of year [y] is [12 y + m - 1]. *)
Definition monthIndex (d : Date) : Z := 12 * yearOf d + (monthOf d - 1).
Definition monthStart (idx : Z) : Date :=
  daysFromCivil (idx / 12) (idx mod 12 + 1) 1 * msPerDay.
Definition daysInMonth (idx : Z) : Z :=
  (monthStart (idx + 1) - monthStart idx) / msPerDay.

Definition startOfDay (d : Date) : Date := dayOf d * msPerDay.
Definition endOfDay (d : Date) : Date := startOfDay d + msPerDay - 1.

(** The week starts on Sunday; 1970-01-01 was a Thursday. *)
Definition weekday (d : Date) : Z := (dayOf d + 4) mod 7.
Definition startOfWeek (d : Date) : Date := (dayOf d - weekday d) * msPerDay.
Definition endOfWeek (d : Date) : Date := startOfWeek d + 7 * msPerDay - 1.

Definition startOfMonth (d : Date) : Date := monthStart (monthIndex d).
Definition endOfMonth (d : Date) : Date := monthStart (monthIndex d + 1) - 1.

Definition startOfYear (d : Date) : Date := monthStart (12 * yearOf d).
Definition endOfYear (d : Date) : Date := monthStart (12 * (yearOf d + 1)) - 1.

(** [addMonths]: the same day of the month and time of day in the target
    month, or the last day of that month when it is shorter. *)
Definition addMonths (d : Date) (n : Z) : Date :=
  let idx := monthIndex d + n in
  monthStart idx
  + (Z.min (dayOfMonth d) (daysInMonth idx) - 1) * msPerDay
  + timeOfDay d.
Definition subMonths (d : Date) (n : Z) : Date := addMonths d (- n).

(** [eachDayOfInterval({start, end})]: the start of every day from the day of
    [start] to the day of [end].  date-fns rejects an interval whose end is
    before its start; the services never build one, and the model returns the
    empty list for it. *)
Definition eachDayOfInterval (start end_ : Date) : list Date :=
  (fun k => k * msPerDay) <$> seqZ (dayOf start) (dayOf end_ - dayOf start + 1).

(** [eachMonthOfInterval({start, end})]: the start of every month from the
    month of [start] to the month of [end]. *)
Definition eachMonthOfInterval (start end_ : Date) : list Date :=
  monthStart <$> seqZ (monthIndex start) (monthIndex end_ - monthIndex start + 1).

Definition monthNames : list string :=
  ["January"; "February"; "March"; "April"; "May"; "June"; "July";
   "August"; "September"; "October"; "November"; "December"].

Definition MMMM (d : Date) : string :=
  default "" (monthNames !! Z.to_nat (monthOf d - 1)).
Definition MMM (d : Date) : string := String.substring 0 3 (MMMM d).
Definition yyyy (d : Date) : string := JS.fixedDigits 4 (yearOf d).
Definition dd (d : Date) : string := JS.fixedDigits 2 (dayOfMonth d).

(** [format(d, pattern)] for the four patterns the services use, for years 0
    to 9999; any other pattern is returned as it is. *)
Definition format (d : Date) (pattern : string) : string :=
  if decide (pattern = "MMM dd") then MMM d ++ " " ++ dd d
  else if decide (pattern = "MMM yyyy") then MMM d ++ " " ++ yyyy d
  else if decide (pattern = "MMMM yyyy") then MMMM d ++ " " ++ yyyy d
  else if decide (pattern = "yyyy") then yyyy d
  else pattern.

End DateFns.

(** ** Queries and data of the read and budget methods *)

Inductive SortOrder : Type := asc | desc.

(** Modelled from the spec: what the database engine decides and the sources
    do not show.  [orderRows column order rows] sorts rows by a column given
    by name, [None] when the table has no such column (the client then
    refuses the query); [containsInsensitive text part] is the match of
    [{ contains: part, mode: 'insensitive' }]. *)
Record Engine : Type := mkEngine {
  orderRows : string -> SortOrder -> list Transaction.t -> option (list Transaction.t);
  containsInsensitive : string -> string -> bool
}.

(** [GetTransactionsQuery]: [None] is a field left [undefined]. *)
Module GetTransactionsQuery.
Record t : Type := mk {
  accountId : option string;
  categoryId : option string;
  type : option TransactionType;
  startDate : option Date;
  endDate : option Date;
  search : option string;
  tags : option (list string);
  page : option nat;
  limit : option nat;
  sortBy : option string;
  sortOrder : option SortOrder
}.
End GetTransactionsQuery.

(** The result of [getTransactions]. *)
Module TransactionPage.
Record t : Type := mk {
  transactions : list Transaction.t;
  total : nat;
  page : nat;
  limit : nat
}.
End TransactionPage.

(** The result of [getStatistics]. *)
Module Statistics.
Record t : Type := mk {
  totalIncome : JS.number;
  totalExpenses : JS.number;
  netAmount : JS.number;
  transactionCount : nat;
  averageTransaction : JS.number
}.
End Statistics.

(** [CreateBudgetData]; the amount is the decimal that is stored. *)
Module CreateBudgetData.
Record t : Type := mk {
  name : string;
  amount : Q;
  period : BudgetPeriod;
  startDate : Date;
  endDate : option Date;
  categoryId : option string;
  rollover : option bool;
  alertEnabled : option bool;
  alertThreshold : option Q
}.
End CreateBudgetData.

(** [Partial<CreateBudgetData>] *)
Module UpdateBudgetData.
Record t : Type := mk {
  name : option string;
  amount : option Q;
  period : option BudgetPeriod;
  startDate : option Date;
  endDate : option Date;
  categoryId : option string;
  rollover : option bool;
  alertEnabled : option bool;
  alertThreshold : option Q
}.
End UpdateBudgetData.

(** Modelled from the spec: the values the Prisma schema, which is not among
    the sources, gives to the columns of a budget that the creation data
    leave out. *)
Record BudgetDefaults : Type := mkBudgetDefaults {
  defaultRollover : bool;
  defaultAlertEnabled : bool;
  defaultAlertThreshold : option Q
}.

(** ** Ordering *)

(** A stable sort, for [orderBy] and [Array.prototype.sort]: [after x y] says
    that [x] must come after [y].  An element is inserted before the first
    one it need not follow, so elements that compare equal keep their
    order. *)
Fixpoint insertSorted {A} (after : A -> A -> bool) (x : A) (l : list A) : list A :=
  match l with
  | [] => [x]
  | y :: rest =>
      if after x y then y :: insertSorted after x rest else x :: y :: rest
  end.

Definition stableSort {A} (after : A -> A -> bool) (l : list A) : list A :=
  foldr (insertSorted after) [] l.

(** Monadic [map], the elements in order. *)
Fixpoint mapM {A B} (f : A -> Prisma B) (l : list A) : Prisma (list B) :=
  match l with
  | [] => ret []
  | x :: rest =>
      y <- f x ;;
      ys <- mapM f rest ;;
      ret (y :: ys)
  end.

(* ===================================================================== *)
(** * The Prisma client *)
(* ===================================================================== *)

(** The queries the services issue, on the [Store].  A [where] clause is a
    predicate on rows.  The constraints are those of the relations the
    queries rely on ([include: { account: true, category: true }]): a
    transaction names an existing account and, when it has one, an existing
    category; ids are unique.  A violated constraint and a missing record
    throw a [PrismaError] with the client's error code. *)
Module prisma.

Definition orElse {A} (x : option A) (old : option A) : option A :=
  match x with
  | Some v => Some v
  | None => old
  end.

(** ** prisma.transaction *)

Definition sumAmount (rows : list Transaction.t) : Q :=
  fold_left (fun s t => (s + Transaction.amount t)%Q) rows 0%Q.

Definition transaction_findFirst (where_ : Transaction.t -> bool)
  : Prisma (option Transaction.t) :=
  fun st => (Ok (head (List.filter where_ (transactions st))), st).

(** [findMany({ where, include: { category: true } })]: every row with the
    category it names, if any. *)
Definition transaction_findMany_include_category (where_ : Transaction.t -> bool)
  : Prisma (list (Transaction.t * option Category.t)) :=
  fun st =>
    (Ok ((fun t => (t, Transaction.categoryId t ≫= (categories st !!.)))
           <$> List.filter where_ (transactions st)), st).

(** [findMany({ where, orderBy: { date: 'asc' } })] *)
Definition transaction_findMany_orderBy_date (where_ : Transaction.t -> bool)
  : Prisma (list Transaction.t) :=
  fun st =>
    (Ok (stableSort (fun t x => Transaction.date x <? Transaction.date t)
           (List.filter where_ (transactions st))), st).

(** [aggregate({ where, _sum: { amount: true } })._sum.amount]: [null] when no
    row matches. *)
Definition transaction_aggregate_sum (where_ : Transaction.t -> bool)
  : Prisma (option Q) :=
  fun st =>
    match List.filter where_ (transactions st) with
    | [] => (Ok None, st)
    | rows => (Ok (Some (sumAmount rows)), st)
    end.

Definition transaction_count (where_ : Transaction.t -> bool) : Prisma nat :=
  fun st => (Ok (length (List.filter where_ (transactions st))), st).

Definition hasId (id : string) (t : Transaction.t) : bool :=
  bool_decide (Transaction.id t = id).

Definition references_ok (st : Store) (row : Transaction.t) : bool :=
  bool_decide (is_Some (accounts st !! Transaction.accountId row))
  && match Transaction.categoryId row with
     | Some c => bool_decide (is_Some (categories st !! c))
     | None => true
     end.

Definition set_transactions (rows : list Transaction.t) (st : Store) : Store :=
  {| accounts := accounts st; categories := categories st;
     transactions := rows; budgets := budgets st;
     balanceUpdates := balanceUpdates st |}.

Definition transaction_create (row : Transaction.t) : Prisma Transaction.t :=
  fun st =>
    if existsb (hasId (Transaction.id row)) (transactions st)
    then (Throw (PrismaError "P2002"), st)
    else if negb (references_ok st row)
    then (Throw (PrismaError "P2003"), st)
    else (Ok row, set_transactions (transactions st ++ [row])%list st).

(** The fields of [data] that are defined replace those of the row. *)
Definition applyUpdate (data : UpdateTransactionData.t) (row : Transaction.t)
  : Transaction.t :=
  {| Transaction.id := Transaction.id row;
     Transaction.userId := Transaction.userId row;
     Transaction.accountId :=
       default (Transaction.accountId row) (UpdateTransactionData.accountId data);
     Transaction.amount :=
       default (Transaction.amount row) (UpdateTransactionData.amount data);
     Transaction.currency :=
       orElse (UpdateTransactionData.currency data) (Transaction.currency row);
     Transaction.type :=
       default (Transaction.type row) (UpdateTransactionData.type data);
     Transaction.description :=
       default (Transaction.description row) (UpdateTransactionData.description data);
     Transaction.merchantName :=
       orElse (UpdateTransactionData.merchantName data) (Transaction.merchantName row);
     Transaction.categoryId :=
       orElse (UpdateTransactionData.categoryId data) (Transaction.categoryId row);
     Transaction.date :=
       default (Transaction.date row) (UpdateTransactionData.date data);
     Transaction.notes :=
       orElse (UpdateTransactionData.notes data) (Transaction.notes row);
     Transaction.tags :=
       orElse (UpdateTransactionData.tags data) (Transaction.tags row);
     Transaction.receiptUrl :=
       orElse (UpdateTransactionData.receiptUrl data) (Transaction.receiptUrl row);
     Transaction.taxDeductible :=
       orElse (UpdateTransactionData.taxDeductible data) (Transaction.taxDeductible row);
     Transaction.taxCategory :=
       orElse (UpdateTransactionData.taxCategory data) (Transaction.taxCategory row);
     Transaction.status := Transaction.status row |}.

(** Replaces the rows with the given id, in place. *)
Fixpoint replaceRow (id : string) (new : Transaction.t) (rows : list Transaction.t)
  : list Transaction.t :=
  match rows with
  | [] => []
  | r :: rest =>
      (if hasId id r then new else r) :: replaceRow id new rest
  end.

Definition transaction_update (id : string) (data : UpdateTransactionData.t)
  : Prisma Transaction.t :=
  fun st =>
    match head (List.filter (hasId id) (transactions st)) with
    | None => (Throw (PrismaError "P2025"), st)
    | Some row =>
        let new := applyUpdate data row in
        if negb (references_ok st new)
        then (Throw (PrismaError "P2003"), st)
        else (Ok new, set_transactions (replaceRow id new (transactions st)) st)
    end.

Definition transaction_delete (id : string) : Prisma unit :=
  fun st =>
    if existsb (hasId id) (transactions st)
    then (Ok tt,
          set_transactions
            (List.filter (fun t => negb (hasId id t)) (transactions st)) st)
    else (Throw (PrismaError "P2025"), st).

(** ** prisma.account *)

(** [findFirst({ where: { id, userId } })] *)
Definition account_findFirst (id userId : string) : Prisma (option Account.t) :=
  fun st =>
    (Ok (match accounts st !! id with
         | Some a => if bool_decide (Account.userId a = userId) then Some a else None
         | None => None
         end), st).

Definition set_balance (b : Q) (a : Account.t) : Account.t :=
  {| Account.id := Account.id a; Account.userId := Account.userId a;
     Account.name := Account.name a; Account.type := Account.type a;
     Account.balance := b; Account.isActive := Account.isActive a |}.

Definition set_accounts (m : gmap string Account.t) (st : Store) : Store :=
  {| accounts := m; categories := categories st;
     transactions := transactions st; budgets := budgets st;
     balanceUpdates := balanceUpdates st |}.

(** [update({ where: { id }, data: { balance } })].  The balance column is a
    Decimal: a value that is not finite is refused by the client. *)
Definition account_update_balance (id : string) (balance : JS.number)
  : Prisma unit :=
  fun st =>
    match accounts st !! id, balance with
    | None, _ => (Throw (PrismaError "P2025"), st)
    | Some a, JS.Fin q => (Ok tt, set_accounts (<[id := set_balance q a]> (accounts st)) st)
    | Some _, _ => (Throw (PrismaError "validation"), st)
    end.

(** [aggregate({ where: { userId, isActive: true }, _sum: { balance: true } })] *)
Definition account_aggregate_sum_balance (userId : string) : Prisma (option Q) :=
  fun st =>
    match List.filter
            (fun a => bool_decide (Account.userId a = userId) && Account.isActive a)
            (snd <$> map_to_list (accounts st)) with
    | [] => (Ok None, st)
    | rows => (Ok (Some (fold_left (fun s a => (s + Account.balance a)%Q) rows 0%Q)), st)
    end.

(** ** prisma.category *)

(** [findFirst({ where: { id, OR: [{ userId }, { isSystem: true }] } })] *)
Definition category_findFirst (id userId : string) : Prisma (option Category.t) :=
  fun st =>
    (Ok (match categories st !! id with
         | Some c =>
             if bool_decide (Category.userId c = Some userId) || Category.isSystem c
             then Some c else None
         | None => None
         end), st).

(** ** prisma.budget *)

(** [findMany({ where, orderBy: { createdAt: 'desc' } })] *)
Definition budget_findMany (where_ : Budget.t -> bool) : Prisma (list Budget.t) :=
  fun st =>
    (Ok (stableSort (fun b x => Budget.createdAt b <? Budget.createdAt x)
           (List.filter where_ (budgets st))), st).

Definition budget_findFirst (where_ : Budget.t -> bool) : Prisma (option Budget.t) :=
  fun st => (Ok (head (List.filter where_ (budgets st))), st).

(** ** Queries of the read methods *)

(** [findMany({ where, orderBy: { date: 'desc' }, take })] *)
Definition transaction_findMany_latest (where_ : Transaction.t -> bool)
    (take : nat) : Prisma (list Transaction.t) :=
  fun st =>
    (Ok (firstn take
           (stableSort (fun t x => Transaction.date t <? Transaction.date x)
              (List.filter where_ (transactions st)))), st).

(** [findMany({ where, orderBy: { [sortBy]: sortOrder }, skip, take })]: the
    client refuses a negative [skip] and a column that does not exist. *)
Definition transaction_findMany_page (db : Engine)
    (where_ : Transaction.t -> bool) (sortBy : string) (sortOrder : SortOrder)
    (skip : Z) (take : nat) : Prisma (list Transaction.t) :=
  fun st =>
    if skip <? 0 then (Throw (PrismaError "validation"), st)
    else
      match orderRows db sortBy sortOrder (List.filter where_ (transactions st)) with
      | None => (Throw (PrismaError "validation"), st)
      | Some rows => (Ok (firstn take (skipn (Z.to_nat skip) rows)), st)
      end.

(** ** Writes of prisma.budget *)

Definition budget_hasId (id : string) (b : Budget.t) : bool :=
  bool_decide (Budget.id b = id).

Definition budget_reference_ok (st : Store) (b : Budget.t) : bool :=
  match Budget.categoryId b with
  | Some c => bool_decide (is_Some (categories st !! c))
  | None => true
  end.

Definition set_budgets (rows : list Budget.t) (st : Store) : Store :=
  {| accounts := accounts st; categories := categories st;
     transactions := transactions st; budgets := rows;
     balanceUpdates := balanceUpdates st |}.

Definition budget_create (row : Budget.t) : Prisma Budget.t :=
  fun st =>
    if existsb (budget_hasId (Budget.id row)) (budgets st)
    then (Throw (PrismaError "P2002"), st)
    else if negb (budget_reference_ok st row)
    then (Throw (PrismaError "P2003"), st)
    else (Ok row, set_budgets (budgets st ++ [row])%list st).

(** The fields of [data] that are defined replace those of the row. *)
Definition applyBudgetUpdate (data : UpdateBudgetData.t) (row : Budget.t)
  : Budget.t :=
  {| Budget.id := Budget.id row;
     Budget.userId := Budget.userId row;
     Budget.name := default (Budget.name row) (UpdateBudgetData.name data);
     Budget.amount := default (Budget.amount row) (UpdateBudgetData.amount data);
     Budget.period := default (Budget.period row) (UpdateBudgetData.period data);
     Budget.startDate :=
       default (Budget.startDate row) (UpdateBudgetData.startDate data);
     Budget.endDate := orElse (UpdateBudgetData.endDate data) (Budget.endDate row);
     Budget.categoryId :=
       orElse (UpdateBudgetData.categoryId data) (Budget.categoryId row);
     Budget.rollover :=
       default (Budget.rollover row) (UpdateBudgetData.rollover data);
     Budget.alertEnabled :=
       default (Budget.alertEnabled row) (UpdateBudgetData.alertEnabled data);
     Budget.alertThreshold :=
       orElse (UpdateBudgetData.alertThreshold data) (Budget.alertThreshold row);
     Budget.createdAt := Budget.createdAt row |}.

Fixpoint replaceBudget (id : string) (new : Budget.t) (rows : list Budget.t)
  : list Budget.t :=
  match rows with
  | [] => []
  | r :: rest =>
      (if budget_hasId id r then new else r) :: replaceBudget id new rest
  end.

Definition budget_update (id : string) (data : UpdateBudgetData.t)
  : Prisma Budget.t :=
  fun st =>
    match head (List.filter (budget_hasId id) (budgets st)) with
    | None => (Throw (PrismaError "P2025"), st)
    | Some row =>
        let new := applyBudgetUpdate data row in
        if negb (budget_reference_ok st new)
        then (Throw (PrismaError "P2003"), st)
        else (Ok new, set_budgets (replaceBudget id new (budgets st)) st)
    end.

Definition budget_delete (id : string) : Prisma unit :=
  fun st =>
    if existsb (budget_hasId id) (budgets st)
    then (Ok tt,
          set_budgets (List.filter (fun b => negb (budget_hasId id b)) (budgets st)) st)
    else (Throw (PrismaError "P2025"), st).

End prisma.

(* ===================================================================== *)
(** * TransactionService *)
(* ===================================================================== *)

(** The clauses of the [where] filters. *)
Definition isPosted (t : Transaction.t) : bool :=
  bool_decide (Transaction.status t = POSTED).
Definition hasType (ty : TransactionType) (t : Transaction.t) : bool :=
  bool_decide (Transaction.type t = ty).
Definition ofAccount (accountId : string) (t : Transaction.t) : bool :=
  bool_decide (Transaction.accountId t = accountId).
Definition ofUser (userId : string) (t : Transaction.t) : bool :=
  bool_decide (Transaction.userId t = userId).
Definition dateBetween (gte lte : Date) (t : Transaction.t) : bool :=
  (gte <=? Transaction.date t) && (Transaction.date t <=? lte).

(** [if (s)] for an optional string: defined and not empty. *)
Definition given (s : option string) : bool :=
  match s with
  | Some v => JS.truthyString v
  | None => false
  end.

Module TransactionService.

(** Notes in the trace that the recalculation of [accountId] completed. *)
Definition recordBalanceUpdate (accountId : string) : Prisma unit :=
  fun st =>
    (Ok tt,
     {| accounts := accounts st; categories := categories st;
        transactions := transactions st; budgets := budgets st;
        balanceUpdates := (balanceUpdates st ++ [accountId])%list |}).

(** Update account balance based on transactions. *)
Definition updateAccountBalance (accountId : string) : Prisma unit :=
  incomeSum <- prisma.transaction_aggregate_sum
                 (fun t => ofAccount accountId t && hasType INCOME t && isPosted t) ;;
  expenseSum <- prisma.transaction_aggregate_sum
                  (fun t => ofAccount accountId t && hasType EXPENSE t && isPosted t) ;;
  let totalIncome := JS.NumberOr0 incomeSum in
  let totalExpenses := JS.NumberOr0 expenseSum in
  let balance := JS.sub totalIncome totalExpenses in
  prisma.account_update_balance accountId balance ;;;
  recordBalanceUpdate accountId.

(** Create a new transaction.  [newId] is the id the database gives the
    row. *)
Definition createTransaction (userId newId : string)
    (data : CreateTransactionData.t) : Prisma Transaction.t :=
  (* Verify account belongs to user *)
  account <- prisma.account_findFirst (CreateTransactionData.accountId data) userId ;;
  match account with
  | None => throw (AppError 404 "Account not found")
  | Some _ =>
      (* Verify category belongs to user if provided *)
      match CreateTransactionData.categoryId data with
      | Some c =>
          if JS.truthyString c then
            category <- prisma.category_findFirst c userId ;;
            match category with
            | None => throw (AppError 404 "Category not found")
            | Some _ => ret tt
            end
          else ret tt
      | None => ret tt
      end ;;;
      (* Create transaction: { ...data, userId, status: POSTED } *)
      transaction <- prisma.transaction_create
        {| Transaction.id := newId;
           Transaction.userId := userId;
           Transaction.accountId := CreateTransactionData.accountId data;
           Transaction.amount := CreateTransactionData.amount data;
           Transaction.currency := CreateTransactionData.currency data;
           Transaction.type := CreateTransactionData.type data;
           Transaction.description := CreateTransactionData.description data;
           Transaction.merchantName := CreateTransactionData.merchantName data;
           Transaction.categoryId := CreateTransactionData.categoryId data;
           Transaction.date := CreateTransactionData.date data;
           Transaction.notes := CreateTransactionData.notes data;
           Transaction.tags := CreateTransactionData.tags data;
           Transaction.receiptUrl := CreateTransactionData.receiptUrl data;
           Transaction.taxDeductible := CreateTransactionData.taxDeductible data;
           Transaction.taxCategory := CreateTransactionData.taxCategory data;
           Transaction.status := POSTED |} ;;
      (* Update account balance *)
      updateAccountBalance (CreateTransactionData.accountId data) ;;;
      ret transaction
  end.

(** Update a transaction. *)
Definition updateTransaction (userId transactionId : string)
    (data : UpdateTransactionData.t) : Prisma Transaction.t :=
  (* Check if transaction exists and belongs to user *)
  existingTransaction <- prisma.transaction_findFirst
    (fun t => prisma.hasId transactionId t && ofUser userId t) ;;
  match existingTransaction with
  | None => throw (AppError 404 "Transaction not found")
  | Some existing =>
      (* Verify account if being updated *)
      match UpdateTransactionData.accountId data with
      | Some a =>
          if JS.truthyString a then
            account <- prisma.account_findFirst a userId ;;
            match account with
            | None => throw (AppError 404 "Account not found")
            | Some _ => ret tt
            end
          else ret tt
      | None => ret tt
      end ;;;
      (* Verify category if being updated *)
      match UpdateTransactionData.categoryId data with
      | Some c =>
          if JS.truthyString c then
            category <- prisma.category_findFirst c userId ;;
            match category with
            | None => throw (AppError 404 "Category not found")
            | Some _ => ret tt
            end
          else ret tt
      | None => ret tt
      end ;;;
      (* Update transaction *)
      transaction <- prisma.transaction_update transactionId data ;;
      (* Update account balance if amount or account changed *)
      when (bool_decide (is_Some (UpdateTransactionData.amount data))
            || given (UpdateTransactionData.accountId data))
        (updateAccountBalance (Transaction.accountId transaction) ;;;
         when (given (UpdateTransactionData.accountId data)
               && negb (bool_decide (UpdateTransactionData.accountId data
                                     = Some (Transaction.accountId existing))))
           (updateAccountBalance (Transaction.accountId existing))) ;;;
      ret transaction
  end.

(** Delete a transaction. *)
Definition deleteTransaction (userId transactionId : string) : Prisma unit :=
  transaction <- prisma.transaction_findFirst
    (fun t => prisma.hasId transactionId t && ofUser userId t) ;;
  match transaction with
  | None => throw (AppError 404 "Transaction not found")
  | Some transaction =>
      prisma.transaction_delete transactionId ;;;
      (* Update account balance *)
      updateAccountBalance (Transaction.accountId transaction)
  end.

(** The [where] clause that [getTransactions] builds from its query. *)
Definition transactionsWhere (db : Engine) (userId : string)
    (query : GetTransactionsQuery.t) (t : Transaction.t) : bool :=
  ofUser userId t
  && match GetTransactionsQuery.accountId query with
     | Some a => if JS.truthyString a then ofAccount a t else true
     | None => true
     end
  && match GetTransactionsQuery.categoryId query with
     | Some c =>
         if JS.truthyString c
         then bool_decide (Transaction.categoryId t = Some c)
         else true
     | None => true
     end
  && match GetTransactionsQuery.type query with
     | Some ty => hasType ty t
     | None => true
     end
  && match GetTransactionsQuery.startDate query with
     | Some startDate => DateFns.startOfDay startDate <=? Transaction.date t
     | None => true
     end
  && match GetTransactionsQuery.endDate query with
     | Some endDate => Transaction.date t <=? DateFns.endOfDay endDate
     | None => true
     end
  && match GetTransactionsQuery.search query with
     | Some search =>
         if JS.truthyString search
         then containsInsensitive db (Transaction.description t) search
              || match Transaction.merchantName t with
                 | Some m => containsInsensitive db m search
                 | None => false
                 end
              || match Transaction.notes t with
                 | Some n => containsInsensitive db n search
                 | None => false
                 end
         else true
     | None => true
     end
  && match GetTransactionsQuery.tags query with
     | Some (tag :: tags) =>
         existsb (fun x => bool_decide (x ∈ default [] (Transaction.tags t)))
                 (tag :: tags)
     | _ => true
     end.

(** Get transactions with filters and pagination. *)
Definition getTransactions (db : Engine) (userId : string)
    (query : GetTransactionsQuery.t) : Prisma TransactionPage.t :=
  let page := default 1%nat (GetTransactionsQuery.page query) in
  let limit := default 20%nat (GetTransactionsQuery.limit query) in
  let sortBy := default "date" (GetTransactionsQuery.sortBy query) in
  let sortOrder := default desc (GetTransactionsQuery.sortOrder query) in
  (* Get transactions *)
  transactions <- prisma.transaction_findMany_page db
    (transactionsWhere db userId query) sortBy sortOrder
    ((Z.of_nat page - 1) * Z.of_nat limit) limit ;;
  total <- prisma.transaction_count (transactionsWhere db userId query) ;;
  ret {| TransactionPage.transactions := transactions;
         TransactionPage.total := total;
         TransactionPage.page := page;
         TransactionPage.limit := limit |}.

(** Get a single transaction. *)
Definition getTransaction (userId transactionId : string) : Prisma Transaction.t :=
  transaction <- prisma.transaction_findFirst
    (fun t => prisma.hasId transactionId t && ofUser userId t) ;;
  match transaction with
  | None => throw (AppError 404 "Transaction not found")
  | Some transaction => ret transaction
  end.

(** The [where] clause of [getStatistics]. *)
Definition statisticsWhere (userId : string) (startDate endDate : option Date)
    (t : Transaction.t) : bool :=
  ofUser userId t && isPosted t
  && match startDate with
     | Some startDate => DateFns.startOfDay startDate <=? Transaction.date t
     | None => true
     end
  && match endDate with
     | Some endDate => Transaction.date t <=? DateFns.endOfDay endDate
     | None => true
     end.

(** Get transaction statistics. *)
Definition getStatistics (userId : string) (startDate endDate : option Date)
  : Prisma Statistics.t :=
  incomeSum <- prisma.transaction_aggregate_sum
    (fun t => statisticsWhere userId startDate endDate t && hasType INCOME t) ;;
  expenseSum <- prisma.transaction_aggregate_sum
    (fun t => statisticsWhere userId startDate endDate t && hasType EXPENSE t) ;;
  count <- prisma.transaction_count (statisticsWhere userId startDate endDate) ;;
  let totalIncome := JS.NumberOr0 incomeSum in
  let totalExpenses := JS.NumberOr0 expenseSum in
  ret {| Statistics.totalIncome := totalIncome;
         Statistics.totalExpenses := totalExpenses;
         Statistics.netAmount := JS.sub totalIncome totalExpenses;
         Statistics.transactionCount := count;
         Statistics.averageTransaction :=
           if (0 <? count)%nat
           then JS.div (JS.add totalIncome totalExpenses)
                       (JS.Fin (inject_Z (Z.of_nat count)))
           else JS.Fin 0 |}.

End TransactionService.

(* ===================================================================== *)
(** * BudgetService *)
(* ===================================================================== *)

Module Alert.
Record t : Type := mk {
  budget : BudgetWithProgress.t;
  message : string
}.
End Alert.

Module BudgetService.

(** Calculate spending for a budget. *)
Definition calculateSpending (userId : string) (budget : Budget.t)
  : Prisma JS.number :=
  result <- prisma.transaction_aggregate_sum
    (fun t =>
       ofUser userId t && hasType EXPENSE t && isPosted t
       && (Budget.startDate budget <=? Transaction.date t)
       && match Budget.endDate budget with
          | Some e => Transaction.date t <=? e
          | None => true
          end
       && match Budget.categoryId budget with
          | Some c =>
              if JS.truthyString c
              then bool_decide (Transaction.categoryId t = Some c)
              else true
          | None => true
          end) ;;
  ret (JS.NumberOr0 result).

(** Get budgets with spending progress. *)
Definition getBudgets (userId : string) (period : option BudgetPeriod)
  : Prisma (list BudgetWithProgress.t) :=
  budgets <- prisma.budget_findMany
    (fun b =>
       bool_decide (Budget.userId b = userId)
       && match period with
          | Some p => bool_decide (Budget.period b = p)
          | None => true
          end) ;;
  (* Calculate spending for each budget *)
  mapM (fun budget =>
          spent <- calculateSpending userId budget ;;
          let remaining := JS.sub (JS.Fin (Budget.amount budget)) spent in
          let percentageUsed :=
            JS.mul (JS.div spent (JS.Fin (Budget.amount budget))) (JS.Fin 100) in
          let isOverBudget := JS.gt spent (JS.Fin (Budget.amount budget)) in
          ret {| BudgetWithProgress.budget := budget;
                 BudgetWithProgress.spent := spent;
                 BudgetWithProgress.remaining := remaining;
                 BudgetWithProgress.percentageUsed := percentageUsed;
                 BudgetWithProgress.isOverBudget := isOverBudget |})
       budgets.

(** Get a single budget with progress. *)
Definition getBudget (userId budgetId : string) : Prisma BudgetWithProgress.t :=
  budget <- prisma.budget_findFirst
    (fun b => bool_decide (Budget.id b = budgetId)
              && bool_decide (Budget.userId b = userId)) ;;
  match budget with
  | None => throw (AppError 404 "Budget not found")
  | Some budget =>
      spent <- calculateSpending userId budget ;;
      let remaining := JS.sub (JS.Fin (Budget.amount budget)) spent in
      let percentageUsed :=
        JS.mul (JS.div spent (JS.Fin (Budget.amount budget))) (JS.Fin 100) in
      let isOverBudget := JS.gt spent (JS.Fin (Budget.amount budget)) in
      ret {| BudgetWithProgress.budget := budget;
             BudgetWithProgress.spent := spent;
             BudgetWithProgress.remaining := remaining;
             BudgetWithProgress.percentageUsed := percentageUsed;
             BudgetWithProgress.isOverBudget := isOverBudget |}
  end.

(** [budget.alertThreshold || 80] *)
Definition threshold (budget : Budget.t) : JS.number :=
  match Budget.alertThreshold budget with
  | Some q => if JS.truthy (JS.Fin q) then JS.Fin q else JS.Fin 80
  | None => JS.Fin 80
  end.

Definition exceededMessage (budget : BudgetWithProgress.t) : string :=
  "You've exceeded your " ++ Budget.name (BudgetWithProgress.budget budget)
  ++ " budget by $"
  ++ JS.toFixed (JS.abs (BudgetWithProgress.remaining budget)) 2.

Definition usedMessage (budget : BudgetWithProgress.t) : string :=
  "You've used " ++ JS.toFixed (BudgetWithProgress.percentageUsed budget) 0
  ++ "% of your " ++ Budget.name (BudgetWithProgress.budget budget)
  ++ " budget".

(** One turn of the loop of [getBudgetAlerts] over the budgets: [alerts] is
    the array built so far. *)
Definition alertStep (alerts : list Alert.t) (budget : BudgetWithProgress.t)
  : list Alert.t :=
  if negb (Budget.alertEnabled (BudgetWithProgress.budget budget)) then alerts
  else
    let threshold := threshold (BudgetWithProgress.budget budget) in
    if BudgetWithProgress.isOverBudget budget then
      (alerts ++ [ {| Alert.budget := budget;
                      Alert.message := exceededMessage budget |} ])%list
    else if JS.ge (BudgetWithProgress.percentageUsed budget) threshold then
      (alerts ++ [ {| Alert.budget := budget;
                      Alert.message := usedMessage budget |} ])%list
    else alerts.

(** Get budget alerts. *)
Definition getBudgetAlerts (userId : string) : Prisma (list Alert.t) :=
  budgets <- getBudgets userId None ;;
  ret (fold_left alertStep budgets []).

(** Create a new budget.  [newId] and [createdAt] are the id and the time
    that the database gives the row. *)
Definition createBudget (defaults : BudgetDefaults) (userId newId : string)
    (createdAt : Date) (data : CreateBudgetData.t) : Prisma Budget.t :=
  (* Verify category if provided *)
  match CreateBudgetData.categoryId data with
  | Some c =>
      if JS.truthyString c then
        category <- prisma.category_findFirst c userId ;;
        match category with
        | None => throw (AppError 404 "Category not found")
        | Some _ => ret tt
        end
      else ret tt
  | None => ret tt
  end ;;;
  prisma.budget_create
    {| Budget.id := newId;
       Budget.userId := userId;
       Budget.name := CreateBudgetData.name data;
       Budget.amount := CreateBudgetData.amount data;
       Budget.period := CreateBudgetData.period data;
       Budget.startDate := CreateBudgetData.startDate data;
       Budget.endDate := CreateBudgetData.endDate data;
       Budget.categoryId := CreateBudgetData.categoryId data;
       Budget.rollover :=
         default (defaultRollover defaults) (CreateBudgetData.rollover data);
       Budget.alertEnabled :=
         default (defaultAlertEnabled defaults) (CreateBudgetData.alertEnabled data);
       Budget.alertThreshold :=
         prisma.orElse (CreateBudgetData.alertThreshold data)
                       (defaultAlertThreshold defaults);
       Budget.createdAt := createdAt |}.

(** Update a budget. *)
Definition updateBudget (userId budgetId : string) (data : UpdateBudgetData.t)
  : Prisma Budget.t :=
  existingBudget <- prisma.budget_findFirst
    (fun b => bool_decide (Budget.id b = budgetId)
              && bool_decide (Budget.userId b = userId)) ;;
  match existingBudget with
  | None => throw (AppError 404 "Budget not found")
  | Some _ =>
      (* Verify category if being updated *)
      match UpdateBudgetData.categoryId data with
      | Some c =>
          if JS.truthyString c then
            category <- prisma.category_findFirst c userId ;;
            match category with
            | None => throw (AppError 404 "Category not found")
            | Some _ => ret tt
            end
          else ret tt
      | None => ret tt
      end ;;;
      prisma.budget_update budgetId data
  end.

(** Delete a budget. *)
Definition deleteBudget (userId budgetId : string) : Prisma unit :=
  budget <- prisma.budget_findFirst
    (fun b => bool_decide (Budget.id b = budgetId)
              && bool_decide (Budget.userId b = userId)) ;;
  match budget with
  | None => throw (AppError 404 "Budget not found")
  | Some _ => prisma.budget_delete budgetId
  end.

End BudgetService.

(* ===================================================================== *)
(** * AnalyticsService *)
(* ===================================================================== *)

Module Comparison.
Record t : Type := mk { income : JS.number; expenses : JS.number }.
End Comparison.

Module DashboardOverview.
Record t : Type := mk {
  totalBalance : JS.number;
  monthlyIncome : JS.number;
  monthlyExpenses : JS.number;
  savingsRate : JS.number;
  netWorth : JS.number;
  lastMonthComparison : Comparison.t
}.
End DashboardOverview.

(** A value of the map of [getSpendingByCategory]. *)
Module Bucket.
Record t : Type := mk { amount : JS.number; count : nat }.
End Bucket.

Module CategorySpending.
Record t : Type := mk {
  category : string;
  amount : JS.number;
  percentage : JS.number;
  count : nat
}.
End CategorySpending.

Module TrendPoint.
Record t : Type := mk {
  date : string;
  income : JS.number;
  expenses : JS.number;
  net : JS.number
}.
End TrendPoint.

Module MonthlySummary.
Record t : Type := mk {
  month : string;
  income : JS.number;
  expenses : JS.number;
  net : JS.number;
  savingsRate : JS.number;
  transactionCount : nat;
  categoryBreakdown : list CategorySpending.t;
  topCategories : list CategorySpending.t
}.
End MonthlySummary.

Module YearToDateSummary.
Record t : Type := mk {
  year : string;
  totalIncome : JS.number;
  totalExpenses : JS.number;
  net : JS.number;
  averageMonthlyIncome : JS.number;
  averageMonthlyExpenses : JS.number;
  monthlySummaries : list MonthlySummary.t
}.
End YearToDateSummary.

Inductive Period : Type := week | month | year.

(** A JavaScript [Map] with string keys: the entries in insertion order;
    setting a key that is present keeps its place. *)
Fixpoint mapGet {V} (k : string) (m : list (string * V)) : option V :=
  match m with
  | [] => None
  | (k', v) :: rest => if bool_decide (k' = k) then Some v else mapGet k rest
  end.

Fixpoint mapSet {V} (k : string) (v : V) (m : list (string * V))
  : list (string * V) :=
  match m with
  | [] => [(k, v)]
  | (k', v') :: rest =>
      if bool_decide (k' = k) then (k, v) :: rest
      else (k', v') :: mapSet k v rest
  end.

(** [l.reduce((sum, x) => sum + f(x), 0)] *)
Definition sumOf {A} (f : A -> JS.number) (l : list A) : JS.number :=
  fold_left (fun sum x => JS.add sum (f x)) l (JS.Fin 0).

Module AnalyticsService.

(** Get total amount by transaction type. *)
Definition getTotalByType (userId : string) (type : TransactionType)
    (startDate endDate : Date) : Prisma JS.number :=
  result <- prisma.transaction_aggregate_sum
    (fun t => ofUser userId t && hasType type t && isPosted t
              && dateBetween startDate endDate t) ;;
  ret (JS.NumberOr0 result).

(** Get total balance across all accounts. *)
Definition getTotalBalance (userId : string) : Prisma JS.number :=
  result <- prisma.account_aggregate_sum_balance userId ;;
  ret (JS.NumberOr0 result).

(** Get dashboard overview data; [now] is [new Date()]. *)
Definition getDashboardOverview (userId : string) (now : Date)
  : Prisma DashboardOverview.t :=
  let thisMonthStart := DateFns.startOfMonth now in
  let thisMonthEnd := DateFns.endOfMonth now in
  let lastMonthStart := DateFns.startOfMonth (DateFns.subMonths now 1) in
  let lastMonthEnd := DateFns.endOfMonth (DateFns.subMonths now 1) in
  (* Get current month income and expenses *)
  thisMonthIncome <- getTotalByType userId INCOME thisMonthStart thisMonthEnd ;;
  thisMonthExpenses <- getTotalByType userId EXPENSE thisMonthStart thisMonthEnd ;;
  lastMonthIncome <- getTotalByType userId INCOME lastMonthStart lastMonthEnd ;;
  lastMonthExpenses <- getTotalByType userId EXPENSE lastMonthStart lastMonthEnd ;;
  totalBalance <- getTotalBalance userId ;;
  (* Calculate month-over-month comparison *)
  let incomeChange :=
    if JS.gt lastMonthIncome (JS.Fin 0)
    then JS.mul (JS.div (JS.sub thisMonthIncome lastMonthIncome) lastMonthIncome)
                (JS.Fin 100)
    else JS.Fin 0 in
  let expenseChange :=
    if JS.gt lastMonthExpenses (JS.Fin 0)
    then JS.mul (JS.div (JS.sub thisMonthExpenses lastMonthExpenses) lastMonthExpenses)
                (JS.Fin 100)
    else JS.Fin 0 in
  (* Calculate savings rate *)
  let savingsRate :=
    if JS.gt thisMonthIncome (JS.Fin 0)
    then JS.mul (JS.div (JS.sub thisMonthIncome thisMonthExpenses) thisMonthIncome)
                (JS.Fin 100)
    else JS.Fin 0 in
  ret {| DashboardOverview.totalBalance := totalBalance;
         DashboardOverview.monthlyIncome := thisMonthIncome;
         DashboardOverview.monthlyExpenses := thisMonthExpenses;
         DashboardOverview.savingsRate := JS.max (JS.Fin 0) savingsRate;
         DashboardOverview.netWorth := totalBalance;
         DashboardOverview.lastMonthComparison :=
           {| Comparison.income := incomeChange;
              Comparison.expenses := expenseChange |} |}.

(** [transaction.category?.name || 'Uncategorized'] *)
Definition categoryName (category : option Category.t) : string :=
  match category with
  | Some c =>
      if JS.truthyString (Category.name c) then Category.name c
      else "Uncategorized"
  | None => "Uncategorized"
  end.

(** One turn of the grouping loop of [getSpendingByCategory]: the state is
    the map and the running total. *)
Definition groupStep (acc : list (string * Bucket.t) * JS.number)
    (row : Transaction.t * option Category.t)
  : list (string * Bucket.t) * JS.number :=
  let '(categoryMap, total) := acc in
  let '(transaction, category) := row in
  let categoryName := categoryName category in
  let amount := JS.Fin (Transaction.amount transaction) in
  let total := JS.add total amount in
  let existing :=
    default {| Bucket.amount := JS.Fin 0; Bucket.count := 0 |}
            (mapGet categoryName categoryMap) in
  (mapSet categoryName
     {| Bucket.amount := JS.add (Bucket.amount existing) amount;
        Bucket.count := (Bucket.count existing + 1)%nat |}
     categoryMap,
   total).

(** Get spending by category. *)
Definition getSpendingByCategory (userId : string) (startDate endDate : Date)
  : Prisma (list CategorySpending.t) :=
  transactions <- prisma.transaction_findMany_include_category
    (fun t => ofUser userId t && hasType EXPENSE t && isPosted t
              && dateBetween startDate endDate t) ;;
  (* Group by category *)
  let '(categoryMap, total) := fold_left groupStep transactions ([], JS.Fin 0) in
  (* Convert to array and calculate percentages *)
  let result :=
    (fun '(category, data) =>
       {| CategorySpending.category := category;
          CategorySpending.amount := Bucket.amount data;
          CategorySpending.count := Bucket.count data;
          CategorySpending.percentage :=
            if JS.gt total (JS.Fin 0)
            then JS.mul (JS.div (Bucket.amount data) total) (JS.Fin 100)
            else JS.Fin 0 |}) <$> categoryMap in
  (* Sort by amount descending: (a, b) => b.amount - a.amount *)
  ret (stableSort
         (fun a b =>
            JS.gt (JS.sub (CategorySpending.amount b) (CategorySpending.amount a))
                  (JS.Fin 0))
         result).

(** The bucket of [getSpendingTrends] for one interval. *)
Definition trendPoint (period : Period) (transactions : list Transaction.t)
    (interval : Date) : TrendPoint.t :=
  let intervalStart :=
    match period with year => DateFns.startOfMonth interval | _ => interval end in
  let intervalEnd :=
    match period with year => DateFns.endOfMonth interval | _ => interval end in
  let intervalTransactions :=
    List.filter
      (fun t =>
         let tDate := Transaction.date t in
         (intervalStart <=? tDate) && (tDate <=? intervalEnd))
      transactions in
  let income :=
    sumOf (fun t => JS.Fin (Transaction.amount t))
          (List.filter (hasType INCOME) intervalTransactions) in
  let expenses :=
    sumOf (fun t => JS.Fin (Transaction.amount t))
          (List.filter (hasType EXPENSE) intervalTransactions) in
  {| TrendPoint.date :=
       DateFns.format interval
         match period with year => "MMM yyyy" | _ => "MMM dd" end;
     TrendPoint.income := income;
     TrendPoint.expenses := expenses;
     TrendPoint.net := JS.sub income expenses |}.

(** Get spending trends over time; [now] is [new Date()]. *)
Definition getSpendingTrends (userId : string) (period : Period) (now : Date)
  : Prisma (list TrendPoint.t) :=
  let '(startDate, endDate, intervals) :=
    match period with
    | week =>
        let startDate := DateFns.startOfWeek now in
        let endDate := DateFns.endOfWeek now in
        (startDate, endDate, DateFns.eachDayOfInterval startDate endDate)
    | month =>
        let startDate := DateFns.startOfMonth now in
        let endDate := DateFns.endOfMonth now in
        (startDate, endDate, DateFns.eachDayOfInterval startDate endDate)
    | year =>
        let startDate := DateFns.startOfYear now in
        let endDate := DateFns.endOfYear now in
        (startDate, endDate, DateFns.eachMonthOfInterval startDate endDate)
    end in
  transactions <- prisma.transaction_findMany_orderBy_date
    (fun t => ofUser userId t && isPosted t && dateBetween startDate endDate t) ;;
  (* Group transactions by interval *)
  ret (trendPoint period transactions <$> intervals).

(** Get monthly summary report. *)
Definition getMonthlySummary (userId : string) (month : Date)
  : Prisma MonthlySummary.t :=
  let monthStart := DateFns.startOfMonth month in
  let monthEnd := DateFns.endOfMonth month in
  income <- getTotalByType userId INCOME monthStart monthEnd ;;
  expenses <- getTotalByType userId EXPENSE monthStart monthEnd ;;
  categoryBreakdown <- getSpendingByCategory userId monthStart monthEnd ;;
  transactionCount <- prisma.transaction_count
    (fun t => ofUser userId t && isPosted t && dateBetween monthStart monthEnd t) ;;
  ret {| MonthlySummary.month := DateFns.format month "MMMM yyyy";
         MonthlySummary.income := income;
         MonthlySummary.expenses := expenses;
         MonthlySummary.net := JS.sub income expenses;
         MonthlySummary.savingsRate :=
           if JS.gt income (JS.Fin 0)
           then JS.mul (JS.div (JS.sub income expenses) income) (JS.Fin 100)
           else JS.Fin 0;
         MonthlySummary.transactionCount := transactionCount;
         MonthlySummary.categoryBreakdown := categoryBreakdown;
         MonthlySummary.topCategories := firstn 5 categoryBreakdown |}.

(** Get year-to-date summary; [now] is [new Date()]. *)
Definition getYearToDateSummary (userId : string) (now : Date)
  : Prisma YearToDateSummary.t :=
  let yearStart := DateFns.startOfYear now in
  let yearEnd := now in
  let months := DateFns.eachMonthOfInterval yearStart yearEnd in
  monthlySummaries <- mapM (fun month => getMonthlySummary userId month) months ;;
  let totalIncome := sumOf MonthlySummary.income monthlySummaries in
  let totalExpenses := sumOf MonthlySummary.expenses monthlySummaries in
  let monthCount := JS.Fin (inject_Z (Z.of_nat (length months))) in
  ret {| YearToDateSummary.year := DateFns.format now "yyyy";
         YearToDateSummary.totalIncome := totalIncome;
         YearToDateSummary.totalExpenses := totalExpenses;
         YearToDateSummary.net := JS.sub totalIncome totalExpenses;
         YearToDateSummary.averageMonthlyIncome := JS.div totalIncome monthCount;
         YearToDateSummary.averageMonthlyExpenses := JS.div totalExpenses monthCount;
         YearToDateSummary.monthlySummaries := monthlySummaries |}.

(** Get recent transactions; [limit] is 10 when it is not given. *)
Definition getRecentTransactions (userId : string) (limit : option nat)
  : Prisma (list Transaction.t) :=
  prisma.transaction_findMany_latest
    (fun t => ofUser userId t && isPosted t) (default 10%nat limit).

End AnalyticsService.

(* ===================================================================== *)
(** * The error handler and the routes by id *)
(* ===================================================================== *)

(** What a route sends: the status and, for an error, the fields [error] and
    [message] of the JSON body.  The body of a success is the value the
    service returned; the field [field] of a 409 is not modelled. *)
Module Response.
Record t : Type := mk {
  status : Z;
  error : option string;
  message : option string
}.
End Response.

(** The handler that the server registers after the routes.  Of the classes
    it tells apart, the services throw three: [AppError], whose [name] is
    that of [Error], and the two of the Prisma client, a
    [PrismaClientValidationError] ([PrismaError "validation"]) and a
    [PrismaClientKnownRequestError] with its code; none of them has the name
    of a JWT error.  [production] says whether NODE_ENV is 'production', and
    [clientMessage] gives the message the Prisma client attached to an error,
    which the sources do not show. *)
Definition errorHandler (production : bool) (clientMessage : string -> string)
    (err : Error) : Response.t :=
  match err with
  | PrismaError code =>
      if bool_decide (code = "validation") then
        {| Response.status := 400;
           Response.error := Some "Validation Error";
           Response.message := Some "Invalid data provided" |}
      else if bool_decide (code = "P2002") then
        {| Response.status := 409;
           Response.error := Some "Conflict";
           Response.message := Some "A record with this value already exists" |}
      else if bool_decide (code = "P2025") then
        {| Response.status := 404;
           Response.error := Some "Not Found";
           Response.message := Some "Record not found" |}
      else
        {| Response.status := 500;
           Response.error := Some "Internal Server Error";
           Response.message :=
             Some (if production then "Something went wrong"
                   else clientMessage code) |}
  | AppError statusCode message =>
      {| Response.status := statusCode;
         Response.error := Some "Error";
         Response.message := Some message |}
  end.

(** [try { const x = await service; res.status(success).json(x) }
     catch (error) { next(error) }] *)
Definition route {A} (production : bool) (clientMessage : string -> string)
    (success : Z) (service : Prisma A) (st : Store) : Response.t * Store :=
  match service st with
  | (Ok _, st') =>
      ({| Response.status := success; Response.error := None;
          Response.message := None |}, st')
  | (Throw err, st') => (errorHandler production clientMessage err, st')
  end.

Module TransactionRouter.

(** GET /api/transactions/:id *)
Definition get (production : bool) (clientMessage : string -> string)
    (userId id : string) : Store -> Response.t * Store :=
  route production clientMessage 200 (TransactionService.getTransaction userId id).

(** DELETE /api/transactions/:id *)
Definition delete (production : bool) (clientMessage : string -> string)
    (userId id : string) : Store -> Response.t * Store :=
  route production clientMessage 204 (TransactionService.deleteTransaction userId id).

End TransactionRouter.

Module BudgetRouter.

(** GET /api/budgets/:id *)
Definition get (production : bool) (clientMessage : string -> string)
    (userId id : string) : Store -> Response.t * Store :=
  route production clientMessage 200 (BudgetService.getBudget userId id).

(** DELETE /api/budgets/:id *)
Definition delete (production : bool) (clientMessage : string -> string)
    (userId id : string) : Store -> Response.t * Store :=
  route production clientMessage 204 (BudgetService.deleteBudget userId id).

End BudgetRouter.

(* ===================================================================== *)
(** * Definitions for the statements *)
(* ===================================================================== *)

Fixpoint sumQ (l : list Q) : Q :=
  match l with
  | [] => 0
  | x :: rest => x + sumQ rest
  end%Q.

(** The sum of the amounts of the rows that satisfy [P]. *)
Definition amountsOf (P : Transaction.t -> bool) (rows : list Transaction.t) : Q :=
  sumQ (Transaction.amount <$> List.filter P rows).

(** What one transaction adds to the balance of its account: its amount when
    it is a POSTED INCOME, minus its amount when it is a POSTED EXPENSE,
    nothing otherwise, so nothing for a TRANSFER. *)
Definition contribution (t : Transaction.t) : Q :=
  match Transaction.status t, Transaction.type t with
  | POSTED, INCOME => Transaction.amount t
  | POSTED, EXPENSE => - Transaction.amount t
  | _, _ => 0
  end.

Definition ledgerBalance (accountId : string) (rows : list Transaction.t) : Q :=
  sumQ (contribution <$> List.filter (ofAccount accountId) rows).

(** The stored balance of [accountId] is the sum of its POSTED INCOME amounts
    minus the sum of its POSTED EXPENSE amounts; said again with
    [contribution], a TRANSFER adds to neither sum. *)
Definition balanceMatchesLedger (st : Store) (accountId : string) : Prop :=
  exists acc,
    accounts st !! accountId = Some acc
    /\ (Account.balance acc ==
        amountsOf (fun t => ofAccount accountId t && hasType INCOME t && isPosted t)
                  (transactions st)
        - amountsOf (fun t => ofAccount accountId t && hasType EXPENSE t && isPosted t)
                    (transactions st))%Q
    /\ (Account.balance acc == ledgerBalance accountId (transactions st))%Q.

(** The three requests that change the ledger. *)
Inductive Mutation : Type :=
| Create (userId newId : string) (data : CreateTransactionData.t)
| Update (userId transactionId : string) (data : UpdateTransactionData.t)
| Delete (userId transactionId : string).

Definition runMutation (m : Mutation) : Prisma unit :=
  match m with
  | Create userId newId data =>
      _ <- TransactionService.createTransaction userId newId data ;; ret tt
  | Update userId transactionId data =>
      _ <- TransactionService.updateTransaction userId transactionId data ;; ret tt
  | Delete userId transactionId =>
      TransactionService.deleteTransaction userId transactionId
  end.

(** The recalculations that completed between [st] and [st']. *)
Definition recalculatedBetween (st st' : Store) (new : list string) : Prop :=
  balanceUpdates st' = (balanceUpdates st ++ new)%list.

(** Every recalculation that completed between [st] and [st'] left a balance
    that matches the ledger of [st']. *)
Definition recalculationsMatch (st st' : Store) : Prop :=
  exists new,
    recalculatedBetween st st' new
    /\ Forall (balanceMatchesLedger st') new.

(** ** Reasoning about the service monad *)

(** [wp m Q st]: running [m] from [st] ends in an outcome and a store that
    satisfy [Q]. *)
Definition wp {A} (m : Prisma A) (Q : Outcome A -> Store -> Prop) (st : Store)
  : Prop :=
  Q (fst (m st)) (snd (m st)).

(** The primary-key and naming constraints of a store: transaction ids are
    unique, and no account has the empty string for id (ids are generated by
    the database). *)
Definition wellFormed (st : Store) : Prop :=
  NoDup (Transaction.id <$> transactions st)
  /\ accounts st !! "" = None.





(** The total of the POSTED amounts of one type that the owner has between
    two dates: what [getTotalByType] sums. *)
Definition totalOf (userId : string) (type : TransactionType)
    (startDate endDate : Date) (st : Store) : Q :=
  amountsOf
    (fun t => ofUser userId t && hasType type t && isPosted t
              && dateBetween startDate endDate t)
    (transactions st).

(** The rational a finite number stands for. *)
Definition finValue (x : JS.number) : Q :=
  match x with
  | JS.Fin q => q
  | _ => 0
  end.

Definition isFin (x : JS.number) : Prop := exists q, x = JS.Fin q.

(** The progress fields of [bp] are those computed from its budget row and
    from what [calculateSpending] returns for it. *)
Definition progressComputed (userId : string) (st : Store)
    (bp : BudgetWithProgress.t) : Prop :=
  let amount := JS.Fin (Budget.amount (BudgetWithProgress.budget bp)) in
  exists s,
    BudgetService.calculateSpending userId (BudgetWithProgress.budget bp) st
    = (Ok (JS.Fin s), st)
    /\ BudgetWithProgress.spent bp = JS.Fin s
    /\ BudgetWithProgress.remaining bp = JS.sub amount (JS.Fin s)
    /\ BudgetWithProgress.percentageUsed bp
       = JS.mul (JS.div (JS.Fin s) amount) (JS.Fin 100)
    /\ BudgetWithProgress.isOverBudget bp = JS.gt (JS.Fin s) amount.

(** The alert threshold of a budget: the one it was given, 80 when it was
    given none (or 0). *)
Definition alertThresholdOr80 (budget : Budget.t) : Q :=
  match Budget.alertThreshold budget with
  | Some q => if Qeq_bool q 0 then 80 else q
  | None => 80
  end.

(** The alert a budget calls for, following the spec: none when its alerts
    are disabled; the overage message when it is over budget; otherwise the
    usage message exactly when the percentage used has reached the
    threshold. *)
Definition alertFor (bp : BudgetWithProgress.t) : option Alert.t :=
  if Budget.alertEnabled (BudgetWithProgress.budget bp) then
    if BudgetWithProgress.isOverBudget bp then
      Some {| Alert.budget := bp;
              Alert.message := BudgetService.exceededMessage bp |}
    else if JS.ge (BudgetWithProgress.percentageUsed bp)
                  (JS.Fin (alertThresholdOr80 (BudgetWithProgress.budget bp)))
    then Some {| Alert.budget := bp;
                 Alert.message := BudgetService.usedMessage bp |}
    else None
  else None.

(** The buckets of a category map hold finite amounts; their total. *)
Definition bucketsFinite (m : list (string * Bucket.t)) : Prop :=
  Forall (fun kv => isFin (Bucket.amount kv.2)) m.

Definition bucketsTotal (m : list (string * Bucket.t)) : Q :=
  sumQ ((fun kv => finValue (Bucket.amount kv.2)) <$> m).

(** The entry of the result of [getSpendingByCategory] for one bucket, when
    the running total is [total]. *)
Definition shareOf (total : JS.number) (kv : string * Bucket.t)
  : CategorySpending.t :=
  {| CategorySpending.category := kv.1;
     CategorySpending.amount := Bucket.amount kv.2;
     CategorySpending.count := Bucket.count kv.2;
     CategorySpending.percentage :=
       if JS.gt total (JS.Fin 0)
       then JS.mul (JS.div (Bucket.amount kv.2) total) (JS.Fin 100)
       else JS.Fin 0 |}.

(** The comparator of the final sort: [a] goes after [b] when
    [b.amount - a.amount > 0]. *)
Definition byAmountDesc (a b : CategorySpending.t) : bool :=
  JS.gt (JS.sub (CategorySpending.amount b) (CategorySpending.amount a))
        (JS.Fin 0).

(** The value a method returned, if it returned. *)
Definition returned {A} (r : Outcome A * Store) : option A :=
  match fst r with
  | Ok a => Some a
  | Throw _ => None
  end.

(* ===================================================================== *)
(** * A sample database *)
(* ===================================================================== *)

(** Two users.  The account [acc1] of [u1] holds the ledger of the spec's
    scenario: an income of 3500 and expenses of 45.99, 120.50 and 35.00.
    The user [u2] spent more than they earned in March 2024. *)
Module Sample.

(** 2024-03-01T09:00:00Z; 2024-03-15T10:30:00Z, a Friday. *)
Definition march1 : Date := 1709283600000.
Definition march15 : Date := 1710498600000.
Definition day : Z := DateFns.msPerDay.

Definition account (id userId : string) (balance : Q) : Account.t :=
  {| Account.id := id; Account.userId := userId; Account.name := "Everyday";
     Account.type := CHECKING; Account.balance := balance;
     Account.isActive := true |}.

Definition category (id name : string) : Category.t :=
  {| Category.id := id; Category.name := name; Category.userId := None;
     Category.isSystem := true |}.

Definition transaction (id userId accountId : string) (type : TransactionType)
    (amount : Q) (categoryId : option string) (date : Date) : Transaction.t :=
  {| Transaction.id := id; Transaction.userId := userId;
     Transaction.accountId := accountId; Transaction.amount := amount;
     Transaction.currency := None; Transaction.type := type;
     Transaction.description := "entry"; Transaction.merchantName := None;
     Transaction.categoryId := categoryId; Transaction.date := date;
     Transaction.notes := None; Transaction.tags := None;
     Transaction.receiptUrl := None; Transaction.taxDeductible := None;
     Transaction.taxCategory := None; Transaction.status := POSTED |}.

Definition create (accountId : string) (type : TransactionType) (amount : Q)
    (categoryId : option string) (date : Date) : CreateTransactionData.t :=
  {| CreateTransactionData.accountId := accountId;
     CreateTransactionData.amount := amount;
     CreateTransactionData.currency := None;
     CreateTransactionData.type := type;
     CreateTransactionData.description := "entry";
     CreateTransactionData.merchantName := None;
     CreateTransactionData.categoryId := categoryId;
     CreateTransactionData.date := date;
     CreateTransactionData.notes := None;
     CreateTransactionData.tags := None;
     CreateTransactionData.receiptUrl := None;
     CreateTransactionData.taxDeductible := None;
     CreateTransactionData.taxCategory := None |}.

(** Updates that give one field. *)
Definition withDescription (d : string) : UpdateTransactionData.t :=
  {| UpdateTransactionData.accountId := None;
     UpdateTransactionData.amount := None;
     UpdateTransactionData.currency := None;
     UpdateTransactionData.type := None;
     UpdateTransactionData.description := Some d;
     UpdateTransactionData.merchantName := None;
     UpdateTransactionData.categoryId := None;
     UpdateTransactionData.date := None;
     UpdateTransactionData.notes := None;
     UpdateTransactionData.tags := None;
     UpdateTransactionData.receiptUrl := None;
     UpdateTransactionData.taxDeductible := None;
     UpdateTransactionData.taxCategory := None |}.

Definition withType (ty : TransactionType) : UpdateTransactionData.t :=
  {| UpdateTransactionData.accountId := None;
     UpdateTransactionData.amount := None;
     UpdateTransactionData.currency := None;
     UpdateTransactionData.type := Some ty;
     UpdateTransactionData.description := None;
     UpdateTransactionData.merchantName := None;
     UpdateTransactionData.categoryId := None;
     UpdateTransactionData.date := None;
     UpdateTransactionData.notes := None;
     UpdateTransactionData.tags := None;
     UpdateTransactionData.receiptUrl := None;
     UpdateTransactionData.taxDeductible := None;
     UpdateTransactionData.taxCategory := None |}.

Definition withAccount (a : string) : UpdateTransactionData.t :=
  {| UpdateTransactionData.accountId := Some a;
     UpdateTransactionData.amount := None;
     UpdateTransactionData.currency := None;
     UpdateTransactionData.type := None;
     UpdateTransactionData.description := None;
     UpdateTransactionData.merchantName := None;
     UpdateTransactionData.categoryId := None;
     UpdateTransactionData.date := None;
     UpdateTransactionData.notes := None;
     UpdateTransactionData.tags := None;
     UpdateTransactionData.receiptUrl := None;
     UpdateTransactionData.taxDeductible := None;
     UpdateTransactionData.taxCategory := None |}.

Definition budget (id userId name : string) (amount : Q)
    (categoryId : option string) (alertEnabled : bool)
    (alertThreshold : option Q) (createdAt : Date) : Budget.t :=
  {| Budget.id := id; Budget.userId := userId; Budget.name := name;
     Budget.amount := amount; Budget.period := MONTHLY;
     Budget.startDate := DateFns.startOfMonth march1; Budget.endDate := None;
     Budget.categoryId := categoryId; Budget.rollover := false;
     Budget.alertEnabled := alertEnabled;
     Budget.alertThreshold := alertThreshold; Budget.createdAt := createdAt |}.

(** The accounts and categories, before any transaction. *)
Definition opening : Store :=
  {| accounts :=
       <["acc1" := account "acc1" "u1" 0]>
       (<["acc2" := account "acc2" "u1" 0]>
       (<["acc3" := account "acc3" "u2" 0]> ∅));
     categories :=
       <["cat1" := category "cat1" "Groceries"]>
       (<["cat2" := category "cat2" "Dining"]>
       (<["cat3" := category "cat3" "Utilities"]> ∅));
     transactions := [];
     budgets :=
       [ budget "b1" "u1" "Groceries" 500 (Some "cat1") true None 1;
         budget "b2" "u1" "Utilities" 300 (Some "cat3") true (Some 80%Q) 2;
         budget "b3" "u1" "Dining" 100 (Some "cat2") true (Some 90%Q) 3;
         budget "b4" "u1" "Everything" 250 None false None 4;
         budget "b5" "u2" "Unset" 0 None true None 5 ];
     balanceUpdates := [] |}.

(** The requests that fill the ledger. *)
Definition requests : list Mutation :=
  [ Create "u1" "t1" (create "acc1" INCOME 3500 None march1);
    Create "u1" "t2" (create "acc1" EXPENSE 45.99 (Some "cat1") march15);
    Create "u1" "t3" (create "acc1" EXPENSE 120.50 (Some "cat2") (march15 + day));
    Create "u1" "t4" (create "acc1" EXPENSE 35.00 None (march15 - 2 * day));
    Create "u1" "t5" (create "acc2" EXPENSE 260 (Some "cat3") (march1 + 9 * day));
    Create "u2" "t6" (create "acc3" INCOME 100 None march1);
    Create "u2" "t7" (create "acc3" EXPENSE 150 None march15) ].

Definition ledger : Store :=
  {| accounts :=
       <["acc1" := account "acc1" "u1" 3298.51]>
       (<["acc2" := account "acc2" "u1" (-260)]>
       (<["acc3" := account "acc3" "u2" (-50)]> ∅));
     categories := categories opening;
     transactions :=
       [ transaction "t1" "u1" "acc1" INCOME 3500 None march1;
         transaction "t2" "u1" "acc1" EXPENSE 45.99 (Some "cat1") march15;
         transaction "t3" "u1" "acc1" EXPENSE 120.50 (Some "cat2") (march15 + day);
         transaction "t4" "u1" "acc1" EXPENSE 35.00 None (march15 - 2 * day);
         transaction "t5" "u1" "acc2" EXPENSE 260 (Some "cat3") (march1 + 9 * day);
         transaction "t6" "u2" "acc3" INCOME 100 None march1;
         transaction "t7" "u2" "acc3" EXPENSE 150 None march15 ];
     budgets := budgets opening;
     balanceUpdates := [] |}.

Definition move : Mutation := Update "u1" "t2" (withAccount "acc2").
Definition retype : Mutation := Update "u1" "t2" (withType INCOME).

(** 2024-05-14T10:30:00Z: a month in which nobody has a transaction. *)
Definition may14 : Date := march15 + 60 * day.

End Sample.

(* ===================================================================== *)
(** * Definitions for the further properties *)
(* ===================================================================== *)

(** ** The calendar *)

(** The day number of the first day of a month, and the month of a day
    number, months being counted from year 0 as in [DateFns.monthIndex]. *)
Definition firstDayOfMonth (idx : Z) : Z :=
  DateFns.daysFromCivil (idx / 12) (idx mod 12 + 1) 1.

Definition monthIndexOfDay (z : Z) : Z :=
  12 * fst (fst (DateFns.civilFromDays z))
  + (snd (fst (DateFns.civilFromDays z)) - 1).

(** The day number of the first day of a month in the calendar that begins
    its years in March: [era] counts the cycles of 400 years, [yoe] the year
    of the cycle (0 to 399) and [mp] the month from March (0 to 11). *)
Definition marchYearStart (yoe : Z) : Z := 365 * yoe + yoe / 4 - yoe / 100.

Definition marchMonthStart (era yoe mp : Z) : Z :=
  era * 146097 + marchYearStart yoe + (153 * mp + 2) / 5 - 719468.

(** The civil month and year of a month counted from March. *)
Definition civilMonth (mp : Z) : Z := if mp <? 10 then mp + 3 else mp - 9.
Definition civilYear (era yoe mp : Z) : Z :=
  if civilMonth mp <=? 2 then yoe + era * 400 + 1 else yoe + era * 400.

(** ** Ownership *)

(** The account of a transaction exists and belongs to the user of the
    transaction. *)
Definition ownsItsAccount (st : Store) (t : Transaction.t) : Prop :=
  exists acc,
    accounts st !! Transaction.accountId t = Some acc
    /\ Account.userId acc = Transaction.userId t.

(** A consistent store: well formed, and every transaction is booked on an
    account of its own user. *)
Definition consistent (st : Store) : Prop :=
  wellFormed st /\ Forall (ownsItsAccount st) (transactions st).

(** The user who sends a mutation. *)
Definition userOf (m : Mutation) : string :=
  match m with
  | Create userId _ _ => userId
  | Update userId _ _ => userId
  | Delete userId _ => userId
  end.

(** From [st] to [st'] the categories and budgets stay, and an account
    changes at most its balance, and only when it belongs to [u]. *)
Definition balancesOnly (u : string) (st st' : Store) : Prop :=
  categories st' = categories st
  /\ budgets st' = budgets st
  /\ forall a,
       accounts st' !! a = accounts st !! a
       \/ exists acc b,
            accounts st !! a = Some acc
            /\ Account.userId acc = u
            /\ accounts st' !! a = Some (prisma.set_balance b acc).

(** What a successful mutation does to the rows of the ledger. *)
Definition ledgerEffect (m : Mutation) (rows rows' : list Transaction.t) : Prop :=
  match m with
  | Create userId newId data =>
      exists row,
        rows' = (rows ++ [row])%list
        /\ Transaction.id row = newId
        /\ Transaction.userId row = userId
        /\ existsb (prisma.hasId newId) rows = false
  | Update userId transactionId data =>
      exists row,
        head (List.filter (fun t => prisma.hasId transactionId t && ofUser userId t)
                rows) = Some row
        /\ rows' = prisma.replaceRow transactionId (prisma.applyUpdate data row) rows
  | Delete userId transactionId =>
      exists row,
        head (List.filter (fun t => prisma.hasId transactionId t && ofUser userId t)
                rows) = Some row
        /\ rows' = List.filter (fun t => negb (prisma.hasId transactionId t)) rows
  end.

(** The rows of the users other than [u]. *)
Definition rowsOfOthers (u : string) (st : Store) : list Transaction.t :=
  List.filter (fun t => negb (ofUser u t)) (transactions st).

(** [consistent], decided. *)
Definition ownsItsAccountb (st : Store) (t : Transaction.t) : bool :=
  match accounts st !! Transaction.accountId t with
  | Some acc => bool_decide (Account.userId acc = Transaction.userId t)
  | None => false
  end.

Definition consistentb (st : Store) : bool :=
  bool_decide (NoDup (Transaction.id <$> transactions st))
  && bool_decide (accounts st !! "" = None)
  && forallb (ownsItsAccountb st) (transactions st).

(** The answer of the three methods that name a transaction by its id when
    the caller has no transaction with that id. *)
Definition transactionNotFound : Error := AppError 404 "Transaction not found".

(** The store [Sample.ledger] without the account [acc3], which the
    transactions [t6] and [t7] still name. *)
Definition danglingLedger : Store :=
  prisma.set_accounts (delete "acc3" (accounts Sample.ledger)) Sample.ledger.

(** The row that [createTransaction] writes:
    [{ ...data, userId, status: POSTED }] with the id the database gives. *)
Definition createdRow (userId newId : string) (data : CreateTransactionData.t)
  : Transaction.t :=
  {| Transaction.id := newId;
     Transaction.userId := userId;
     Transaction.accountId := CreateTransactionData.accountId data;
     Transaction.amount := CreateTransactionData.amount data;
     Transaction.currency := CreateTransactionData.currency data;
     Transaction.type := CreateTransactionData.type data;
     Transaction.description := CreateTransactionData.description data;
     Transaction.merchantName := CreateTransactionData.merchantName data;
     Transaction.categoryId := CreateTransactionData.categoryId data;
     Transaction.date := CreateTransactionData.date data;
     Transaction.notes := CreateTransactionData.notes data;
     Transaction.tags := CreateTransactionData.tags data;
     Transaction.receiptUrl := CreateTransactionData.receiptUrl data;
     Transaction.taxDeductible := CreateTransactionData.taxDeductible data;
     Transaction.taxCategory := CreateTransactionData.taxCategory data;
     Transaction.status := POSTED |}.

(** The signed amount of a creation request: what it adds to the balance. *)
Definition signedAmount (type : TransactionType) (amount : Q) : Q :=
  match type with
  | INCOME => amount
  | EXPENSE => - amount
  | TRANSFER => 0
  end.

(** ** Reading *)

(** The engine sorts: what [orderRows] returns is a rearrangement of the rows
    it was given. *)
Definition engineSorts (db : Engine) : Prop :=
  forall column order rows sorted,
    orderRows db column order rows = Some sorted -> Permutation sorted rows.

(** The query [query], asking for the page [p]. *)
Definition withPage (p : nat) (query : GetTransactionsQuery.t)
  : GetTransactionsQuery.t :=
  {| GetTransactionsQuery.accountId := GetTransactionsQuery.accountId query;
     GetTransactionsQuery.categoryId := GetTransactionsQuery.categoryId query;
     GetTransactionsQuery.type := GetTransactionsQuery.type query;
     GetTransactionsQuery.startDate := GetTransactionsQuery.startDate query;
     GetTransactionsQuery.endDate := GetTransactionsQuery.endDate query;
     GetTransactionsQuery.search := GetTransactionsQuery.search query;
     GetTransactionsQuery.tags := GetTransactionsQuery.tags query;
     GetTransactionsQuery.page := Some p;
     GetTransactionsQuery.limit := GetTransactionsQuery.limit query;
     GetTransactionsQuery.sortBy := GetTransactionsQuery.sortBy query;
     GetTransactionsQuery.sortOrder := GetTransactionsQuery.sortOrder query |}.

(** The rows of the page [p] of a query; none when the request fails. *)
Definition pageRows (db : Engine) (userId : string)
    (query : GetTransactionsQuery.t) (st : Store) (p : nat) : list Transaction.t :=
  match fst (TransactionService.getTransactions db userId (withPage p query) st) with
  | Ok pg => TransactionPage.transactions pg
  | Throw _ => []
  end.


(** [x] may stand before [y] in a listing with the latest date first. *)
Definition notEarlier (x y : Transaction.t) : Prop :=
  Transaction.date y <= Transaction.date x.

(** An engine for the examples: it sorts by date or by amount and knows no
    other column; it matches text without regard to the case of the letters
    A to Z. *)
Definition lowerAscii (c : Ascii.ascii) : Ascii.ascii :=
  let n := Ascii.nat_of_ascii c in
  if ((65 <=? n) && (n <=? 90))%nat then Ascii.ascii_of_nat (n + 32) else c.

Fixpoint lower (s : string) : string :=
  match s with
  | EmptyString => EmptyString
  | String c rest => String (lowerAscii c) (lower rest)
  end.

Definition sampleEngine : Engine :=
  {| orderRows column order rows :=
       if decide (column = "date") then
         Some (stableSort
                 (fun t x =>
                    match order with
                    | asc => Transaction.date x <? Transaction.date t
                    | desc => Transaction.date t <? Transaction.date x
                    end) rows)
       else if decide (column = "amount") then
         Some (stableSort
                 (fun t x =>
                    match order with
                    | asc => Qle_bool (Transaction.amount x) (Transaction.amount t)
                             && negb (Qeq_bool (Transaction.amount x)
                                               (Transaction.amount t))
                    | desc => Qle_bool (Transaction.amount t) (Transaction.amount x)
                              && negb (Qeq_bool (Transaction.amount t)
                                                (Transaction.amount x))
                    end) rows)
       else None;
     containsInsensitive text part :=
       match String.index 0 (lower part) (lower text) with
       | Some _ => true
       | None => false
       end |}.

(** A query that gives nothing but a page size. *)
Definition queryWithLimit (limit : nat) : GetTransactionsQuery.t :=
  {| GetTransactionsQuery.accountId := None;
     GetTransactionsQuery.categoryId := None;
     GetTransactionsQuery.type := None;
     GetTransactionsQuery.startDate := None;
     GetTransactionsQuery.endDate := None;
     GetTransactionsQuery.search := None;
     GetTransactionsQuery.tags := None;
     GetTransactionsQuery.page := None;
     GetTransactionsQuery.limit := Some limit;
     GetTransactionsQuery.sortBy := None;
     GetTransactionsQuery.sortOrder := None |}.

(** ** Budgets *)

Definition budgetNotFound : Error := AppError 404 "Budget not found".

(** The filter of [getBudget], [updateBudget] and [deleteBudget]:
    [{ id: budgetId, userId }]. *)
Definition ownBudget (budgetId userId : string) (b : Budget.t) : bool :=
  bool_decide (Budget.id b = budgetId) && bool_decide (Budget.userId b = userId).

(** The filter of [getBudgets]: [{ userId }], and the period when one is
    given. *)
Definition budgetsOf (userId : string) (period : option BudgetPeriod)
    (b : Budget.t) : bool :=
  bool_decide (Budget.userId b = userId)
  && match period with
     | Some p => bool_decide (Budget.period b = p)
     | None => true
     end.

(** The row that [createBudget] writes: [{ ...data, userId }], with the id,
    the creation time and the defaults of the database. *)
Definition createdBudget (defaults : BudgetDefaults) (userId newId : string)
    (createdAt : Date) (data : CreateBudgetData.t) : Budget.t :=
  {| Budget.id := newId;
     Budget.userId := userId;
     Budget.name := CreateBudgetData.name data;
     Budget.amount := CreateBudgetData.amount data;
     Budget.period := CreateBudgetData.period data;
     Budget.startDate := CreateBudgetData.startDate data;
     Budget.endDate := CreateBudgetData.endDate data;
     Budget.categoryId := CreateBudgetData.categoryId data;
     Budget.rollover :=
       default (defaultRollover defaults) (CreateBudgetData.rollover data);
     Budget.alertEnabled :=
       default (defaultAlertEnabled defaults) (CreateBudgetData.alertEnabled data);
     Budget.alertThreshold :=
       prisma.orElse (CreateBudgetData.alertThreshold data)
                     (defaultAlertThreshold defaults);
     Budget.createdAt := createdAt |}.

(** [x] may stand before [y] in a listing with the newest budget first. *)
Definition newerFirst (x y : Budget.t) : Prop :=
  Budget.createdAt y <= Budget.createdAt x.

(** Data for the examples. *)
Definition sampleDefaults : BudgetDefaults :=
  {| defaultRollover := false; defaultAlertEnabled := true;
     defaultAlertThreshold := Some 80%Q |}.

Definition travelBudget : CreateBudgetData.t :=
  {| CreateBudgetData.name := "Travel";
     CreateBudgetData.amount := 400;
     CreateBudgetData.period := YEARLY;
     CreateBudgetData.startDate := Sample.march1;
     CreateBudgetData.endDate := None;
     CreateBudgetData.categoryId := Some "cat2";
     CreateBudgetData.rollover := None;
     CreateBudgetData.alertEnabled := None;
     CreateBudgetData.alertThreshold := None |}.

Definition withAmount (amount : Q) : UpdateBudgetData.t :=
  {| UpdateBudgetData.name := None;
     UpdateBudgetData.amount := Some amount;
     UpdateBudgetData.period := None;
     UpdateBudgetData.startDate := None;
     UpdateBudgetData.endDate := None;
     UpdateBudgetData.categoryId := None;
     UpdateBudgetData.rollover := None;
     UpdateBudgetData.alertEnabled := None;
     UpdateBudgetData.alertThreshold := None |}.

(** ** Calendar months *)

(** The row is dated in the month [idx] (months counted from year 0). *)
Definition inMonth (idx : Z) (t : Transaction.t) : bool :=
  DateFns.monthIndex (Transaction.date t) =? idx.


(** The total of the POSTED amounts of one type that the owner has in the
    month [idx], and in the months [first] to [last]. *)
Definition monthTotal (userId : string) (type : TransactionType) (idx : Z)
    (st : Store) : Q :=
  amountsOf (fun t => ofUser userId t && hasType type t && isPosted t && inMonth idx t)
            (transactions st).


(** The POSTED rows, of any type, that the owner has in the month [idx]. *)
Definition monthRows (userId : string) (idx : Z) (st : Store) : list Transaction.t :=
  List.filter (fun t => ofUser userId t && isPosted t && inMonth idx t)
              (transactions st).

(** The change from [last] to [this], in percent of [last]; 0 when [last] is
    not positive. *)
Definition changeFrom (last this : Q) : Q :=
  if Qlt_le_dec 0 last then (this - last) / last * 100 else 0.

(** The savings rate: what is left of the income, in percent of the income;
    0 when there is no income. *)
Definition rateOf (income expenses : Q) : Q :=
  if Qlt_le_dec 0 income then (income - expenses) / income * 100 else 0.

(** ** Categories *)



(** ** Routes *)

(** The caller has a transaction, or a budget, with the id. *)
Definition ownsTransaction (userId id : string) (st : Store) : Prop :=
  exists t,
    In t (transactions st) /\ Transaction.id t = id /\ Transaction.userId t = userId.

Definition ownsBudget (userId id : string) (st : Store) : Prop :=
  exists b, In b (budgets st) /\ Budget.id b = id /\ Budget.userId b = userId.

(** The answer to a success, and the answer to an [AppError] of status 404. *)
Definition success (status : Z) : Response.t :=
  {| Response.status := status; Response.error := None; Response.message := None |}.

Definition notFound (message : string) : Response.t :=
  {| Response.status := 404; Response.error := Some "Error";
     Response.message := Some message |}.

(** A query that searches a text. *)
Definition queryWithSearch (text : string) : GetTransactionsQuery.t :=
  {| GetTransactionsQuery.accountId := None;
     GetTransactionsQuery.categoryId := None;
     GetTransactionsQuery.type := None;
     GetTransactionsQuery.startDate := None;
     GetTransactionsQuery.endDate := None;
     GetTransactionsQuery.search := Some text;
     GetTransactionsQuery.tags := None;
     GetTransactionsQuery.page := None;
     GetTransactionsQuery.limit := None;
     GetTransactionsQuery.sortBy := Some "amount";
     GetTransactionsQuery.sortOrder := Some asc |}.

(* ===================================================================== *)
(** * Properties *)
(* ===================================================================== *)

(** ** Sums of rationals *)

Lemma fold_left_Qplus_acc {A} (f : A -> Q) (l : list A) (a : Q) :
  (fold_left (fun s x => s + f x) l a == a + sumQ (f <$> l))%Q.
Proof.
  revert a. induction l as [|x l IH]; intros a; cbn.
  - ring.
  - rewrite IH. cbn. ring.
Qed.

Lemma sumAmount_sumQ (rows : list Transaction.t) :
  (prisma.sumAmount rows == sumQ (Transaction.amount <$> rows))%Q.
Proof.
  unfold prisma.sumAmount. rewrite fold_left_Qplus_acc. ring.
Qed.

Lemma sumQ_app (l1 l2 : list Q) : (sumQ (l1 ++ l2) == sumQ l1 + sumQ l2)%Q.
Proof.
  induction l1 as [|x l1 IH]; simpl.
  - ring.
  - rewrite IH. ring.
Qed.


(** ** The balance recalculation *)

(** What the aggregate query returns, as a number. *)
Lemma aggregate_sum_run (P : Transaction.t -> bool) (st : Store) :
  exists d,
    prisma.transaction_aggregate_sum P st = (Ok d, st)
    /\ exists q, JS.NumberOr0 d = JS.Fin q /\ (q == amountsOf P (transactions st))%Q.
Proof.
  unfold prisma.transaction_aggregate_sum, amountsOf.
  destruct (List.filter P (transactions st)) as [|r rows] eqn:E.
  - exists None. split; [reflexivity|]. exists 0%Q. split; reflexivity.
  - exists (Some (prisma.sumAmount (r :: rows))). split; [reflexivity|].
    eexists. split; [reflexivity|]. apply sumAmount_sumQ.
Qed.

Lemma amountsOf_cons (P : Transaction.t -> bool) t rows :
  amountsOf P (t :: rows) =
  if P t then (Transaction.amount t + amountsOf P rows)%Q else amountsOf P rows.
Proof. unfold amountsOf. cbn. destruct (P t); reflexivity. Qed.

Lemma ledgerBalance_cons (a : string) t rows :
  ledgerBalance a (t :: rows) =
  if ofAccount a t then (contribution t + ledgerBalance a rows)%Q
  else ledgerBalance a rows.
Proof. unfold ledgerBalance. cbn. destruct (ofAccount a t); reflexivity. Qed.

(** Splitting the ledger of an account by type. *)
Lemma ledgerBalance_split (a : string) (rows : list Transaction.t) :
  (ledgerBalance a rows ==
   amountsOf (fun t => ofAccount a t && hasType INCOME t && isPosted t) rows
   - amountsOf (fun t => ofAccount a t && hasType EXPENSE t && isPosted t) rows)%Q.
Proof.
  induction rows as [|t rows IH].
  - reflexivity.
  - rewrite ledgerBalance_cons, !amountsOf_cons.
    set (L := ledgerBalance a rows) in *.
    set (I := amountsOf (fun t => ofAccount a t && hasType INCOME t && _) rows) in *.
    set (E := amountsOf (fun t => ofAccount a t && hasType EXPENSE t && _) rows) in *.
    clearbody L I E.
    unfold contribution, hasType, isPosted.
    destruct (ofAccount a t); cbn; [|exact IH].
    destruct (Transaction.type t), (Transaction.status t); cbn;
      repeat (case_bool_decide; try congruence); cbn; rewrite IH; ring.
Qed.

Lemma updateAccountBalance_missing (a : string) (st : Store) :
  accounts st !! a = None ->
  TransactionService.updateAccountBalance a st = (Throw (PrismaError "P2025"), st).
Proof.
  intros H. unfold TransactionService.updateAccountBalance, bind.
  destruct (aggregate_sum_run
              (fun t => ofAccount a t && hasType INCOME t && isPosted t) st)
    as (d1 & -> & q1 & -> & _).
  destruct (aggregate_sum_run
              (fun t => ofAccount a t && hasType EXPENSE t && isPosted t) st)
    as (d2 & -> & q2 & -> & _).
  unfold prisma.account_update_balance. rewrite H. reflexivity.
Qed.

Lemma updateAccountBalance_found (a : string) (st : Store) (acc : Account.t) :
  accounts st !! a = Some acc ->
  exists b,
    TransactionService.updateAccountBalance a st =
      (Ok tt,
       {| accounts := <[a := prisma.set_balance b acc]> (accounts st);
          categories := categories st;
          transactions := transactions st;
          budgets := budgets st;
          balanceUpdates := (balanceUpdates st ++ [a])%list |})
    /\ (b ==
        amountsOf (fun t => ofAccount a t && hasType INCOME t && isPosted t)
                  (transactions st)
        - amountsOf (fun t => ofAccount a t && hasType EXPENSE t && isPosted t)
                    (transactions st))%Q.
Proof.
  intros H. unfold TransactionService.updateAccountBalance, bind.
  destruct (aggregate_sum_run
              (fun t => ofAccount a t && hasType INCOME t && isPosted t) st)
    as (d1 & -> & q1 & -> & H1).
  destruct (aggregate_sum_run
              (fun t => ofAccount a t && hasType EXPENSE t && isPosted t) st)
    as (d2 & -> & q2 & -> & H2).
  unfold prisma.account_update_balance. rewrite H. cbn.
  eexists. split; [reflexivity|]. rewrite H1, H2. ring.
Qed.

(** A completed recalculation leaves the balance of its account equal to the
    ledger, and keeps that of every account that already was. *)
Lemma updateAccountBalance_matches (a : string) (st : Store) :
  let st' := snd (TransactionService.updateAccountBalance a st) in
  transactions st' = transactions st
  /\ (forall b, balanceMatchesLedger st b -> balanceMatchesLedger st' b)
  /\ (balanceUpdates st' = balanceUpdates st
      \/ balanceUpdates st' = (balanceUpdates st ++ [a])%list
         /\ balanceMatchesLedger st' a).
Proof.
  destruct (accounts st !! a) as [acc|] eqn:H.
  - destruct (updateAccountBalance_found a st acc H) as (b & -> & Hb). cbn.
    assert (Ha : balanceMatchesLedger
                   {| accounts := <[a := prisma.set_balance b acc]> (accounts st);
                      categories := categories st;
                      transactions := transactions st;
                      budgets := budgets st;
                      balanceUpdates := (balanceUpdates st ++ [a])%list |} a).
    { exists (prisma.set_balance b acc). cbn.
      rewrite lookup_insert_eq. split; [reflexivity|]. split; [exact Hb|].
      rewrite Hb. symmetry. apply ledgerBalance_split. }
    split; [reflexivity|]. split; [|right; split; [reflexivity|exact Ha]].
    intros c Hc. destruct (decide (c = a)) as [->|Hne]; [exact Ha|].
    destruct Hc as (acc' & Hl & Hrest). exists acc'. cbn.
    rewrite lookup_insert_ne by congruence. split; [exact Hl|exact Hrest].
  - rewrite (updateAccountBalance_missing a st H). cbn.
    split; [reflexivity|]. split; [tauto|left; reflexivity].
Qed.

Lemma recalculationsMatch_refl (st st' : Store) :
  balanceUpdates st' = balanceUpdates st -> recalculationsMatch st st'.
Proof.
  intros H. exists []. split; [|constructor].
  unfold recalculatedBetween. rewrite H, app_nil_r. reflexivity.
Qed.

Lemma recalculationsMatch_step (st0 st : Store) (a : string) :
  recalculationsMatch st0 st ->
  recalculationsMatch st0 (snd (TransactionService.updateAccountBalance a st)).
Proof.
  intros (new & Hnew & Hall).
  destruct (updateAccountBalance_matches a st) as (_ & Hkeep & Hlog).
  unfold recalculationsMatch, recalculatedBetween in *.
  destruct Hlog as [Hlog | [Hlog Ha]].
  - exists new. split; [congruence|].
    eapply Forall_impl; [exact Hall|]. exact Hkeep.
  - exists (new ++ [a])%list. split.
    + rewrite Hlog, Hnew, app_assoc. reflexivity.
    + apply Forall_app. split; [|repeat constructor; exact Ha].
      eapply Forall_impl; [exact Hall|]. exact Hkeep.
Qed.

(** ** Rules for [wp] *)

Lemma wp_ret {A} (a : A) Q st : Q (Ok a) st -> wp (ret a) Q st.
Proof. exact id. Qed.

Lemma wp_throw {A} (e : Error) (Q : Outcome A -> Store -> Prop) st :
  Q (Throw e) st -> wp (throw e) Q st.
Proof. exact id. Qed.

Lemma wp_bind {A B} (m : Prisma A) (k : A -> Prisma B) Q st :
  wp m (fun r st' =>
          match r with
          | Ok a => wp (k a) Q st'
          | Throw e => Q (Throw e) st'
          end) st ->
  wp (bind m k) Q st.
Proof.
  unfold wp, bind. destruct (m st) as [[a|e] st']; cbn; exact id.
Qed.

Lemma wp_run {A} (m : Prisma A) Q st r st' :
  wp m Q st -> m st = (r, st') -> Q r st'.
Proof. unfold wp. intros H E. rewrite E in H. exact H. Qed.

Lemma wp_weaken {A} (m : Prisma A) (Q Q' : Outcome A -> Store -> Prop) st :
  wp m Q st -> (forall r st', Q r st' -> Q' r st') -> wp m Q' st.
Proof. unfold wp. auto. Qed.

(** A method that returns and leaves the store as it was. *)
Lemma wp_returns {A} (m : Prisma A) st :
  wp m (fun r s => (exists a, r = Ok a) /\ s = st) st ->
  exists a, m st = (Ok a, st).
Proof.
  unfold wp. destruct (m st) as [r s]. cbn. intros [[a ->] ->]. eauto.
Qed.

(** One step through the text of a service method. *)
Ltac wp_step :=
  lazymatch goal with
  | |- wp (bind _ _) _ _ => apply wp_bind
  | |- wp (ret _) _ _ => apply wp_ret
  | |- wp (throw _) _ _ => apply wp_throw
  | |- wp (when ?c _) _ _ => unfold when; destruct c eqn:?
  | |- wp (match ?x with _ => _ end) _ _ => destruct x eqn:?
  | |- wp (prisma.account_findFirst _ _) _ _ =>
      unfold wp at 1, prisma.account_findFirst; cbn [fst snd]
  | |- wp (prisma.category_findFirst _ _) _ _ =>
      unfold wp at 1, prisma.category_findFirst; cbn [fst snd]
  | |- wp (prisma.transaction_findFirst _) _ _ =>
      unfold wp at 1, prisma.transaction_findFirst; cbn [fst snd]
  end.

Lemma wp_updateAccountBalance_trace (st0 : Store) (a : string) st
    (Q : Outcome unit -> Store -> Prop) :
  recalculationsMatch st0 st ->
  (forall r st', recalculationsMatch st0 st' -> Q r st') ->
  wp (TransactionService.updateAccountBalance a) Q st.
Proof.
  intros H HQ. unfold wp. apply HQ. apply recalculationsMatch_step. exact H.
Qed.

Lemma wp_transaction_create (row : Transaction.t) Q st :
  (existsb (prisma.hasId (Transaction.id row)) (transactions st) = true ->
   Q (Throw (PrismaError "P2002")) st) ->
  (prisma.references_ok st row = false -> Q (Throw (PrismaError "P2003")) st) ->
  (existsb (prisma.hasId (Transaction.id row)) (transactions st) = false ->
   prisma.references_ok st row = true ->
   Q (Ok row) (prisma.set_transactions (transactions st ++ [row])%list st)) ->
  wp (prisma.transaction_create row) Q st.
Proof.
  intros H1 H2 H3. unfold wp, prisma.transaction_create.
  destruct (existsb _ _) eqn:E1; cbn; [auto|].
  destruct (prisma.references_ok st row) eqn:E2; cbn; auto.
Qed.

Lemma wp_transaction_update (id : string) (data : UpdateTransactionData.t) Q st :
  (head (List.filter (prisma.hasId id) (transactions st)) = None ->
   Q (Throw (PrismaError "P2025")) st) ->
  (forall row,
     head (List.filter (prisma.hasId id) (transactions st)) = Some row ->
     prisma.references_ok st (prisma.applyUpdate data row) = false ->
     Q (Throw (PrismaError "P2003")) st) ->
  (forall row,
     head (List.filter (prisma.hasId id) (transactions st)) = Some row ->
     prisma.references_ok st (prisma.applyUpdate data row) = true ->
     Q (Ok (prisma.applyUpdate data row))
       (prisma.set_transactions
          (prisma.replaceRow id (prisma.applyUpdate data row) (transactions st)) st)) ->
  wp (prisma.transaction_update id data) Q st.
Proof.
  intros H1 H2 H3. unfold wp, prisma.transaction_update.
  destruct (head _) as [row|] eqn:E1; cbn; [|auto].
  destruct (prisma.references_ok st _) eqn:E2; cbn; eauto.
Qed.

Lemma wp_transaction_delete (id : string) Q st :
  (existsb (prisma.hasId id) (transactions st) = false ->
   Q (Throw (PrismaError "P2025")) st) ->
  (existsb (prisma.hasId id) (transactions st) = true ->
   Q (Ok tt)
     (prisma.set_transactions
        (List.filter (fun t => negb (prisma.hasId id t)) (transactions st)) st)) ->
  wp (prisma.transaction_delete id) Q st.
Proof.
  intros H1 H2. unfold wp, prisma.transaction_delete.
  destruct (existsb _ _) eqn:E1; cbn; auto.
Qed.

(** Closes the goals that a recalculation, or the end of a method, leaves
    when the postcondition is [recalculationsMatch]. *)
Ltac trace_step st0 :=
  lazymatch goal with
  | |- wp (TransactionService.updateAccountBalance _) _ _ =>
      apply (wp_updateAccountBalance_trace st0);
      [ first [ assumption | apply recalculationsMatch_refl; reflexivity ]
      | let r := fresh "r" in
        let st' := fresh "st'" in
        let H := fresh "Hm" in
        intros r st' H; destruct r ]
  | |- wp (prisma.transaction_create _) _ _ =>
      apply wp_transaction_create; intros
  | |- wp (prisma.transaction_update _ _) _ _ =>
      apply wp_transaction_update; intros
  | |- wp (prisma.transaction_delete _) _ _ =>
      apply wp_transaction_delete; intros
  | |- recalculationsMatch _ _ =>
      first [ assumption | apply recalculationsMatch_refl; reflexivity ]
  | |- _ => wp_step
  end.

Lemma createTransaction_trace userId newId data st :
  wp (TransactionService.createTransaction userId newId data)
     (fun _ st' => recalculationsMatch st st') st.
Proof.
  unfold TransactionService.createTransaction. repeat trace_step st.
Qed.




(** ** The outcome of the three mutations *)

Lemma wp_updateAccountBalance (a : string) Q st :
  (forall e, Q (Throw e) st) ->
  (forall acc b,
     accounts st !! a = Some acc ->
     Q (Ok tt)
       {| accounts := <[a := prisma.set_balance b acc]> (accounts st);
          categories := categories st;
          transactions := transactions st;
          budgets := budgets st;
          balanceUpdates := (balanceUpdates st ++ [a])%list |}) ->
  wp (TransactionService.updateAccountBalance a) Q st.
Proof.
  intros HT HO. unfold wp.
  destruct (accounts st !! a) as [acc|] eqn:H.
  - destruct (updateAccountBalance_found a st acc H) as (b & -> & _). cbn. eauto.
  - rewrite (updateAccountBalance_missing a st H). cbn. apply HT.
Qed.

Ltac run_step :=
  lazymatch goal with
  | |- wp (TransactionService.updateAccountBalance _) _ _ =>
      apply wp_updateAccountBalance; intros
  | |- wp (prisma.transaction_create _) _ _ =>
      apply wp_transaction_create; intros
  | |- wp (prisma.transaction_update _ _) _ _ =>
      apply wp_transaction_update; intros
  | |- wp (prisma.transaction_delete _) _ _ =>
      apply wp_transaction_delete; intros
  | |- _ => wp_step
  end.

(** After the steps, the outcomes that are not the one asked about go, and
    the one asked about is named. *)
Ltac outcome_cases :=
  cbv beta; intros; try discriminate;
  repeat match goal with
         | H : Ok _ = Ok _ |- _ => injection H as <-
         | H : Ok _ = Ok _ |- _ => clear H
         end.

Lemma createTransaction_ok userId newId data st tx st' :
  TransactionService.createTransaction userId newId data st = (Ok tx, st') ->
  Transaction.id tx = newId
  /\ Transaction.userId tx = userId
  /\ Transaction.accountId tx = CreateTransactionData.accountId data
  /\ Transaction.amount tx = CreateTransactionData.amount data
  /\ Transaction.type tx = CreateTransactionData.type data
  /\ Transaction.status tx = POSTED
  /\ existsb (prisma.hasId newId) (transactions st) = false
  /\ transactions st' = (transactions st ++ [tx])%list
  /\ balanceUpdates st' =
     (balanceUpdates st ++ [CreateTransactionData.accountId data])%list.
Proof.
  intros E.
  refine (wp_run _ (fun r s => forall t, r = Ok t -> _) st _ _ _ E tx eq_refl).
  clear E tx st'.
  unfold TransactionService.createTransaction.
  repeat run_step; outcome_cases.
  all: cbn in *; repeat split; assumption.
Qed.

Lemma deleteTransaction_ok userId transactionId st st' :
  TransactionService.deleteTransaction userId transactionId st = (Ok tt, st') ->
  exists t,
    head (List.filter (fun t => prisma.hasId transactionId t && ofUser userId t)
                      (transactions st)) = Some t
    /\ transactions st' =
       List.filter (fun t => negb (prisma.hasId transactionId t)) (transactions st)
    /\ balanceUpdates st' = (balanceUpdates st ++ [Transaction.accountId t])%list.
Proof.
  intros E.
  refine (wp_run _ (fun r s => forall x, r = Ok x -> _) st _ _ _ E tt eq_refl).
  clear E st'.
  unfold TransactionService.deleteTransaction.
  repeat run_step; outcome_cases.
  eexists. repeat split.
Qed.


(** ** Rows and ids *)


Lemma head_filter_unique (id : string) (P : Transaction.t -> bool)
    (rows : list Transaction.t) t :
  NoDup (Transaction.id <$> rows) ->
  head (List.filter (fun t => prisma.hasId id t && P t) rows) = Some t ->
  head (List.filter (prisma.hasId id) rows) = Some t.
Proof.
  induction rows as [|r rows IH]; cbn; [discriminate|].
  intros Hnd Hhead. apply NoDup_cons in Hnd as [Hnotin Hnd].
  destruct (prisma.hasId id r) eqn:Hr; cbn in *.
  - destruct (P r); cbn in *; [exact Hhead|].
    exfalso. apply Hnotin.
    assert (Hin : In t (List.filter (fun t => prisma.hasId id t && P t) rows)).
    { destruct (List.filter _ rows); [discriminate|].
      injection Hhead as ->. left. reflexivity. }
    apply filter_In in Hin as [Hin Hp].
    apply andb_true_iff in Hp as [Hp _].
    unfold prisma.hasId in *.
    apply bool_decide_eq_true_1 in Hr. apply bool_decide_eq_true_1 in Hp.
    rewrite Hr, <- Hp. apply list_elem_of_fmap_2. apply list_elem_of_In. exact Hin.
  - auto.
Qed.

Lemma head_filter_hasId (id : string) (rows : list Transaction.t) t :
  head (List.filter (prisma.hasId id) rows) = Some t -> Transaction.id t = id.
Proof.
  intros H.
  assert (Hin : In t (List.filter (prisma.hasId id) rows)).
  { destruct (List.filter _ rows); [discriminate|].
    injection H as ->. left. reflexivity. }
  apply filter_In in Hin as [_ Hid].
  apply bool_decide_eq_true_1 in Hid. exact Hid.
Qed.






(** ** Which accounts a mutation recalculates *)





(** ** Created transactions are POSTED *)

(** C10. Every transaction created through [createTransaction] has status
    POSTED: the creation data have no status field and the service sets the
    status itself.  The new row is in the table at once, it passes every
    filter that asks for POSTED rows and that it otherwise satisfies, and the
    balance of its account already counts it. *)
Theorem created_transaction_is_posted
    (userId newId : string) (data : CreateTransactionData.t)
    (st : Store) (tx : Transaction.t) (st' : Store) :
  TransactionService.createTransaction userId newId data st = (Ok tx, st') ->
  Transaction.status tx = POSTED
  /\ In tx (transactions st')
  /\ (forall others : Transaction.t -> bool,
        others tx = true ->
        In tx (List.filter (fun t => isPosted t && others t) (transactions st')))
  /\ balanceMatchesLedger st' (Transaction.accountId tx).
Proof.
  intros E.
  pose proof (wp_run _ _ _ _ _ (createTransaction_trace userId newId data st) E)
    as (new & Hnew & Hall).
  apply createTransaction_ok in E
    as (_ & _ & Hacc & _ & _ & Hposted & _ & Hrows & Hlog).
  assert (Hin : In tx (transactions st')).
  { rewrite Hrows. apply in_or_app. right. left. reflexivity. }
  split; [exact Hposted|]. split; [exact Hin|]. split.
  - intros others Hothers. apply filter_In. split; [exact Hin|].
    unfold isPosted. rewrite bool_decide_eq_true_2 by exact Hposted.
    exact Hothers.
  - unfold recalculatedBetween in Hnew. rewrite Hlog in Hnew.
    apply app_inv_head in Hnew. subst new.
    rewrite Hacc. apply Forall_inv in Hall. exact Hall.
Qed.

(** Witness of C10: the first request of the sample, on the opening store. *)
Lemma created_transaction_is_posted_witness :
  Transaction.status (Sample.transaction "t1" "u1" "acc1" INCOME 3500 None Sample.march1)
  = POSTED
  /\ In (Sample.transaction "t1" "u1" "acc1" INCOME 3500 None Sample.march1)
        (transactions
           (snd (TransactionService.createTransaction "u1" "t1"
                   (Sample.create "acc1" INCOME 3500 None Sample.march1)
                   Sample.opening)))
  /\ (forall others : Transaction.t -> bool,
        others (Sample.transaction "t1" "u1" "acc1" INCOME 3500 None Sample.march1)
        = true ->
        In (Sample.transaction "t1" "u1" "acc1" INCOME 3500 None Sample.march1)
           (List.filter (fun t => isPosted t && others t)
              (transactions
                 (snd (TransactionService.createTransaction "u1" "t1"
                         (Sample.create "acc1" INCOME 3500 None Sample.march1)
                         Sample.opening)))))
  /\ balanceMatchesLedger
       (snd (TransactionService.createTransaction "u1" "t1"
               (Sample.create "acc1" INCOME 3500 None Sample.march1)
               Sample.opening))
       (Transaction.accountId
          (Sample.transaction "t1" "u1" "acc1" INCOME 3500 None Sample.march1)).
Proof.
  apply (created_transaction_is_posted "u1" "t1"
           (Sample.create "acc1" INCOME 3500 None Sample.march1) Sample.opening).
  vm_compute. reflexivity.
Defined.

(** ** Comparisons with zero *)

Lemma gt_zero_false (q : Q) : (q == 0)%Q -> JS.gt (JS.Fin q) (JS.Fin 0) = false.
Proof.
  intros H. unfold JS.gt, JS.compare. apply Qeq_alt in H. rewrite H. reflexivity.
Qed.

Lemma gt_zero_true (q : Q) : (0 < q)%Q -> JS.gt (JS.Fin q) (JS.Fin 0) = true.
Proof.
  intros H. unfold JS.gt, JS.compare. apply Qgt_alt in H. rewrite H. reflexivity.
Qed.

Lemma gt_zero_iff (q : Q) : JS.gt (JS.Fin q) (JS.Fin 0) = true <-> (0 < q)%Q.
Proof.
  split; [|apply gt_zero_true].
  unfold JS.gt, JS.compare. destruct (q ?= 0)%Q eqn:E; try discriminate.
  intros _. apply Qgt_alt. exact E.
Qed.

Lemma eqb_zero_iff (q : Q) : JS.eqb (JS.Fin q) (JS.Fin 0) = true <-> (q == 0)%Q.
Proof.
  unfold JS.eqb, JS.compare. rewrite Qeq_alt.
  destruct (q ?= 0)%Q; split; congruence.
Qed.

Lemma div_positive (a b : Q) :
  (0 < b)%Q -> JS.div (JS.Fin a) (JS.Fin b) = JS.Fin (a / b).
Proof.
  intros H. unfold JS.div. apply Qgt_alt in H. rewrite H. reflexivity.
Qed.

(** [(a - b) / c * 100] for a positive [c]. *)
Lemma change_fin (a b c : Q) :
  (0 < c)%Q ->
  JS.mul (JS.div (JS.sub (JS.Fin a) (JS.Fin b)) (JS.Fin c)) (JS.Fin 100)
  = JS.Fin ((a + - b) / c * 100).
Proof.
  intros H. unfold JS.sub. cbn [JS.neg JS.add].
  rewrite div_positive by exact H. reflexivity.
Qed.

(** ** Totals *)

Lemma wp_getTotalByType userId type startDate endDate
    (Q : Outcome JS.number -> Store -> Prop) st :
  (forall q, (q == totalOf userId type startDate endDate st)%Q ->
             Q (Ok (JS.Fin q)) st) ->
  wp (AnalyticsService.getTotalByType userId type startDate endDate) Q st.
Proof.
  intros H. unfold wp, AnalyticsService.getTotalByType, bind.
  destruct (aggregate_sum_run
              (fun t => ofUser userId t && hasType type t && isPosted t
                        && dateBetween startDate endDate t) st)
    as (d & -> & q & Hd & Hq).
  cbn. rewrite Hd. apply H. exact Hq.
Qed.

Lemma wp_getTotalBalance userId (Q : Outcome JS.number -> Store -> Prop) st :
  (forall q, Q (Ok (JS.Fin q)) st) ->
  wp (AnalyticsService.getTotalBalance userId) Q st.
Proof.
  intros H. unfold wp, AnalyticsService.getTotalBalance, bind,
    prisma.account_aggregate_sum_balance.
  destruct (List.filter _ _); cbn; apply H.
Qed.

Ltac analytics_step :=
  lazymatch goal with
  | |- wp (AnalyticsService.getTotalByType _ _ _ _) _ _ =>
      apply wp_getTotalByType; intros
  | |- wp (AnalyticsService.getTotalBalance _) _ _ =>
      apply wp_getTotalBalance; intros
  | |- _ => wp_step
  end.

(** The overview never throws and leaves the store as it was. *)
Lemma getDashboardOverview_total userId now st :
  exists ov, AnalyticsService.getDashboardOverview userId now st = (Ok ov, st).
Proof.
  apply wp_returns.
  unfold AnalyticsService.getDashboardOverview.
  repeat analytics_step. split; [eexists|]; reflexivity.
Qed.

(** C9. [getDashboardOverview] returns, and for each of income and expenses
    the month-over-month change it reports is exactly 0 whenever the total of
    last month is 0, whatever the total of the current month. *)
Theorem month_over_month_zero_when_no_last_month
    (userId : string) (now : Date) (st : Store) :
  exists ov,
    AnalyticsService.getDashboardOverview userId now st = (Ok ov, st)
    /\ ((totalOf userId INCOME
           (DateFns.startOfMonth (DateFns.subMonths now 1))
           (DateFns.endOfMonth (DateFns.subMonths now 1)) st == 0)%Q ->
        Comparison.income (DashboardOverview.lastMonthComparison ov) = JS.Fin 0)
    /\ ((totalOf userId EXPENSE
           (DateFns.startOfMonth (DateFns.subMonths now 1))
           (DateFns.endOfMonth (DateFns.subMonths now 1)) st == 0)%Q ->
        Comparison.expenses (DashboardOverview.lastMonthComparison ov) = JS.Fin 0).
Proof.
  destruct (getDashboardOverview_total userId now st) as [ov E].
  exists ov. split; [exact E|].
  refine (wp_run _ (fun r s => forall o, r = Ok o -> _) st _ _ _ E ov eq_refl).
  clear E ov.
  unfold AnalyticsService.getDashboardOverview.
  repeat analytics_step. outcome_cases.
  cbn [DashboardOverview.lastMonthComparison Comparison.income Comparison.expenses].
  split; intros Hzero.
  - rewrite gt_zero_false; [reflexivity|]. etransitivity; eassumption.
  - rewrite gt_zero_false; [reflexivity|]. etransitivity; eassumption.
Qed.

(** Witness of C9: the user [u1] has an income in March 2024 and no
    transaction in February; in March both changes are 0. *)
Lemma month_over_month_zero_when_no_last_month_witness :
  exists ov,
    AnalyticsService.getDashboardOverview "u1" Sample.march15 Sample.ledger
    = (Ok ov, Sample.ledger)
    /\ JS.gt (DashboardOverview.monthlyIncome ov) (JS.Fin 0) = true
    /\ Comparison.income (DashboardOverview.lastMonthComparison ov) = JS.Fin 0
    /\ Comparison.expenses (DashboardOverview.lastMonthComparison ov) = JS.Fin 0.
Proof.
  destruct (month_over_month_zero_when_no_last_month
              "u1" Sample.march15 Sample.ledger) as (ov & E & H1 & H2).
  exists ov. split; [exact E|]. split.
  - vm_compute in E. injection E as <-. vm_compute. reflexivity.
  - split; [apply H1|apply H2]; vm_compute; reflexivity.
Defined.

(** ** Savings rate *)

Lemma max_zero_nonneg (x : JS.number) :
  isFin x -> JS.ge (JS.max (JS.Fin 0) x) (JS.Fin 0) = true.
Proof.
  intros [q ->]. unfold JS.max, JS.ge. cbn [JS.compare].
  destruct (0 ?= q)%Q eqn:E; cbn [JS.compare].
  - reflexivity.
  - apply Qlt_alt in E. apply Qgt_alt in E. rewrite E. reflexivity.
  - reflexivity.
Qed.

(** The savings rate of the dashboard is never negative: it goes through
    [Math.max(0, _)]. *)
Lemma dashboard_savingsRate_nonneg userId now st ov st' :
  AnalyticsService.getDashboardOverview userId now st = (Ok ov, st') ->
  JS.ge (DashboardOverview.savingsRate ov) (JS.Fin 0) = true.
Proof.
  intros E.
  refine (wp_run _ (fun r s => forall o, r = Ok o -> _) st _ _ _ E ov eq_refl).
  clear E ov st'.
  unfold AnalyticsService.getDashboardOverview.
  repeat analytics_step. outcome_cases.
  cbn [DashboardOverview.savingsRate].
  apply max_zero_nonneg.
  destruct (JS.gt (JS.Fin q) (JS.Fin 0)) eqn:Hgt; [|eexists; reflexivity].
  apply gt_zero_iff in Hgt. apply Qgt_alt in Hgt.
  rewrite Hgt. eexists. reflexivity.
Qed.

(** C4, at the failing input. In March 2024 the user [u2] earned 100 and
    spent 150: [getMonthlySummary] reports a savings rate of -50, and so does
    the summary of March inside [getYearToDateSummary]; the dashboard, which
    clamps, reports 0 for the same month. *)
Theorem monthly_summary_savings_rate_negative :
  (exists ms,
     fst (AnalyticsService.getMonthlySummary "u2" Sample.march15 Sample.ledger) = Ok ms
     /\ JS.eqb (MonthlySummary.savingsRate ms) (JS.Fin (-50)) = true)
  /\ (exists ytd,
        fst (AnalyticsService.getYearToDateSummary "u2" Sample.march15 Sample.ledger)
        = Ok ytd
        /\ (fun ms => JS.eqb (MonthlySummary.savingsRate ms) (JS.Fin (-50)))
             <$> YearToDateSummary.monthlySummaries ytd
           = [false; false; true])
  /\ (exists ov,
        fst (AnalyticsService.getDashboardOverview "u2" Sample.march15 Sample.ledger)
        = Ok ov
        /\ DashboardOverview.savingsRate ov = JS.Fin 0).
Proof.
  split; [|split]; eexists; (split; [vm_compute; reflexivity|]);
    vm_compute; reflexivity.
Qed.

(** ** Budgets *)

Lemma wp_calculateSpending userId budget
    (Q : Outcome JS.number -> Store -> Prop) st :
  (forall s,
     BudgetService.calculateSpending userId budget st = (Ok (JS.Fin s), st) ->
     Q (Ok (JS.Fin s)) st) ->
  wp (BudgetService.calculateSpending userId budget) Q st.
Proof.
  intros H. unfold wp.
  assert (E : exists s,
             BudgetService.calculateSpending userId budget st = (Ok (JS.Fin s), st)).
  { unfold BudgetService.calculateSpending, bind.
    match goal with
    | |- context [prisma.transaction_aggregate_sum ?P st] =>
        destruct (aggregate_sum_run P st) as (d & -> & q & Hd & _)
    end.
    cbn. rewrite Hd. eexists. reflexivity. }
  destruct E as [s E]. rewrite E. cbn. apply H. exact E.
Qed.

(** [mapM] of a method that returns and leaves the store as it was. *)
Lemma wp_mapM_pure {A B} (f : A -> Prisma B) (P : B -> Prop) (l : list A) st :
  (forall x, wp (f x) (fun r s => s = st /\ exists y, r = Ok y /\ P y) st) ->
  wp (mapM f l) (fun r s => s = st /\ exists ys, r = Ok ys /\ Forall P ys) st.
Proof.
  intros Hf. induction l as [|x l IH]; cbn [mapM].
  - apply wp_ret. split; [reflexivity|]. exists []. split; [reflexivity|constructor].
  - apply wp_bind. eapply wp_weaken; [apply Hf|].
    intros r s [-> (y & -> & Hy)]. apply wp_bind.
    eapply wp_weaken; [apply IH|].
    intros r s [-> (ys & -> & Hys)]. apply wp_ret.
    split; [reflexivity|]. exists (y :: ys). split; [reflexivity|].
    constructor; assumption.
Qed.

Lemma getBudgets_progress userId period st :
  exists bs,
    BudgetService.getBudgets userId period st = (Ok bs, st)
    /\ Forall (progressComputed userId st) bs.
Proof.
  cut (wp (BudgetService.getBudgets userId period)
          (fun r s => s = st /\ exists ys, r = Ok ys
                                 /\ Forall (progressComputed userId st) ys) st).
  { unfold wp.
    destruct (BudgetService.getBudgets userId period st) as [r s]. cbn.
    intros [-> (ys & -> & H)]. eauto. }
  unfold BudgetService.getBudgets. apply wp_bind.
  unfold wp at 1, prisma.budget_findMany. cbn [fst snd].
  apply wp_mapM_pure. intros budget. apply wp_bind.
  apply wp_calculateSpending. intros s Hs. apply wp_ret.
  split; [reflexivity|]. eexists. split; [reflexivity|].
  exists s. cbn. repeat split. exact Hs.
Qed.

Lemma getBudget_progress userId budgetId st bp st' :
  BudgetService.getBudget userId budgetId st = (Ok bp, st') ->
  st' = st /\ progressComputed userId st bp.
Proof.
  intros E.
  refine (wp_run _ (fun r s => forall b, r = Ok b -> s = st /\ _) st _ _ _ E bp eq_refl).
  clear E bp st'. unfold BudgetService.getBudget.
  apply wp_bind. unfold wp at 1, prisma.budget_findFirst. cbn [fst snd].
  destruct (head _) as [budget|]; [|apply wp_throw; discriminate].
  apply wp_bind. apply wp_calculateSpending. intros s Hs. apply wp_ret.
  intros b [= <-]. split; [reflexivity|].
  exists s. cbn. repeat split. exact Hs.
Qed.



Lemma threshold_alertThresholdOr80 (budget : Budget.t) :
  BudgetService.threshold budget = JS.Fin (alertThresholdOr80 budget).
Proof.
  unfold BudgetService.threshold, alertThresholdOr80, JS.truthy.
  destruct (Budget.alertThreshold budget) as [q|]; [|reflexivity].
  destruct (Qeq_bool q 0); reflexivity.
Qed.

Lemma alertStep_alertFor (alerts : list Alert.t) (bp : BudgetWithProgress.t) :
  BudgetService.alertStep alerts bp = (alerts ++ option_list (alertFor bp))%list.
Proof.
  unfold BudgetService.alertStep, alertFor.
  rewrite threshold_alertThresholdOr80.
  destruct (Budget.alertEnabled _); cbn; [|rewrite app_nil_r; reflexivity].
  destruct (BudgetWithProgress.isOverBudget bp); [reflexivity|].
  destruct (JS.ge _ _); cbn; [reflexivity|rewrite app_nil_r; reflexivity].
Qed.

Lemma alertLoop_alertFor (bs : list BudgetWithProgress.t) (alerts : list Alert.t) :
  fold_left BudgetService.alertStep bs alerts = (alerts ++ omap alertFor bs)%list.
Proof.
  revert alerts. induction bs as [|bp bs IH]; intros alerts; cbn.
  - rewrite app_nil_r. reflexivity.
  - rewrite IH, alertStep_alertFor, <- app_assoc. f_equal.
    destruct (alertFor bp); reflexivity.
Qed.

(** C7. [getBudgetAlerts] returns, for the budgets that [getBudgets] returns
    and in their order, at most one message per budget and only for budgets
    with alerts enabled: the overage message, which carries the absolute
    overage, when the budget is over budget, and otherwise the usage message
    exactly when [percentageUsed >= alertThreshold], the threshold being 80
    when none is set. *)
Theorem budget_alerts_one_per_budget (userId : string) (st : Store) :
  exists bs alerts,
    BudgetService.getBudgets userId None st = (Ok bs, st)
    /\ BudgetService.getBudgetAlerts userId st = (Ok alerts, st)
    /\ alerts = omap alertFor bs
    /\ (length alerts <= length bs)%nat
    /\ Forall (fun al =>
                 Budget.alertEnabled
                   (BudgetWithProgress.budget (Alert.budget al)) = true)
              alerts.
Proof.
  destruct (getBudgets_progress userId None st) as (bs & Ebs & _).
  exists bs, (omap alertFor bs). split; [exact Ebs|]. split.
  { unfold BudgetService.getBudgetAlerts, bind. rewrite Ebs. cbn.
    rewrite alertLoop_alertFor. reflexivity. }
  split; [reflexivity|]. split.
  - clear Ebs. induction bs as [|bp bs IH]; cbn; [lia|].
    destruct (alertFor bp); cbn; lia.
  - clear Ebs. induction bs as [|bp bs IH]; cbn; [constructor|].
    destruct (alertFor bp) as [al|] eqn:Hal; [|exact IH].
    constructor; [|exact IH].
    unfold alertFor in Hal.
    destruct (Budget.alertEnabled (BudgetWithProgress.budget bp)) eqn:Hen;
      [|discriminate].
    destruct (BudgetWithProgress.isOverBudget bp);
      [injection Hal as <-; exact Hen|].
    destruct (JS.ge _ _); [injection Hal as <-; exact Hen|discriminate].
Qed.

(** The scenario of the spec for C7: the budget [b2] of amount 300 and
    threshold 80 has 260 spent; it gets the usage message, which rounds 86.67
    to 87, and the budget [b3], over its amount by 20.50, gets the overage
    message.  The budgets [b1], at 9.198 percent, and [b4], whose alerts are
    disabled, get none. *)
Lemma budget_alerts_one_per_budget_witness :
  exists bs alerts,
    BudgetService.getBudgets "u1" None Sample.ledger = (Ok bs, Sample.ledger)
    /\ BudgetService.getBudgetAlerts "u1" Sample.ledger = (Ok alerts, Sample.ledger)
    /\ alerts = omap alertFor bs
    /\ length bs = 4%nat
    /\ Alert.message <$> alerts
       = [ "You've exceeded your Dining budget by $20.50";
           "You've used 87% of your Utilities budget" ].
Proof.
  destruct (budget_alerts_one_per_budget "u1" Sample.ledger)
    as (bs & alerts & Ebs & Ealerts & Hmap & _).
  exists bs, alerts. split; [exact Ebs|]. split; [exact Ealerts|].
  split; [exact Hmap|].
  vm_compute in Ebs. injection Ebs as <-.
  vm_compute in Ealerts. injection Ealerts as <-.
  split; reflexivity.
Defined.

(** ** Sorting *)

Lemma insertSorted_Permutation {A} (after : A -> A -> bool) (x : A) (l : list A) :
  Permutation (insertSorted after x l) (x :: l).
Proof.
  induction l as [|y l IH]; cbn.
  - reflexivity.
  - destruct (after x y).
    + rewrite IH. apply perm_swap.
    + reflexivity.
Qed.

Lemma stableSort_Permutation {A} (after : A -> A -> bool) (l : list A) :
  Permutation (stableSort after l) l.
Proof.
  induction l as [|x l IH]; cbn.
  - reflexivity.
  - rewrite insertSorted_Permutation. constructor. exact IH.
Qed.

(** ** Sums of finite numbers *)

Lemma sumOf_acc {A} (f : A -> JS.number) (l : list A) (a : Q) :
  Forall (fun x => isFin (f x)) l ->
  exists q,
    fold_left (fun sum x => JS.add sum (f x)) l (JS.Fin a) = JS.Fin q
    /\ (q == a + sumQ ((fun x => finValue (f x)) <$> l))%Q.
Proof.
  revert a. induction l as [|x l IH]; intros a Hall; cbn.
  - exists a. split; [reflexivity|ring].
  - apply Forall_cons in Hall as [[v Hv] Hall].
    rewrite Hv. cbn [JS.add].
    destruct (IH (a + v)%Q Hall) as (q & -> & Hq).
    exists q. split; [reflexivity|]. rewrite Hq. cbn. ring.
Qed.

Lemma sumOf_finite {A} (f : A -> JS.number) (l : list A) :
  Forall (fun x => isFin (f x)) l ->
  exists q,
    sumOf f l = JS.Fin q /\ (q == sumQ ((fun x => finValue (f x)) <$> l))%Q.
Proof.
  intros Hall. destruct (sumOf_acc f l 0 Hall) as (q & E & Hq).
  exists q. split; [exact E|]. rewrite Hq. ring.
Qed.


(** ** Grouping by category *)

Lemma mapSet_add (k : string) (a : Q) (m : list (string * Bucket.t)) :
  bucketsFinite m ->
  let existing :=
    default {| Bucket.amount := JS.Fin 0; Bucket.count := 0 |} (mapGet k m) in
  let m' :=
    mapSet k {| Bucket.amount := JS.add (Bucket.amount existing) (JS.Fin a);
                Bucket.count := (Bucket.count existing + 1)%nat |} m in
  bucketsFinite m' /\ (bucketsTotal m' == bucketsTotal m + a)%Q.
Proof.
  unfold bucketsFinite, bucketsTotal.
  induction m as [|[k' v'] m IH]; intros Hfin; cbn.
  - split; [repeat constructor; eexists; reflexivity|ring].
  - apply Forall_cons in Hfin as [[q Hq] Hfin]. cbn in Hq.
    destruct (bool_decide (k' = k)); cbn.
    + rewrite Hq. cbn. split; [|ring].
      constructor; [eexists; reflexivity|exact Hfin].
    + destruct (IH Hfin) as [IH1 IH2]. cbn in IH1, IH2. split.
      * constructor; [exists q; exact Hq|exact IH1].
      * rewrite IH2, Hq. cbn. ring.
Qed.

Lemma groupLoop_inv (pairs : list (Transaction.t * option Category.t))
    (m : list (string * Bucket.t)) (tq : Q) :
  bucketsFinite m ->
  (bucketsTotal m == tq)%Q ->
  exists m' tq',
    fold_left AnalyticsService.groupStep pairs (m, JS.Fin tq) = (m', JS.Fin tq')
    /\ bucketsFinite m'
    /\ (bucketsTotal m' == tq')%Q
    /\ (tq' == tq + sumQ ((fun p => Transaction.amount p.1) <$> pairs))%Q.
Proof.
  revert m tq. induction pairs as [|[t c] pairs IH]; intros m tq Hfin Htot; cbn.
  - exists m, tq. repeat split; [exact Hfin|exact Htot|ring].
  - destruct (mapSet_add (AnalyticsService.categoryName c)
                (Transaction.amount t) m Hfin) as [Hfin' Htot'].
    cbn zeta in Hfin', Htot'.
    match goal with
    | |- context [fold_left _ pairs (?m1, JS.Fin ?t1)] =>
        destruct (IH m1 t1) as (m' & tq' & E & H1 & H2 & H3)
    end.
    + exact Hfin'.
    + rewrite Htot', Htot. reflexivity.
    + exists m', tq'. split; [exact E|]. split; [exact H1|]. split; [exact H2|].
      rewrite H3. ring.
Qed.

Lemma getSpendingByCategory_run userId startDate endDate st :
  exists m tq,
    AnalyticsService.getSpendingByCategory userId startDate endDate st
    = (Ok (stableSort byAmountDesc (shareOf (JS.Fin tq) <$> m)), st)
    /\ bucketsFinite m
    /\ (bucketsTotal m == tq)%Q
    /\ (tq == totalOf userId EXPENSE startDate endDate st)%Q
    /\ (List.filter
          (fun t => ofUser userId t && hasType EXPENSE t && isPosted t
                    && dateBetween startDate endDate t)
          (transactions st) = [] -> m = []).
Proof.
  unfold AnalyticsService.getSpendingByCategory, bind,
    prisma.transaction_findMany_include_category, totalOf, amountsOf.
  set (rows := List.filter _ (transactions st)).
  set (pairs := _ <$> rows).
  destruct (groupLoop_inv pairs [] 0) as (m & tq & E & Hfin & Htot & Hsum).
  { constructor. }
  { reflexivity. }
  exists m, tq. rewrite E. split; [|split; [exact Hfin|split; [exact Htot|split]]].
  - unfold ret. f_equal. f_equal. f_equal.
    apply list_fmap_ext. intros i [k v] _. reflexivity.
  - rewrite Hsum, Qplus_0_l. unfold pairs. rewrite <- list_fmap_compose.
    reflexivity.
  - intros Hrows. unfold pairs in E. rewrite Hrows in E. cbn in E.
    injection E as <- _. reflexivity.
Qed.





(** ** Division by zero *)

Lemma wp_getSpendingByCategory userId startDate endDate
    (Q : Outcome (list CategorySpending.t) -> Store -> Prop) st :
  (forall items, Q (Ok items) st) ->
  wp (AnalyticsService.getSpendingByCategory userId startDate endDate) Q st.
Proof.
  intros H. unfold wp.
  destruct (getSpendingByCategory_run userId startDate endDate st)
    as (m & tq & -> & _). cbn. apply H.
Qed.

Lemma max_zero_zero : JS.max (JS.Fin 0) (JS.Fin 0) = JS.Fin 0.
Proof. reflexivity. Qed.

(** With an amount of 0 the percentage used of a budget is not a finite
    number. *)
Lemma percentage_of_zero_amount (s a : Q) :
  (a == 0)%Q ->
  ((s == 0)%Q -> JS.mul (JS.div (JS.Fin s) (JS.Fin a)) (JS.Fin 100) = JS.NaN)
  /\ ((0 < s)%Q -> JS.mul (JS.div (JS.Fin s) (JS.Fin a)) (JS.Fin 100) = JS.PosInf).
Proof.
  intros Ha. apply Qeq_alt in Ha. unfold JS.div, JS.signedInf. rewrite Ha.
  split; intros Hs.
  - apply Qeq_alt in Hs. rewrite Hs. reflexivity.
  - apply Qgt_alt in Hs. rewrite Hs. reflexivity.
Qed.

(** C3 (as amended). In the analytics service a percentage whose divisor is 0
    is reported as 0: the month-over-month change of income and of expenses,
    the savings rate of the dashboard and of the monthly summary, and the
    share of every category.  The percentage used of a budget has no such
    guard: for a budget of amount 0 it is NaN when nothing was spent and
    Infinity when something was; the call returns all the same. *)
Theorem zero_divisor_percentages
    (userId : string) (now startDate endDate : Date) (st : Store) :
  (forall ov st',
     AnalyticsService.getDashboardOverview userId now st = (Ok ov, st') ->
     ((totalOf userId INCOME
         (DateFns.startOfMonth (DateFns.subMonths now 1))
         (DateFns.endOfMonth (DateFns.subMonths now 1)) st == 0)%Q ->
      Comparison.income (DashboardOverview.lastMonthComparison ov) = JS.Fin 0)
     /\ ((totalOf userId EXPENSE
            (DateFns.startOfMonth (DateFns.subMonths now 1))
            (DateFns.endOfMonth (DateFns.subMonths now 1)) st == 0)%Q ->
         Comparison.expenses (DashboardOverview.lastMonthComparison ov) = JS.Fin 0)
     /\ ((totalOf userId INCOME
            (DateFns.startOfMonth now) (DateFns.endOfMonth now) st == 0)%Q ->
         DashboardOverview.savingsRate ov = JS.Fin 0))
  /\ (forall ms st',
        AnalyticsService.getMonthlySummary userId now st = (Ok ms, st') ->
        (totalOf userId INCOME
           (DateFns.startOfMonth now) (DateFns.endOfMonth now) st == 0)%Q ->
        MonthlySummary.savingsRate ms = JS.Fin 0)
  /\ (forall items st',
        AnalyticsService.getSpendingByCategory userId startDate endDate st
        = (Ok items, st') ->
        (totalOf userId EXPENSE startDate endDate st == 0)%Q ->
        Forall (fun item => CategorySpending.percentage item = JS.Fin 0) items)
  /\ (forall bp,
        (exists period bs st',
           BudgetService.getBudgets userId period st = (Ok bs, st') /\ In bp bs)
        \/ (exists budgetId st',
              BudgetService.getBudget userId budgetId st = (Ok bp, st')) ->
        (Budget.amount (BudgetWithProgress.budget bp) == 0)%Q ->
        exists s,
          BudgetWithProgress.spent bp = JS.Fin s
          /\ ((s == 0)%Q -> BudgetWithProgress.percentageUsed bp = JS.NaN)
          /\ ((0 < s)%Q -> BudgetWithProgress.percentageUsed bp = JS.PosInf)).
Proof.
  split; [|split; [|split]].
  - intros ov st' E.
    refine (wp_run _ (fun r s => forall o, r = Ok o -> _) st _ _ _ E ov eq_refl).
    clear E ov st'.
    unfold AnalyticsService.getDashboardOverview.
    repeat analytics_step. outcome_cases.
    cbn [DashboardOverview.lastMonthComparison DashboardOverview.savingsRate
         Comparison.income Comparison.expenses].
    split; [|split]; intros Hzero.
    + rewrite gt_zero_false; [reflexivity|]. etransitivity; eassumption.
    + rewrite gt_zero_false; [reflexivity|]. etransitivity; eassumption.
    + rewrite gt_zero_false; [reflexivity|]. etransitivity; eassumption.
  - intros ms st' E.
    refine (wp_run _ (fun r s => forall o, r = Ok o -> _) st _ _ _ E ms eq_refl).
    clear E ms st'.
    unfold AnalyticsService.getMonthlySummary.
    apply wp_bind. apply wp_getTotalByType. intros income Hincome.
    apply wp_bind. apply wp_getTotalByType. intros expenses Hexpenses.
    apply wp_bind. apply wp_getSpendingByCategory. intros breakdown.
    apply wp_bind. unfold wp at 1, prisma.transaction_count. cbn [fst snd].
    apply wp_ret. intros o [= <-] Hzero.
    cbn [MonthlySummary.savingsRate].
    rewrite gt_zero_false; [reflexivity|]. etransitivity; eassumption.
  - intros items st' E Hzero.
    destruct (getSpendingByCategory_run userId startDate endDate st)
      as (m & tq & E' & _ & _ & Htq & _).
    rewrite E' in E. injection E as <- <-.
    rewrite stableSort_Permutation. apply Forall_fmap, Forall_forall.
    intros kv _. unfold compose, shareOf. cbn [CategorySpending.percentage].
    rewrite gt_zero_false; [reflexivity|]. etransitivity; eassumption.
  - intros bp Hret Hzero.
    assert (Hp : progressComputed userId st bp).
    { destruct Hret as [(period & bs & st' & E & Hin) | (budgetId & st' & E)].
      - destruct (getBudgets_progress userId period st) as (bs' & E' & Hall).
        rewrite E' in E. injection E as <- <-.
        rewrite Forall_forall in Hall. apply Hall. apply list_elem_of_In. exact Hin.
      - apply getBudget_progress in E as [_ H]. exact H. }
    destruct Hp as (s & _ & Hspent & _ & Hpct & _).
    exists s. split; [exact Hspent|]. rewrite Hpct.
    apply percentage_of_zero_amount. exact Hzero.
Qed.

(** Witness of C3: for [u1] in March 2024 the totals of February are 0 and
    both changes are 0; in May 2024 the income is 0 and both savings rates
    are 0; nothing was spent in the first second of 1970; the budget [b5] of
    [u2] has amount 0 and 150 spent, and its percentage used is Infinity. *)
Lemma zero_divisor_percentages_witness :
  (exists ov,
     AnalyticsService.getDashboardOverview "u1" Sample.march15 Sample.ledger
     = (Ok ov, Sample.ledger)
     /\ Comparison.income (DashboardOverview.lastMonthComparison ov) = JS.Fin 0
     /\ Comparison.expenses (DashboardOverview.lastMonthComparison ov) = JS.Fin 0)
  /\ (exists ov,
        AnalyticsService.getDashboardOverview "u1" Sample.may14 Sample.ledger
        = (Ok ov, Sample.ledger)
        /\ DashboardOverview.savingsRate ov = JS.Fin 0)
  /\ (exists ms,
        AnalyticsService.getMonthlySummary "u1" Sample.may14 Sample.ledger
        = (Ok ms, Sample.ledger)
        /\ MonthlySummary.savingsRate ms = JS.Fin 0)
  /\ (exists items,
        AnalyticsService.getSpendingByCategory "u1" 0 1000 Sample.ledger
        = (Ok items, Sample.ledger)
        /\ Forall (fun item => CategorySpending.percentage item = JS.Fin 0) items)
  /\ (exists bp,
        BudgetService.getBudget "u2" "b5" Sample.ledger = (Ok bp, Sample.ledger)
        /\ BudgetWithProgress.percentageUsed bp = JS.PosInf).
Proof.
  split; [|split; [|split; [|split]]].
  - assert (E : exists ov,
               AnalyticsService.getDashboardOverview "u1" Sample.march15 Sample.ledger
               = (Ok ov, Sample.ledger))
      by (eexists; vm_compute; reflexivity).
    destruct E as (ov & E). exists ov. split; [exact E|].
    destruct (proj1 (zero_divisor_percentages "u1" Sample.march15 0 0 Sample.ledger)
                ov Sample.ledger E) as (H1 & H2 & _).
    split; [apply H1|apply H2]; vm_compute; reflexivity.
  - assert (E : exists ov,
               AnalyticsService.getDashboardOverview "u1" Sample.may14 Sample.ledger
               = (Ok ov, Sample.ledger))
      by (eexists; vm_compute; reflexivity).
    destruct E as (ov & E). exists ov. split; [exact E|].
    destruct (proj1 (zero_divisor_percentages "u1" Sample.may14 0 0 Sample.ledger)
                ov Sample.ledger E) as (_ & _ & H3).
    apply H3. vm_compute. reflexivity.
  - assert (E : exists ms,
               AnalyticsService.getMonthlySummary "u1" Sample.may14 Sample.ledger
               = (Ok ms, Sample.ledger))
      by (eexists; vm_compute; reflexivity).
    destruct E as (ms & E). exists ms. split; [exact E|].
    apply (proj1 (proj2 (zero_divisor_percentages
                           "u1" Sample.may14 0 0 Sample.ledger))
             ms Sample.ledger E).
    vm_compute. reflexivity.
  - assert (E : exists items,
               AnalyticsService.getSpendingByCategory "u1" 0 1000 Sample.ledger
               = (Ok items, Sample.ledger))
      by (eexists; vm_compute; reflexivity).
    destruct E as (items & E). exists items. split; [exact E|].
    apply (proj1 (proj2 (proj2 (zero_divisor_percentages
                                  "u1" 0 0 1000 Sample.ledger)))
             items Sample.ledger E).
    vm_compute. reflexivity.
  - assert (E : exists bp,
               BudgetService.getBudget "u2" "b5" Sample.ledger
               = (Ok bp, Sample.ledger)
               /\ BudgetWithProgress.spent bp = JS.Fin 150
               /\ (Budget.amount (BudgetWithProgress.budget bp) == 0)%Q)
      by (eexists; repeat split; vm_compute; reflexivity).
    destruct E as (bp & E & Hspent & Hzero). exists bp. split; [exact E|].
    destruct (proj2 (proj2 (proj2 (zero_divisor_percentages
                                     "u2" 0 0 0 Sample.ledger)))
                bp (or_intror (ex_intro _ "b5" (ex_intro _ Sample.ledger E))) Hzero)
      as (s & Hs & _ & Hpos).
    apply Hpos. rewrite Hspent in Hs. injection Hs as <-. reflexivity.
Defined.

(** Counterexample to C3 as stated: the budget [b5] has amount 0, the divisor
    of its percentage used; 150 was spent, and the percentage reported is
    Infinity, not 0. *)
Lemma budget_percentage_not_guarded :
  BudgetService.getBudget "u2" "b5" Sample.ledger
  = (Ok {| BudgetWithProgress.budget :=
             Sample.budget "b5" "u2" "Unset" 0 None true None 5;
           BudgetWithProgress.spent := JS.Fin 150;
           BudgetWithProgress.remaining := JS.Fin (-150);
           BudgetWithProgress.percentageUsed := JS.PosInf;
           BudgetWithProgress.isOverBudget := true |},
     Sample.ledger)
  /\ JS.eqb JS.PosInf (JS.Fin 0) = false.
Proof. split; vm_compute; reflexivity. Qed.

(** ** Spending trends *)

(** Every bucket reports [net = income - expenses]. *)
Lemma trendPoint_net (period : Period) (transactions : list Transaction.t)
    (interval : Date) :
  TrendPoint.net (AnalyticsService.trendPoint period transactions interval)
  = JS.sub (TrendPoint.income
              (AnalyticsService.trendPoint period transactions interval))
           (TrendPoint.expenses
              (AnalyticsService.trendPoint period transactions interval)).
Proof. destruct period; reflexivity. Qed.

(** For the periods week and month a bucket begins and ends at the same
    instant, the start of its day: it counts the transactions dated at that
    very instant and no other. *)
Lemma day_bucket_is_one_instant (period : Period)
    (transactions : list Transaction.t) (interval : Date) :
  period <> year ->
  let atInstant :=
    List.filter (fun t => Transaction.date t =? interval) transactions in
  TrendPoint.income (AnalyticsService.trendPoint period transactions interval)
  = sumOf (fun t => JS.Fin (Transaction.amount t))
          (List.filter (hasType INCOME) atInstant)
  /\ TrendPoint.expenses (AnalyticsService.trendPoint period transactions interval)
     = sumOf (fun t => JS.Fin (Transaction.amount t))
             (List.filter (hasType EXPENSE) atInstant).
Proof.
  intros Hperiod.
  assert (Hfilter :
            List.filter
              (fun t => (interval <=? Transaction.date t)
                        && (Transaction.date t <=? interval)) transactions
            = List.filter (fun t => Transaction.date t =? interval) transactions).
  { apply List.filter_ext. intros t.
    destruct (Z.eqb_spec (Transaction.date t) interval) as [->|Hne].
    - rewrite Z.leb_refl. reflexivity.
    - apply andb_false_iff.
      destruct (Z.leb_spec interval (Transaction.date t)); [right|left; reflexivity].
      apply Z.leb_gt. lia. }
  destruct period; [| |congruence]; cbn; rewrite Hfilter; split; reflexivity.
Qed.

(** The year buckets span their month. *)
Lemma month_bucket_spans_month (transactions : list Transaction.t)
    (interval : Date) :
  let inMonth :=
    List.filter
      (fun t => (DateFns.startOfMonth interval <=? Transaction.date t)
                && (Transaction.date t <=? DateFns.endOfMonth interval))
      transactions in
  TrendPoint.income (AnalyticsService.trendPoint year transactions interval)
  = sumOf (fun t => JS.Fin (Transaction.amount t))
          (List.filter (hasType INCOME) inMonth)
  /\ TrendPoint.expenses (AnalyticsService.trendPoint year transactions interval)
     = sumOf (fun t => JS.Fin (Transaction.amount t))
             (List.filter (hasType EXPENSE) inMonth).
Proof. split; reflexivity. Qed.

(** C6, at the failing input. On Friday 2024-03-15 the user [u1] has four
    POSTED expenses dated within the current week, 461.49 in all, among them
    45.99 on that Friday at 10:30.  For the period week every day bucket
    reports 0, that of Mar 15 included, and so do the day buckets of the
    period month; for the period year the bucket of March counts the income
    of 3500 and the expenses of the month, 461.49. *)
Theorem spending_trends_day_buckets_miss_transactions :
  (totalOf "u1" EXPENSE (DateFns.startOfWeek Sample.march15)
     (DateFns.endOfWeek Sample.march15) Sample.ledger == 461.49)%Q
  /\ returned (AnalyticsService.getSpendingTrends "u1" week Sample.march15
                 Sample.ledger)
     = Some [ TrendPoint.mk "Mar 10" (JS.Fin 0) (JS.Fin 0) (JS.Fin 0);
              TrendPoint.mk "Mar 11" (JS.Fin 0) (JS.Fin 0) (JS.Fin 0);
              TrendPoint.mk "Mar 12" (JS.Fin 0) (JS.Fin 0) (JS.Fin 0);
              TrendPoint.mk "Mar 13" (JS.Fin 0) (JS.Fin 0) (JS.Fin 0);
              TrendPoint.mk "Mar 14" (JS.Fin 0) (JS.Fin 0) (JS.Fin 0);
              TrendPoint.mk "Mar 15" (JS.Fin 0) (JS.Fin 0) (JS.Fin 0);
              TrendPoint.mk "Mar 16" (JS.Fin 0) (JS.Fin 0) (JS.Fin 0) ]
  /\ (fun p => JS.eqb (TrendPoint.income p) (JS.Fin 0)
               && JS.eqb (TrendPoint.expenses p) (JS.Fin 0))
       <$> default [] (returned (AnalyticsService.getSpendingTrends
                                   "u1" month Sample.march15 Sample.ledger))
     = replicate 31 true
  /\ (fun p => (TrendPoint.date p,
                JS.eqb (TrendPoint.income p) (JS.Fin 3500),
                JS.eqb (TrendPoint.expenses p) (JS.Fin 461.49)))
       <$> (returned (AnalyticsService.getSpendingTrends
                        "u1" year Sample.march15 Sample.ledger)
            ≫= (fun points => points !! 2%nat))
     = Some ("Mar 2024", true, true).
Proof. repeat split; vm_compute; reflexivity. Qed.

(** ** The mutations keep the store well formed *)

Lemma ids_replaceRow (id : string) (new : Transaction.t) (rows : list Transaction.t) :
  Transaction.id new = id ->
  Transaction.id <$> prisma.replaceRow id new rows = Transaction.id <$> rows.
Proof.
  intros Hid. induction rows as [|r rows IH]; cbn; [reflexivity|].
  rewrite IH. f_equal. unfold prisma.hasId. case_bool_decide; congruence.
Qed.

Lemma NoDup_ids_app_new (rows : list Transaction.t) (row : Transaction.t) :
  NoDup (Transaction.id <$> rows) ->
  existsb (prisma.hasId (Transaction.id row)) rows = false ->
  NoDup (Transaction.id <$> (rows ++ [row])%list).
Proof.
  intros Hnd Hfresh. rewrite fmap_app. apply NoDup_app. split; [exact Hnd|].
  split; [|apply NoDup_singleton].
  intros i Hi Hrow. apply list_elem_of_singleton in Hrow. subst i.
  apply list_elem_of_fmap in Hi as (r & Hid & Hr).
  assert (Hex : existsb (prisma.hasId (Transaction.id row)) rows = true).
  { apply existsb_exists. exists r. split; [apply list_elem_of_In; exact Hr|].
    apply bool_decide_eq_true_2. congruence. }
  congruence.
Qed.

Lemma NoDup_ids_filter (P : Transaction.t -> bool) (rows : list Transaction.t) :
  NoDup (Transaction.id <$> rows) ->
  NoDup (Transaction.id <$> List.filter P rows).
Proof.
  induction rows as [|r rows IH]; cbn; [auto|].
  intros Hnd. apply NoDup_cons in Hnd as [Hnotin Hnd].
  destruct (P r); [|auto].
  cbn. apply NoDup_cons. split; [|auto].
  intros Hin. apply Hnotin.
  apply list_elem_of_fmap in Hin as (x & Hid & Hx).
  apply list_elem_of_fmap. exists x. split; [exact Hid|].
  apply list_elem_of_In. apply list_elem_of_In in Hx.
  apply filter_In in Hx as [Hx _]. exact Hx.
Qed.

Lemma wellFormed_updateAccountBalance (a : string) (st : Store) :
  wellFormed st ->
  wellFormed (snd (TransactionService.updateAccountBalance a st)).
Proof.
  intros [Hnd Hempty].
  destruct (accounts st !! a) as [acc|] eqn:H.
  - destruct (updateAccountBalance_found a st acc H) as (b & -> & _).
    split; [exact Hnd|]. cbn.
    rewrite lookup_insert_ne; [exact Hempty|]. intros ->. congruence.
  - rewrite (updateAccountBalance_missing a st H). split; assumption.
Qed.

(** Unique transaction ids, and no account with the empty id, are invariants
    of the three mutations, whatever their outcome. *)
Lemma runMutation_wellFormed (m : Mutation) (st : Store) :
  wellFormed st -> wellFormed (snd (runMutation m st)).
Proof.
  intros Hwf.
  assert (Hbalance : forall a s (Q : Outcome unit -> Store -> Prop),
             wellFormed s ->
             (forall r s', wellFormed s' -> Q r s') ->
             wp (TransactionService.updateAccountBalance a) Q s).
  { intros a s Q Hs HQ. apply HQ. apply wellFormed_updateAccountBalance. exact Hs. }
  change (wp (runMutation m) (fun _ st' => wellFormed st') st).
  destruct Hwf as [Hnd Hempty].
  destruct m as [u i d | u i d | u i]; cbn [runMutation].
  - apply wp_bind. unfold TransactionService.createTransaction.
    repeat wp_step; try (split; assumption).
    all: apply wp_transaction_create; intros; try (split; assumption).
    all: apply wp_bind; apply Hbalance;
      [ split; [apply NoDup_ids_app_new; assumption|exact Hempty]
      | intros [[]|e] s' Hs'; [apply wp_ret; apply wp_ret|]; exact Hs' ].
  - apply wp_bind. unfold TransactionService.updateTransaction.
    repeat wp_step; try (split; assumption).
    all: apply wp_transaction_update; intros; try (split; assumption).
    all: match goal with
         | Hrow : head (List.filter (prisma.hasId ?j) _) = Some ?row |- _ =>
             assert (Hwf' : wellFormed
                              (prisma.set_transactions
                                 (prisma.replaceRow j (prisma.applyUpdate d row)
                                    (transactions st)) st))
               by (split; [cbn; rewrite ids_replaceRow;
                           [exact Hnd|apply (head_filter_hasId _ _ _ Hrow)]
                          |exact Hempty])
         end.
    all: repeat wp_step; try exact Hwf'.
    all: try (apply Hbalance; [exact Hwf'|]; intros [[]|e] s' Hs';
              repeat wp_step; try exact Hs';
              apply Hbalance; [exact Hs'|]; intros [[]|e'] s'' Hs'';
              repeat wp_step; exact Hs'').
  - unfold TransactionService.deleteTransaction.
    repeat wp_step; try (split; assumption).
    apply wp_transaction_delete; intros; [split; assumption|].
    apply Hbalance; [|auto].
    split; [apply NoDup_ids_filter; exact Hnd|exact Hempty].
Qed.

(* ===================================================================== *)
(** * Scenarios *)
(* ===================================================================== *)

(** The spec's account: an income of 3500 and expenses of 45.99, 120.50 and
    35.00 leave a balance of 3298.51.  The sample ledger is what the seven
    requests build from the opening store, one recalculation each. *)
Example sample_ledger_built_by_requests :
  let st := fold_left (fun st m => snd (runMutation m st))
                      Sample.requests Sample.opening in
  transactions st = transactions Sample.ledger
  /\ balanceUpdates st = ["acc1"; "acc1"; "acc1"; "acc1"; "acc2"; "acc3"; "acc3"]
  /\ (fun a => Qeq_bool (Account.balance a) 3298.51) <$> accounts st !! "acc1"
     = Some true
  /\ (fun a => Qeq_bool (Account.balance a) (-260)) <$> accounts st !! "acc2"
     = Some true
  /\ (fun a => Qeq_bool (Account.balance a) (-50)) <$> accounts st !! "acc3"
     = Some true.
Proof. repeat split; vm_compute; reflexivity. Qed.

(** Deleting the grocery expense raises the balance of [acc1] by 45.99 at the
    recalculation that follows, and touches no other account. *)
Example delete_recalculates_its_account :
  let st' := snd (runMutation (Delete "u1" "t2") Sample.ledger) in
  balanceUpdates st' = ["acc1"]
  /\ (fun a => Qeq_bool (Account.balance a) (3298.51 + 45.99))
       <$> accounts st' !! "acc1" = Some true
  /\ accounts st' !! "acc2" = accounts Sample.ledger !! "acc2"
  /\ accounts st' !! "acc3" = accounts Sample.ledger !! "acc3".
Proof. repeat split; vm_compute; reflexivity. Qed.

(** Moving the grocery expense to [acc2] recalculates the new account, then
    the old one. *)
Example move_recalculates_both_accounts :
  let st' := snd (runMutation Sample.move Sample.ledger) in
  balanceUpdates st' = ["acc2"; "acc1"]
  /\ (fun a => Qeq_bool (Account.balance a) (3298.51 + 45.99))
       <$> accounts st' !! "acc1" = Some true
  /\ (fun a => Qeq_bool (Account.balance a) (- 260 - 45.99))
       <$> accounts st' !! "acc2" = Some true.
Proof. repeat split; vm_compute; reflexivity. Qed.

(** An update that gives only a type passes the guard of the recalculation
    by: turning the grocery expense into an income succeeds, recalculates
    nothing, and leaves [acc1] with a balance that its ledger no longer
    gives. *)
Example update_type_leaves_balance_stale :
  fst (runMutation Sample.retype Sample.ledger) = Ok tt
  /\ balanceUpdates (snd (runMutation Sample.retype Sample.ledger)) = []
  /\ balanceMatchesLedger Sample.ledger "acc1"
  /\ ~ balanceMatchesLedger (snd (runMutation Sample.retype Sample.ledger)) "acc1".
Proof.
  split; [vm_compute; reflexivity|]. split; [vm_compute; reflexivity|]. split.
  - eexists. split; [vm_compute; reflexivity|]. split; vm_compute; reflexivity.
  - intros (acc & Hacc & _ & Hledger).
    vm_compute in Hacc. injection Hacc as <-.
    vm_compute in Hledger. discriminate Hledger.
Qed.

(** The spec's budget: amount 500, scoped to a category in which 45.99 was
    spent: 454.01 remain, 9.198 percent are used, and it is not over
    budget. *)
Example grocery_budget_progress :
  (fun bp =>
     (JS.eqb (BudgetWithProgress.spent bp) (JS.Fin 45.99),
      JS.eqb (BudgetWithProgress.remaining bp) (JS.Fin 454.01),
      JS.eqb (BudgetWithProgress.percentageUsed bp) (JS.Fin 9.198),
      BudgetWithProgress.isOverBudget bp))
    <$> returned (BudgetService.getBudget "u1" "b1" Sample.ledger)
  = Some (true, true, true, false).
Proof. vm_compute. reflexivity. Qed.

(** A budget of another user is not found. *)
Example budget_of_another_user :
  fst (BudgetService.getBudget "u2" "b1" Sample.ledger)
  = Throw (AppError 404 "Budget not found").
Proof. vm_compute. reflexivity. Qed.

(** [toFixed] rounds to the nearest, keeps trailing zeros and the sign. *)
Example toFixed_two_decimals : JS.toFixed (JS.Fin 3298.514) 2 = "3298.51".
Proof. vm_compute. reflexivity. Qed.

Example toFixed_no_decimals : JS.toFixed (JS.Fin (260 / 300 * 100)) 0 = "87".
Proof. vm_compute. reflexivity. Qed.

Example toFixed_half_up : JS.toFixed (JS.Fin 2.5) 0 = "3".
Proof. vm_compute. reflexivity. Qed.

Example toFixed_negative : JS.toFixed (JS.Fin (- (1 # 1000))) 2 = "-0.00".
Proof. vm_compute. reflexivity. Qed.

Example toFixed_padding : JS.toFixed (JS.Fin (5 + (7 # 100))) 3 = "5.070".
Proof. vm_compute. reflexivity. Qed.

Example toFixed_not_finite :
  JS.toFixed (JS.div (JS.Fin 1) (JS.Fin 0)) 2 = "Infinity"
  /\ JS.toFixed (JS.div (JS.Fin 0) (JS.Fin 0)) 2 = "NaN".
Proof. split; vm_compute; reflexivity. Qed.

(** date-fns on 2024-03-15T10:30:00Z, a Friday of a leap year. *)
Example calendar_of_march15 :
  DateFns.civilFromDays (DateFns.dayOf Sample.march15) = (2024, 3, 15)
  /\ DateFns.weekday Sample.march15 = 5
  /\ DateFns.format (DateFns.startOfWeek Sample.march15) "MMM dd" = "Mar 10"
  /\ DateFns.format (DateFns.endOfWeek Sample.march15) "MMM dd" = "Mar 16"
  /\ DateFns.startOfMonth Sample.march15 = 1709251200000
  /\ DateFns.endOfMonth Sample.march15 = 1711929599999
  /\ DateFns.startOfYear Sample.march15 = 1704067200000
  /\ DateFns.endOfYear Sample.march15 = 1735689599999
  /\ DateFns.format (DateFns.endOfMonth (DateFns.subMonths Sample.march15 1))
                    "MMMM yyyy" = "February 2024"
  /\ DateFns.dayOfMonth (DateFns.endOfMonth (DateFns.subMonths Sample.march15 1))
     = 29.
Proof. repeat split; vm_compute; reflexivity. Qed.

(** [subMonths] keeps the day of the month when it can: one month before
    March 31 is the last day of February. *)
Example subMonths_end_of_month :
  DateFns.format (DateFns.subMonths (Sample.march15 + 16 * Sample.day) 1) "MMM dd"
  = "Feb 29".
Proof. vm_compute. reflexivity. Qed.

(* ===================================================================== *)
(** * Further properties *)
(* ===================================================================== *)

(** ** The calendar *)

(** The year of a day of a 400-year cycle. *)
Lemma yearOfEra_bounds (doe : Z) :
  0 <= doe < 146097 ->
  let yoe := (doe - doe / 1460 + doe / 36524 - doe / 146096) / 365 in
  0 <= yoe <= 399
  /\ 365 * yoe + yoe / 4 - yoe / 100 <= doe
  /\ doe <= 365 * yoe + yoe / 4 - yoe / 100 + 365
  /\ (doe = 365 * yoe + yoe / 4 - yoe / 100 + 365 ->
      (yoe + 1) mod 4 = 0 /\ ((yoe + 1) mod 100 <> 0 \/ yoe = 399)).
Proof.
  intros H yoe. unfold yoe. clear yoe.
  Z.div_mod_to_equations; lia.
Qed.

(** The month of a day of a year that begins in March. *)
Lemma monthOfYear_bounds (doy : Z) :
  0 <= doy <= 365 ->
  let mp := (5 * doy + 2) / 153 in
  0 <= mp <= 11
  /\ (153 * mp + 2) / 5 <= doy
  /\ (mp < 11 -> doy < (153 * (mp + 1) + 2) / 5).
Proof.
  intros H mp. unfold mp. clear mp.
  Z.div_mod_to_equations; lia.
Qed.

Lemma civilMonth_range (mp : Z) : 0 <= mp <= 11 -> 1 <= civilMonth mp <= 12.
Proof. unfold civilMonth. destruct (Z.ltb_spec mp 10); lia. Qed.

(** The day number of the first day of a civil month, through the calendar of
    March years. *)
Lemma daysFromCivil_march (era yoe mp d : Z) :
  0 <= yoe <= 399 -> 0 <= mp <= 11 ->
  DateFns.daysFromCivil (civilYear era yoe mp) (civilMonth mp) d
  = marchMonthStart era yoe mp + d - 1.
Proof.
  intros Hyoe Hmp.
  unfold DateFns.daysFromCivil, civilYear, marchMonthStart, marchYearStart.
  set (m := civilMonth mp).
  assert (Hm : (if 2 <? m then m - 3 else m + 9) = mp).
  { unfold m, civilMonth. destruct (Z.ltb_spec mp 10).
    - destruct (Z.ltb_spec 2 (mp + 3)); lia.
    - destruct (Z.ltb_spec 2 (mp - 9)); lia. }
  rewrite Hm.
  assert (Hy : (if m <=? 2
                then (if m <=? 2 then yoe + era * 400 + 1 else yoe + era * 400) - 1
                else (if m <=? 2 then yoe + era * 400 + 1 else yoe + era * 400))
               = yoe + era * 400)
    by (destruct (m <=? 2); lia).
  rewrite Hy.
  rewrite Z.div_add, (Z.div_small yoe 400) by lia.
  replace (yoe + era * 400 - (0 + era) * 400) with yoe by lia.
  lia.
Qed.

(** What [civilFromDays] computes, in the calendar of March years. *)
Lemma civilFromDays_march (z : Z) :
  exists era yoe mp d,
    0 <= yoe <= 399 /\ 0 <= mp <= 11 /\ 1 <= d
    /\ DateFns.civilFromDays z = (civilYear era yoe mp, civilMonth mp, d)
    /\ z = marchMonthStart era yoe mp + d - 1
    /\ (mp < 11 -> z < marchMonthStart era yoe (mp + 1))
    /\ (mp = 11 -> yoe < 399 -> z < marchMonthStart era (yoe + 1) 0)
    /\ (mp = 11 -> yoe = 399 -> z < marchMonthStart (era + 1) 0 0).
Proof.
  unfold DateFns.civilFromDays. cbv zeta.
  set (era := (z + 719468) / 146097).
  set (doe := z + 719468 - era * 146097).
  assert (Hdoe : 0 <= doe < 146097)
    by (unfold doe, era; Z.div_mod_to_equations; lia).
  assert (Hz : z = era * 146097 + doe - 719468) by (unfold doe; lia).
  clearbody doe. clearbody era. subst z.
  pose proof (yearOfEra_bounds doe Hdoe) as Hyoe. cbv zeta in Hyoe.
  set (yoe := (doe - doe / 1460 + doe / 36524 - doe / 146096) / 365) in *.
  clearbody yoe.
  destruct Hyoe as (Hyoe & Hlow & Hhigh & Hleap).
  set (doy := doe - (365 * yoe + yoe / 4 - yoe / 100)).
  assert (Hdoy : 0 <= doy <= 365) by (unfold doy; lia).
  pose proof (monthOfYear_bounds doy Hdoy) as Hmp. cbv zeta in Hmp.
  set (mp := (5 * doy + 2) / 153) in *. clearbody mp.
  destruct Hmp as (Hmp & Hstart & Hnext).
  exists era, yoe, mp, (doy - (153 * mp + 2) / 5 + 1).
  split; [exact Hyoe|]. split; [exact Hmp|]. split; [lia|]. split.
  { unfold civilYear, civilMonth. destruct (mp <? 10); reflexivity. }
  unfold marchMonthStart, marchYearStart.
  split; [unfold doy; lia|]. split; [|split].
  - intros Hlt. specialize (Hnext Hlt). unfold doy in Hnext. lia.
  - intros -> Hlt. change ((153 * 0 + 2) / 5) with 0.
    assert (Hnexty : 365 * (yoe + 1) + (yoe + 1) / 4 - (yoe + 1) / 100
                     >= 365 * yoe + yoe / 4 - yoe / 100 + 365
                        + (if decide (doy = 365) then 1 else 0)).
    { destruct (decide (doy = 365)) as [Heq|Hne].
      - assert (Hd : doe = 365 * yoe + yoe / 4 - yoe / 100 + 365)
          by (unfold doy in Heq; lia).
        specialize (Hleap Hd). clear -Hleap Hlt Hyoe.
        Z.div_mod_to_equations; lia.
      - clear -Hyoe. Z.div_mod_to_equations; lia. }
    destruct (decide (doy = 365)); unfold doy in *; lia.
  - intros -> ->. change ((153 * 0 + 2) / 5) with 0.
    change (365 * 0 + 0 / 4 - 0 / 100) with 0.
    change (365 * 399 + 399 / 4 - 399 / 100) with 145731 in *.
    lia.
Qed.

Lemma marchYearStart_next (yoe : Z) :
  0 <= yoe ->
  marchYearStart yoe + 365 <= marchYearStart (yoe + 1) <= marchYearStart yoe + 366.
Proof. intros H. unfold marchYearStart. Z.div_mod_to_equations; lia. Qed.

(** Every month is a month of the calendar of March years. *)
Lemma monthIndex_decompose (idx : Z) :
  exists era yoe mp,
    0 <= yoe <= 399 /\ 0 <= mp <= 11
    /\ idx = 12 * (yoe + 400 * era) + mp + 2.
Proof.
  exists ((idx - 2) / 12 / 400), ((idx - 2) / 12 mod 400), ((idx - 2) mod 12).
  Z.div_mod_to_equations; lia.
Qed.

Lemma firstDayOfMonth_march (era yoe mp : Z) :
  0 <= yoe <= 399 -> 0 <= mp <= 11 ->
  firstDayOfMonth (12 * (yoe + 400 * era) + mp + 2) = marchMonthStart era yoe mp.
Proof.
  intros Hyoe Hmp.
  assert (Hidx : 12 * (yoe + 400 * era) + mp + 2
                 = 12 * civilYear era yoe mp + (civilMonth mp - 1)).
  { unfold civilYear, civilMonth.
    destruct (Z.ltb_spec mp 10).
    - destruct (Z.leb_spec (mp + 3) 2); lia.
    - destruct (Z.leb_spec (mp - 9) 2); lia. }
  rewrite Hidx. unfold firstDayOfMonth.
  pose proof (civilMonth_range mp Hmp) as Hm.
  replace ((12 * civilYear era yoe mp + (civilMonth mp - 1)) / 12)
    with (civilYear era yoe mp) by (Z.div_mod_to_equations; lia).
  replace ((12 * civilYear era yoe mp + (civilMonth mp - 1)) mod 12 + 1)
    with (civilMonth mp) by (Z.div_mod_to_equations; lia).
  rewrite daysFromCivil_march by assumption. lia.
Qed.

(** The first day of the month that follows. *)
Lemma firstDayOfMonth_succ_march (era yoe mp : Z) :
  0 <= yoe <= 399 -> 0 <= mp <= 11 ->
  firstDayOfMonth (12 * (yoe + 400 * era) + mp + 2 + 1)
  = if decide (mp < 11) then marchMonthStart era yoe (mp + 1)
    else if decide (yoe < 399) then marchMonthStart era (yoe + 1) 0
    else marchMonthStart (era + 1) 0 0.
Proof.
  intros Hyoe Hmp.
  destruct (decide (mp < 11)) as [Hlt|Hge]; [|destruct (decide (yoe < 399))].
  - rewrite <- firstDayOfMonth_march by lia. f_equal. lia.
  - rewrite <- firstDayOfMonth_march by lia. f_equal. lia.
  - rewrite <- firstDayOfMonth_march by lia. f_equal. lia.
Qed.

(** A month begins before the next one does. *)
(** A month has from 28 to 31 days. *)
Lemma firstDayOfMonth_step (idx : Z) :
  28 <= firstDayOfMonth (idx + 1) - firstDayOfMonth idx <= 31.
Proof.
  destruct (monthIndex_decompose idx) as (era & yoe & mp & Hyoe & Hmp & ->).
  rewrite firstDayOfMonth_succ_march, firstDayOfMonth_march by assumption.
  unfold marchMonthStart.
  destruct (decide (mp < 11)); [|destruct (decide (yoe < 399))].
  - Z.div_mod_to_equations; lia.
  - assert (mp = 11) by lia. subst mp.
    pose proof (marchYearStart_next yoe ltac:(lia)).
    change ((153 * 11 + 2) / 5) with 337. change ((153 * 0 + 2) / 5) with 0. lia.
  - assert (mp = 11) by lia. assert (yoe = 399) by lia. subst mp yoe.
    change ((153 * 11 + 2) / 5) with 337. change ((153 * 0 + 2) / 5) with 0.
    change (marchYearStart 399) with 145731. change (marchYearStart 0) with 0. lia.
Qed.

Lemma firstDayOfMonth_succ (idx : Z) :
  firstDayOfMonth idx < firstDayOfMonth (idx + 1).
Proof. pose proof (firstDayOfMonth_step idx). lia. Qed.

Lemma firstDayOfMonth_lt (i j : Z) :
  i < j -> firstDayOfMonth i < firstDayOfMonth j.
Proof.
  intros H. replace j with (i + 1 + Z.of_nat (Z.to_nat (j - i - 1))) by lia.
  induction (Z.to_nat (j - i - 1)) as [|n IH].
  - rewrite Z.add_0_r. apply firstDayOfMonth_succ.
  - etransitivity; [exact IH|].
    replace (i + 1 + Z.of_nat (S n)) with (i + 1 + Z.of_nat n + 1) by lia.
    apply firstDayOfMonth_succ.
Qed.

Lemma firstDayOfMonth_le (i j : Z) :
  i <= j -> firstDayOfMonth i <= firstDayOfMonth j.
Proof.
  intros H. destruct (decide (i = j)) as [->|Hne]; [lia|].
  apply Z.lt_le_incl, firstDayOfMonth_lt. lia.
Qed.

(** A day lies in its month: on or after its first day, before the first day
    of the next month; its month number is between 1 and 12 and its day of
    the month counts from 1. *)
Lemma day_in_its_month (z : Z) :
  firstDayOfMonth (monthIndexOfDay z) <= z < firstDayOfMonth (monthIndexOfDay z + 1)
  /\ 1 <= snd (fst (DateFns.civilFromDays z)) <= 12
  /\ snd (DateFns.civilFromDays z) = z - firstDayOfMonth (monthIndexOfDay z) + 1.
Proof.
  destruct (civilFromDays_march z)
    as (era & yoe & mp & d & Hyoe & Hmp & Hd & Hcivil & Hz & Hn1 & Hn2 & Hn3).
  assert (Hidx : monthIndexOfDay z = 12 * (yoe + 400 * era) + mp + 2).
  { unfold monthIndexOfDay. rewrite Hcivil. cbn [fst snd].
    unfold civilYear, civilMonth.
    destruct (Z.ltb_spec mp 10).
    - destruct (Z.leb_spec (mp + 3) 2); lia.
    - destruct (Z.leb_spec (mp - 9) 2); lia. }
  rewrite Hidx, firstDayOfMonth_succ_march, firstDayOfMonth_march by assumption.
  rewrite Hcivil. cbn [fst snd].
  split; [|split; [apply civilMonth_range; exact Hmp|lia]].
  split; [lia|].
  destruct (decide (mp < 11)); [auto|].
  destruct (decide (yoe < 399)); [apply Hn2; lia|apply Hn3; lia].
Qed.

(** The month of a day is the only month the day lies in. *)
Lemma monthIndexOfDay_unique (z idx : Z) :
  firstDayOfMonth idx <= z < firstDayOfMonth (idx + 1) ->
  monthIndexOfDay z = idx.
Proof.
  intros H. destruct (day_in_its_month z) as [Hz _].
  destruct (Z.lt_trichotomy (monthIndexOfDay z) idx) as [Hlt|[Heq|Hgt]].
  - pose proof (firstDayOfMonth_le (monthIndexOfDay z + 1) idx ltac:(lia)). lia.
  - exact Heq.
  - pose proof (firstDayOfMonth_le (idx + 1) (monthIndexOfDay z) ltac:(lia)). lia.
Qed.

(** *** Instants *)

Lemma dayOf_le (a d : Z) : a * DateFns.msPerDay <= d <-> a <= DateFns.dayOf d.
Proof.
  unfold DateFns.dayOf, DateFns.msPerDay. split; intros H.
  - apply Z.div_le_lower_bound; lia.
  - Z.div_mod_to_equations; lia.
Qed.

Lemma dayOf_lt (b d : Z) : d < b * DateFns.msPerDay <-> DateFns.dayOf d < b.
Proof.
  unfold DateFns.dayOf, DateFns.msPerDay. split; intros H.
  - apply Z.div_lt_upper_bound; lia.
  - Z.div_mod_to_equations; lia.
Qed.

Lemma dayOf_start (a : Z) : DateFns.dayOf (a * DateFns.msPerDay) = a.
Proof. unfold DateFns.dayOf, DateFns.msPerDay. apply Z.div_mul. lia. Qed.

Lemma timeOfDay_range (d : Z) : 0 <= DateFns.timeOfDay d < DateFns.msPerDay.
Proof. unfold DateFns.timeOfDay, DateFns.msPerDay. apply Z.mod_pos_bound. lia. Qed.

Lemma monthIndex_dayOf (d : Z) :
  DateFns.monthIndex d = monthIndexOfDay (DateFns.dayOf d).
Proof. reflexivity. Qed.

Lemma monthStart_firstDay (idx : Z) :
  DateFns.monthStart idx = firstDayOfMonth idx * DateFns.msPerDay.
Proof. reflexivity. Qed.

(** An instant lies in its month. *)
Lemma monthStart_bounds (d : Z) :
  DateFns.monthStart (DateFns.monthIndex d) <= d
  < DateFns.monthStart (DateFns.monthIndex d + 1).
Proof.
  rewrite !monthStart_firstDay, monthIndex_dayOf.
  destruct (day_in_its_month (DateFns.dayOf d)) as [[H1 H2] _].
  split; [apply dayOf_le; exact H1|apply dayOf_lt; exact H2].
Qed.

Lemma monthStart_lt (i j : Z) :
  i < j -> DateFns.monthStart i < DateFns.monthStart j.
Proof.
  intros H. rewrite !monthStart_firstDay.
  pose proof (firstDayOfMonth_lt i j H). unfold DateFns.msPerDay. lia.
Qed.


(** The month of an instant is the only month the instant lies in. *)
Lemma monthIndex_unique (d idx : Z) :
  DateFns.monthStart idx <= d < DateFns.monthStart (idx + 1) ->
  DateFns.monthIndex d = idx.
Proof.
  rewrite !monthStart_firstDay, monthIndex_dayOf. intros [H1 H2].
  apply monthIndexOfDay_unique.
  split; [apply dayOf_le; exact H1|apply dayOf_lt; exact H2].
Qed.

Lemma monthIndex_iff (d idx : Z) :
  DateFns.monthIndex d = idx
  <-> DateFns.monthStart idx <= d <= DateFns.monthStart (idx + 1) - 1.
Proof.
  split.
  - intros <-. pose proof (monthStart_bounds d). lia.
  - intros H. apply monthIndex_unique. lia.
Qed.

Lemma monthIndex_monthStart (idx : Z) :
  DateFns.monthIndex (DateFns.monthStart idx) = idx.
Proof.
  apply monthIndex_unique. pose proof (monthStart_lt idx (idx + 1)). lia.
Qed.

Lemma monthIndex_before_monthStart (idx : Z) :
  DateFns.monthIndex (DateFns.monthStart idx - 1) = idx - 1.
Proof.
  apply monthIndex_unique. replace (idx - 1 + 1) with idx by lia.
  rewrite !monthStart_firstDay.
  pose proof (firstDayOfMonth_succ (idx - 1)) as H.
  replace (idx - 1 + 1) with idx in H by lia.
  unfold DateFns.msPerDay. lia.
Qed.

(** Month and year of an instant, from its month index. *)
Lemma monthOf_range (d : Z) : 1 <= DateFns.monthOf d <= 12.
Proof.
  destruct (day_in_its_month (DateFns.dayOf d)) as (_ & H & _). exact H.
Qed.

Lemma dayOfMonth_positive (d : Z) : 1 <= DateFns.dayOfMonth d.
Proof.
  unfold DateFns.dayOfMonth.
  destruct (day_in_its_month (DateFns.dayOf d)) as ([H1 _] & _ & ->). lia.
Qed.

Lemma monthIndex_year (d : Z) :
  DateFns.monthIndex d = 12 * DateFns.yearOf d + (DateFns.monthOf d - 1).
Proof. reflexivity. Qed.

Lemma monthIndex_determines (d d' : Z) :
  DateFns.monthIndex d = DateFns.monthIndex d' ->
  DateFns.yearOf d = DateFns.yearOf d' /\ DateFns.monthOf d = DateFns.monthOf d'.
Proof.
  rewrite !monthIndex_year.
  pose proof (monthOf_range d). pose proof (monthOf_range d'). lia.
Qed.

Lemma daysInMonth_firstDay (idx : Z) :
  DateFns.daysInMonth idx = firstDayOfMonth (idx + 1) - firstDayOfMonth idx.
Proof.
  unfold DateFns.daysInMonth. rewrite !monthStart_firstDay.
  unfold DateFns.msPerDay. Z.div_mod_to_equations; lia.
Qed.

(** [addMonths] lands in the month that is [n] months away. *)
Lemma monthIndex_addMonths (d n : Z) :
  DateFns.monthIndex (DateFns.addMonths d n) = DateFns.monthIndex d + n.
Proof.
  apply monthIndex_unique. unfold DateFns.addMonths.
  set (idx := DateFns.monthIndex d + n).
  pose proof (dayOfMonth_positive d) as Hdom.
  pose proof (timeOfDay_range d) as Htod.
  pose proof (firstDayOfMonth_succ idx) as Hnext.
  rewrite daysInMonth_firstDay, !monthStart_firstDay.
  unfold DateFns.msPerDay in *. lia.
Qed.

Lemma monthIndex_subMonths (d : Z) :
  DateFns.monthIndex (DateFns.subMonths d 1) = DateFns.monthIndex d - 1.
Proof. unfold DateFns.subMonths. rewrite monthIndex_addMonths. lia. Qed.

(** Years. *)
Lemma monthIndex_startOfYear (d : Z) :
  DateFns.monthIndex (DateFns.startOfYear d) = 12 * DateFns.yearOf d.
Proof. unfold DateFns.startOfYear. apply monthIndex_monthStart. Qed.

Lemma monthIndex_endOfYear (d : Z) :
  DateFns.monthIndex (DateFns.endOfYear d) = 12 * DateFns.yearOf d + 11.
Proof.
  unfold DateFns.endOfYear. rewrite monthIndex_before_monthStart. lia.
Qed.


(* ===================================================================== *)
(** * Sorting, filtering and paging *)
(* ===================================================================== *)

Section Sorting.
Context {A : Type} (after : A -> A -> bool) (R : A -> A -> Prop) (good : A -> Prop).

(** [R x y]: [x] may stand before [y].  On the elements that are [good] the
    comparator decides [R], and [R] is transitive. *)
Hypothesis after_true : forall x y, good x -> good y -> after x y = true -> R y x.
Hypothesis after_false : forall x y, good x -> good y -> after x y = false -> R x y.
Hypothesis R_trans :
  forall x y z, good x -> good y -> good z -> R x y -> R y z -> R x z.

Lemma insertSorted_sorted_on (x : A) (l : list A) :
  good x -> Forall good l ->
  StronglySorted R l -> StronglySorted R (insertSorted after x l).
Proof.
  intros Hx Hgood Hs. revert Hgood.
  induction Hs as [|y l Hl IH Hy]; intros Hgood; cbn.
  - repeat constructor.
  - apply Forall_cons in Hgood as [Hgy Hgl].
    destruct (after x y) eqn:E.
    + constructor; [exact (IH Hgl)|].
      apply Forall_forall. intros z Hz.
      apply list_elem_of_In in Hz.
      apply (Permutation_in _ (insertSorted_Permutation after x l)) in Hz.
      destruct Hz as [<-|Hz]; [apply after_true; assumption|].
      rewrite Forall_forall in Hy. apply Hy. apply list_elem_of_In. exact Hz.
    + constructor; [constructor; assumption|].
      constructor; [apply after_false; assumption|].
      rewrite Forall_forall in Hy, Hgl. apply Forall_forall. intros z Hz.
      apply (R_trans x y z); auto.
Qed.

Lemma stableSort_sorted_on (l : list A) :
  Forall good l -> StronglySorted R (stableSort after l).
Proof.
  induction 1 as [|x l Hx Hl IH]; cbn; [constructor|].
  apply insertSorted_sorted_on; [exact Hx| |exact IH].
  apply Forall_forall. intros z Hz. apply list_elem_of_In in Hz.
  apply (Permutation_in _ (stableSort_Permutation after l)) in Hz.
  rewrite Forall_forall in Hl. apply Hl. apply list_elem_of_In. exact Hz.
Qed.

End Sorting.

Lemma stableSort_sorted {A} (after : A -> A -> bool) (R : A -> A -> Prop)
    (l : list A) :
  (forall x y, after x y = true -> R y x) ->
  (forall x y, after x y = false -> R x y) ->
  (forall x y z, R x y -> R y z -> R x z) ->
  StronglySorted R (stableSort after l).
Proof.
  intros H1 H2 H3.
  apply (stableSort_sorted_on after R (fun _ => True)).
  - intros x y _ _. apply H1.
  - intros x y _ _. apply H2.
  - intros x y z _ _ _. apply H3.
  - apply Forall_forall. intros x _. exact I.
Qed.

Lemma StronglySorted_app_inv {A} (R : A -> A -> Prop) (l1 l2 : list A) :
  StronglySorted R (l1 ++ l2) ->
  forall x y, In x l1 -> In y l2 -> R x y.
Proof.
  induction l1 as [|z l1 IH]; cbn; [tauto|].
  intros Hs x y [<-|Hx] Hy.
  - apply StronglySorted_inv in Hs as [_ Hall].
    rewrite Forall_forall in Hall. apply Hall.
    apply list_elem_of_In. apply in_or_app. right. exact Hy.
  - apply StronglySorted_inv in Hs as [Hs _]. apply IH; assumption.
Qed.

Lemma In_firstn {A} (n : nat) (l : list A) (x : A) :
  In x (firstn n l) -> In x l.
Proof.
  revert l. induction n as [|n IH]; intros [|y l]; cbn; try tauto.
  intros [->|H]; [left; reflexivity|right; apply IH; exact H].
Qed.

Lemma StronglySorted_firstn {A} (R : A -> A -> Prop) (n : nat) (l : list A) :
  StronglySorted R l -> StronglySorted R (firstn n l).
Proof.
  intros H. revert n. induction H as [|x l Hl IH Hx]; intros [|n]; cbn;
    try constructor.
  - apply IH.
  - apply Forall_forall. intros y Hy. rewrite Forall_forall in Hx. apply Hx.
    apply list_elem_of_In. apply list_elem_of_In in Hy.
    apply (In_firstn _ _ _ Hy).
Qed.



Lemma filter_ext_In {A} (P Q : A -> bool) (l : list A) :
  (forall x, In x l -> P x = Q x) -> List.filter P l = List.filter Q l.
Proof.
  induction l as [|x l IH]; cbn; [reflexivity|]. intros H.
  rewrite (H x (or_introl eq_refl)), IH by auto. reflexivity.
Qed.

Lemma amountsOf_ext (P Q : Transaction.t -> bool) (rows : list Transaction.t) :
  (forall t, In t rows -> P t = Q t) -> amountsOf P rows = amountsOf Q rows.
Proof. intros H. unfold amountsOf. rewrite (filter_ext_In P Q rows H). reflexivity. Qed.

(** The first [k] pages of [n] elements are the first [k * n] elements. *)
Lemma firstn_plus {A} (n m : nat) (l : list A) :
  firstn (n + m) l = (firstn n l ++ firstn m (skipn n l))%list.
Proof.
  revert l. induction n as [|n IH]; intros l; cbn; [reflexivity|].
  destruct l as [|x l]; cbn; [rewrite firstn_nil; reflexivity|].
  rewrite IH. reflexivity.
Qed.

Lemma pages_concat {A} (n k : nat) (l : list A) :
  concat ((fun p => firstn n (skipn ((p - 1) * n) l)) <$> seq 1 k)
  = firstn (k * n) l.
Proof.
  induction k as [|k IH]; [reflexivity|].
  rewrite seq_S, fmap_app, concat_app, IH. cbn [fmap list_fmap concat].
  rewrite app_nil_r.
  replace (1 + k - 1)%nat with k by lia.
  replace (S k * n)%nat with (k * n + n)%nat by lia.
  symmetry. apply firstn_plus.
Qed.

(** [mapM] of a method that returns and writes nothing. *)
Lemma mapM_pure_Forall2 {A B} (f : A -> Prisma B) (R : A -> B -> Prop)
    (l : list A) (st : Store) :
  (forall x, exists y, f x st = (Ok y, st) /\ R x y) ->
  exists ys, mapM f l st = (Ok ys, st) /\ Forall2 R l ys.
Proof.
  intros Hf. induction l as [|x l (ys & E & HR)]; cbn.
  - exists []. split; [reflexivity|constructor].
  - destruct (Hf x) as (y & Ey & Hy).
    exists (y :: ys). unfold bind. rewrite Ey, E. split; [reflexivity|].
    constructor; assumption.
Qed.

(* ===================================================================== *)
(** * The mutations on a consistent store *)
(* ===================================================================== *)

(** ** Rows and their ids *)

Lemma same_id_same_row (rows : list Transaction.t) (r r' : Transaction.t) :
  NoDup (Transaction.id <$> rows) ->
  In r rows -> In r' rows -> Transaction.id r = Transaction.id r' -> r = r'.
Proof.
  induction rows as [|x rows IH]; cbn; [tauto|].
  intros Hnd. apply NoDup_cons in Hnd as [Hnotin Hnd].
  intros [->|Hr] [->|Hr'] Hid; auto.
  - exfalso. apply Hnotin. rewrite Hid. apply list_elem_of_fmap.
    exists r'. split; [reflexivity|apply list_elem_of_In; exact Hr'].
  - exfalso. apply Hnotin. rewrite <- Hid. apply list_elem_of_fmap.
    exists r. split; [reflexivity|apply list_elem_of_In; exact Hr].
Qed.

Lemma head_filter_In {A} (P : A -> bool) (l : list A) (x : A) :
  head (List.filter P l) = Some x -> In x l /\ P x = true.
Proof.
  intros H. apply filter_In.
  destruct (List.filter P l) as [|y rest]; [discriminate|].
  injection H as ->. left. reflexivity.
Qed.

Lemma head_filter_None {A} (P : A -> bool) (l : list A) :
  head (List.filter P l) = None <-> forall x, In x l -> P x = false.
Proof.
  induction l as [|y l IH]; cbn; [tauto|].
  destruct (P y) eqn:Hy; cbn.
  - split; [discriminate|]. intros H. specialize (H y (or_introl eq_refl)). congruence.
  - rewrite IH. split; [intros H x [<-|Hx]; auto|auto].
Qed.

Lemma existsb_hasId_head (id : string) (rows : list Transaction.t) :
  existsb (prisma.hasId id) rows = true
  <-> exists row, head (List.filter (prisma.hasId id) rows) = Some row.
Proof.
  induction rows as [|r rows IH]; cbn.
  - split; [discriminate|intros [? ?]; discriminate].
  - destruct (prisma.hasId id r); cbn; [split; eauto|exact IH].
Qed.

Lemma account_findFirst_owned (st : Store) (id u : string) (a0 : Account.t) :
  match accounts st !! id with
  | Some a => if bool_decide (Account.userId a = u) then Some a else None
  | None => None
  end = Some a0 ->
  accounts st !! id = Some a0 /\ Account.userId a0 = u.
Proof.
  destruct (accounts st !! id) as [a|]; [|discriminate].
  case_bool_decide; [|discriminate]. intros [= <-]. auto.
Qed.

(** ** Steps that rewrite balances *)

Lemma balancesOnly_refl (u : string) (st st' : Store) :
  accounts st' = accounts st -> categories st' = categories st ->
  budgets st' = budgets st -> balancesOnly u st st'.
Proof. intros Ha Hc Hb. repeat split; try assumption. intros a. left. congruence. Qed.

Lemma balancesOnly_trans (u : string) (st1 st2 st3 : Store) :
  balancesOnly u st1 st2 -> balancesOnly u st2 st3 -> balancesOnly u st1 st3.
Proof.
  intros (Hc1 & Hb1 & H1) (Hc2 & Hb2 & H2).
  split; [congruence|]. split; [congruence|].
  intros a. destruct (H2 a) as [E2|(acc2 & b2 & E2 & Hu2 & E3)].
  - rewrite E2. apply H1.
  - destruct (H1 a) as [E1|(acc1 & b1 & E1 & Hu1 & E1')].
    + right. exists acc2, b2. rewrite <- E1. auto.
    + right. exists acc1, b2. split; [exact E1|]. split; [exact Hu1|].
      rewrite E3. f_equal. rewrite E2 in E1'. injection E1' as ->. reflexivity.
Qed.

Lemma balancesOnly_owner (u : string) (st st' : Store) (a : string) (acc : Account.t) :
  balancesOnly u st st' ->
  accounts st !! a = Some acc ->
  exists acc', accounts st' !! a = Some acc' /\ Account.userId acc' = Account.userId acc.
Proof.
  intros (_ & _ & H) Hacc. destruct (H a) as [E|(acc0 & b & E0 & _ & E)].
  - exists acc. rewrite E. auto.
  - rewrite Hacc in E0. injection E0 as <-. eexists. split; [exact E|reflexivity].
Qed.

Lemma consistent_balancesOnly (u : string) (st st' : Store) :
  consistent st ->
  transactions st' = transactions st ->
  balancesOnly u st st' ->
  consistent st'.
Proof.
  intros [[Hnd Hempty] Hown] Ht Hb. split; [split|].
  - rewrite Ht. exact Hnd.
  - destruct Hb as (_ & _ & H). destruct (H "") as [E|(acc & b & E & _)].
    + rewrite E. exact Hempty.
    + congruence.
  - rewrite Ht. eapply Forall_impl; [exact Hown|].
    intros t (acc & Hacc & Hu).
    destruct (balancesOnly_owner u st st' _ acc Hb Hacc) as (acc' & Hacc' & Hu').
    exists acc'. split; [exact Hacc'|congruence].
Qed.

(** The recalculation of an account of [u]: it returns, and rewrites that
    balance only. *)
Lemma wp_updateAccountBalance_owned (u a : string) (acc : Account.t)
    (Q : Outcome unit -> Store -> Prop) (st : Store) :
  accounts st !! a = Some acc ->
  Account.userId acc = u ->
  (forall st',
     transactions st' = transactions st -> balancesOnly u st st' -> Q (Ok tt) st') ->
  wp (TransactionService.updateAccountBalance a) Q st.
Proof.
  intros Hacc Hu HQ. unfold wp.
  destruct (updateAccountBalance_found a st acc Hacc) as (b & -> & _). cbn [fst snd].
  apply HQ; [reflexivity|].
  split; [reflexivity|]. split; [reflexivity|].
  intros x. cbn. destruct (decide (x = a)) as [->|Hne].
  - right. exists acc, b. rewrite lookup_insert_eq. auto.
  - left. apply lookup_insert_ne. congruence.
Qed.

(** ** What a mutation does on a consistent store *)

Lemma Forall_replaceRow (P : Transaction.t -> Prop) (id : string)
    (new : Transaction.t) (rows : list Transaction.t) :
  P new -> Forall P rows -> Forall P (prisma.replaceRow id new rows).
Proof.
  intros Hnew. induction 1 as [|r rows Hr _ IH]; cbn; constructor; [|exact IH].
  destruct (prisma.hasId id r); assumption.
Qed.

Lemma Forall_filter_keep {A} (P : A -> Prop) (f : A -> bool) (l : list A) :
  Forall P l -> Forall P (List.filter f l).
Proof.
  induction 1 as [|x l Hx _ IH]; cbn; [constructor|].
  destruct (f x); [constructor|]; assumption.
Qed.

(** The account of an updated row belongs to the caller: it is the account
    the data give, which was verified, or the one the row had. *)
Lemma applyUpdate_account_owned (st : Store) (u : string)
    (data : UpdateTransactionData.t) (row : Transaction.t) :
  accounts st !! "" = None ->
  ownsItsAccount st row ->
  Transaction.userId row = u ->
  prisma.references_ok st (prisma.applyUpdate data row) = true ->
  match UpdateTransactionData.accountId data with
  | Some a =>
      JS.truthyString a = true ->
      exists acc, accounts st !! a = Some acc /\ Account.userId acc = u
  | None => True
  end ->
  ownsItsAccount st (prisma.applyUpdate data row).
Proof.
  intros Hempty Hown Hu Href Hchecked.
  unfold ownsItsAccount. cbn [prisma.applyUpdate Transaction.accountId Transaction.userId].
  destruct (UpdateTransactionData.accountId data) as [a|] eqn:Ha;
    cbn [default from_option id].
  - destruct a as [|c a'].
    + exfalso. unfold prisma.references_ok in Href.
      apply andb_true_iff in Href as [Href _].
      apply bool_decide_eq_true_1 in Href.
      cbn [prisma.applyUpdate Transaction.accountId] in Href.
      rewrite Ha in Href. change (is_Some (accounts st !! "")) in Href.
      rewrite Hempty in Href.
      destruct Href as [? ?]. discriminate.
    + destruct (Hchecked eq_refl) as (acc & Hacc & Hacc_u).
      exists acc. split; [exact Hacc|congruence].
  - exact Hown.
Qed.

Lemma runMutation_consistent_wp (m : Mutation) (st : Store) :
  consistent st ->
  wp (runMutation m)
     (fun r st' =>
        match r with
        | Throw _ => st' = st
        | Ok _ =>
            balancesOnly (userOf m) st st'
            /\ ledgerEffect m (transactions st) (transactions st')
            /\ consistent st'
        end) st.
Proof.
  intros Hcons. pose proof Hcons as [[Hnd Hempty] Hown].
  destruct m as [u i d | u i d | u i]; cbn [runMutation userOf ledgerEffect].
  - (* create *)
    apply wp_bind. unfold TransactionService.createTransaction.
    wp_step. wp_step. wp_step; [|wp_step; reflexivity].
    match goal with
    | H : _ = Some ?x |- _ =>
        rename x into acc0; apply account_findFirst_owned in H as [Hacc Hu]
    end.
    wp_step.
    + assert (Hcat : forall Q' : Outcome unit -> Store -> Prop,
                 Q' (Ok tt) st -> (forall e, Q' (Throw e) st) ->
                 wp match CreateTransactionData.categoryId d with
                    | Some c =>
                        if JS.truthyString c then
                          category <- prisma.category_findFirst c u ;;
                          match category with
                          | None => throw (AppError 404 "Category not found")
                          | Some _ => ret tt
                          end
                        else ret tt
                    | None => ret tt
                    end Q' st).
      { intros Q' HO HT. repeat wp_step; auto. }
      apply Hcat; [|reflexivity].
      apply wp_bind. apply wp_transaction_create; intros; try reflexivity.
      set (row := {| Transaction.id := i |}) in *.
      assert (Hcons1 : consistent (prisma.set_transactions
                                     (transactions st ++ [row])%list st)).
      { split; [split; [apply NoDup_ids_app_new; assumption|exact Hempty]|].
        cbn. apply Forall_app. split; [exact Hown|].
        constructor; [|constructor]. exists acc0. split; [exact Hacc|exact Hu]. }
      apply wp_bind.
      apply (wp_updateAccountBalance_owned u _ acc0); [exact Hacc|exact Hu|].
      intros st' Ht Hb. repeat wp_step.
      split; [|split].
      * eapply balancesOnly_trans; [|exact Hb]. apply balancesOnly_refl; reflexivity.
      * rewrite Ht. exists row. cbn. auto.
      * eapply consistent_balancesOnly; [exact Hcons1|exact Ht|exact Hb].
  - (* update *)
    apply wp_bind. unfold TransactionService.updateTransaction.
    wp_step. wp_step. wp_step; [|wp_step; reflexivity].
    match goal with
    | H : head _ = Some ?t |- _ => rename t into existing; rename H into Hex
    end.
    pose proof (head_filter_unique _ _ _ _ Hnd Hex) as Hrow.
    destruct (head_filter_In _ _ _ Hex) as [Hin Hmatch].
    apply andb_true_iff in Hmatch as [_ Huser].
    apply bool_decide_eq_true_1 in Huser.
    assert (Hown_ex : ownsItsAccount st existing).
    { rewrite Forall_forall in Hown. apply Hown. apply list_elem_of_In. exact Hin. }
    wp_step.
    assert (Haccount : forall Q' : Outcome unit -> Store -> Prop,
               (forall e, Q' (Throw e) st) ->
               (match UpdateTransactionData.accountId d with
                | Some a =>
                    JS.truthyString a = true ->
                    exists acc, accounts st !! a = Some acc /\ Account.userId acc = u
                | None => True
                end -> Q' (Ok tt) st) ->
               wp match UpdateTransactionData.accountId d with
                  | Some a =>
                      if JS.truthyString a then
                        account <- prisma.account_findFirst a u ;;
                        match account with
                        | None => throw (AppError 404 "Account not found")
                        | Some _ => ret tt
                        end
                      else ret tt
                  | None => ret tt
                  end Q' st).
    { intros Q' HT HO. repeat wp_step; auto.
      - apply HO. intros _.
        match goal with
        | H : _ = Some _ |- _ => apply account_findFirst_owned in H
        end. eauto.
      - apply HO. congruence. }
    apply Haccount; [reflexivity|]. intros Hchecked.
    wp_step.
    assert (Hcat : forall Q' : Outcome unit -> Store -> Prop,
               Q' (Ok tt) st -> (forall e, Q' (Throw e) st) ->
               wp match UpdateTransactionData.categoryId d with
                  | Some c =>
                      if JS.truthyString c then
                        category <- prisma.category_findFirst c u ;;
                        match category with
                        | None => throw (AppError 404 "Category not found")
                        | Some _ => ret tt
                        end
                      else ret tt
                  | None => ret tt
                  end Q' st).
    { intros Q' HO HT. repeat wp_step; auto. }
    apply Hcat; [|reflexivity].
    wp_step. apply wp_transaction_update; try reflexivity.
    intros row Hrow' Href. rewrite Hrow in Hrow'. injection Hrow' as <-.
    set (new := prisma.applyUpdate d existing) in *.
    assert (Hnew_own : ownsItsAccount st new).
    { apply (applyUpdate_account_owned st u); assumption. }
    set (s1 := prisma.set_transactions (prisma.replaceRow i new (transactions st)) st).
    assert (Hcons1 : consistent s1).
    { split; [split|].
      - cbn. rewrite ids_replaceRow; [exact Hnd|].
        apply (head_filter_hasId _ _ _ Hrow).
      - exact Hempty.
      - cbn. apply Forall_replaceRow; assumption. }
    assert (Hrefl : balancesOnly u st s1) by (apply balancesOnly_refl; reflexivity).
    destruct Hnew_own as (accN & HaccN & HuN).
    destruct Hown_ex as (accE & HaccE & HuE).
    assert (HuN' : Account.userId accN = u) by (rewrite HuN; exact Huser).
    assert (HuE' : Account.userId accE = u) by congruence.
    wp_step.
    wp_step;
      [|repeat wp_step;
        split; [exact Hrefl|split; [exists existing; split; reflexivity|exact Hcons1]]].
    wp_step.
    apply (wp_updateAccountBalance_owned u _ accN); [exact HaccN|exact HuN'|].
    intros s2 Ht2 Hb2.
    assert (Hcons2 : consistent s2)
      by (eapply consistent_balancesOnly; [exact Hcons1|exact Ht2|exact Hb2]).
    wp_step.
    + destruct (balancesOnly_owner u s1 s2 _ accE Hb2 HaccE) as (accE2 & HaccE2 & HuE2).
      apply (wp_updateAccountBalance_owned u _ accE2);
        [exact HaccE2|congruence|].
      intros s3 Ht3 Hb3. repeat wp_step.
      split; [|split].
      * eapply balancesOnly_trans; [exact Hrefl|].
        eapply balancesOnly_trans; [exact Hb2|exact Hb3].
      * rewrite Ht3, Ht2. exists existing. split; reflexivity.
      * eapply consistent_balancesOnly; [exact Hcons2|exact Ht3|exact Hb3].
    + repeat wp_step. split; [|split].
      * eapply balancesOnly_trans; [exact Hrefl|exact Hb2].
      * rewrite Ht2. exists existing. split; reflexivity.
      * exact Hcons2.
  - (* delete *)
    unfold TransactionService.deleteTransaction.
    wp_step. wp_step. wp_step; [|wp_step; reflexivity].
    match goal with
    | H : head _ = Some ?t |- _ => rename t into existing; rename H into Hex
    end.
    pose proof (head_filter_unique _ _ _ _ Hnd Hex) as Hrow.
    destruct (head_filter_In _ _ _ Hex) as [Hin Hmatch].
    apply andb_true_iff in Hmatch as [_ Huser].
    apply bool_decide_eq_true_1 in Huser.
    assert (Hown_ex : ownsItsAccount st existing).
    { rewrite Forall_forall in Hown. apply Hown. apply list_elem_of_In. exact Hin. }
    destruct Hown_ex as (accE & HaccE & HuE).
    wp_step. apply wp_transaction_delete.
    { intros Hno. exfalso.
      assert (Hyes : existsb (prisma.hasId i) (transactions st) = true)
        by (apply existsb_hasId_head; eauto).
      congruence. }
    intros _.
    set (s1 := prisma.set_transactions
                 (List.filter (fun t => negb (prisma.hasId i t)) (transactions st)) st).
    assert (Hcons1 : consistent s1).
    { split; [split|].
      - cbn. apply NoDup_ids_filter. exact Hnd.
      - exact Hempty.
      - cbn. apply Forall_filter_keep. exact Hown. }
    apply (wp_updateAccountBalance_owned u _ accE); [exact HaccE|congruence|].
    intros s2 Ht2 Hb2. split; [|split].
    + eapply balancesOnly_trans; [|exact Hb2]. apply balancesOnly_refl; reflexivity.
    + rewrite Ht2. exists existing. split; reflexivity.
    + eapply consistent_balancesOnly; [exact Hcons1|exact Ht2|exact Hb2].
Qed.

Lemma runMutation_consistent_cases (m : Mutation) (st : Store) :
  consistent st ->
  (exists e, runMutation m st = (Throw e, st))
  \/ (exists st',
        runMutation m st = (Ok tt, st')
        /\ balancesOnly (userOf m) st st'
        /\ ledgerEffect m (transactions st) (transactions st')
        /\ consistent st').
Proof.
  intros Hcons. pose proof (runMutation_consistent_wp m st Hcons) as H.
  unfold wp in H. destruct (runMutation m st) as [[[]|e] st'] eqn:E; cbn in H.
  - right. exists st'. auto.
  - left. exists e. subst st'. reflexivity.
Qed.

(** ** Consistency, isolation and failure *)

Lemma consistentb_sound (st : Store) : consistentb st = true -> consistent st.
Proof.
  unfold consistentb. intros H.
  apply andb_true_iff in H as [H Hown]. apply andb_true_iff in H as [Hnd Hempty].
  apply bool_decide_eq_true_1 in Hnd. apply bool_decide_eq_true_1 in Hempty.
  split; [split; assumption|].
  apply Forall_forall. intros t Ht. apply list_elem_of_In in Ht.
  rewrite forallb_forall in Hown. specialize (Hown t Ht).
  unfold ownsItsAccountb in Hown. unfold ownsItsAccount.
  destruct (accounts st !! Transaction.accountId t) as [acc|]; [|discriminate].
  exists acc. split; [reflexivity|]. apply bool_decide_eq_true_1 in Hown. exact Hown.
Qed.

(** X1.  The three mutations keep the ledger consistent, whatever their
    outcome: transaction ids stay unique, and every transaction stays booked
    on an existing account of its own user.  [createTransaction] and
    [updateTransaction] verify the account they are given against the
    caller; an update that gives no account keeps the one the row had. *)
Theorem mutation_keeps_ledger_consistent (m : Mutation) (st : Store) :
  consistent st -> consistent (snd (runMutation m st)).
Proof.
  intros Hcons.
  destruct (runMutation_consistent_cases m st Hcons)
    as [(e & ->)|(st' & -> & _ & _ & Hcons')]; assumption.
Qed.

Lemma mutation_keeps_ledger_consistent_witness :
  consistent (snd (runMutation Sample.move Sample.ledger)).
Proof.
  apply (mutation_keeps_ledger_consistent Sample.move Sample.ledger).
  apply consistentb_sound. vm_compute. reflexivity.
Defined.

Lemma others_filter_app (u : string) (rows : list Transaction.t) (row : Transaction.t) :
  Transaction.userId row = u ->
  List.filter (fun t => negb (ofUser u t)) (rows ++ [row])%list
  = List.filter (fun t => negb (ofUser u t)) rows.
Proof.
  intros Hu. rewrite List.filter_app. cbn. unfold ofUser at 2.
  rewrite bool_decide_eq_true_2 by exact Hu. cbn. apply app_nil_r.
Qed.

Lemma others_filter_replaceRow (u i : string) (new : Transaction.t)
    (rows : list Transaction.t) :
  Transaction.userId new = u ->
  (forall r, In r rows -> Transaction.id r = i -> Transaction.userId r = u) ->
  List.filter (fun t => negb (ofUser u t)) (prisma.replaceRow i new rows)
  = List.filter (fun t => negb (ofUser u t)) rows.
Proof.
  intros Hnew. induction rows as [|r rows IH]; intros Hall; cbn; [reflexivity|].
  rewrite IH by (intros; apply Hall; [right|]; assumption).
  unfold prisma.hasId. case_bool_decide as Hid; [|reflexivity].
  unfold ofUser. rewrite (bool_decide_eq_true_2 _ Hnew).
  rewrite (bool_decide_eq_true_2 _ (Hall r (or_introl eq_refl) Hid)). reflexivity.
Qed.

Lemma others_filter_delete (u i : string) (rows : list Transaction.t) :
  (forall r, In r rows -> Transaction.id r = i -> Transaction.userId r = u) ->
  List.filter (fun t => negb (ofUser u t))
    (List.filter (fun t => negb (prisma.hasId i t)) rows)
  = List.filter (fun t => negb (ofUser u t)) rows.
Proof.
  induction rows as [|r rows IH]; intros Hall; cbn; [reflexivity|].
  specialize (IH (fun r' H => Hall r' (or_intror H))).
  unfold prisma.hasId at 1. case_bool_decide as Hid; cbn.
  - rewrite IH. unfold ofUser at 2.
    rewrite (bool_decide_eq_true_2 _ (Hall r (or_introl eq_refl) Hid)). reflexivity.
  - rewrite IH. reflexivity.
Qed.

(** With unique ids, the rows that have the id of a row of [u] are that
    row. *)
Lemma rows_with_id_of_user (u i : string) (rows : list Transaction.t)
    (row : Transaction.t) :
  NoDup (Transaction.id <$> rows) ->
  head (List.filter (fun t => prisma.hasId i t && ofUser u t) rows) = Some row ->
  forall r, In r rows -> Transaction.id r = i -> r = row /\ Transaction.userId r = u.
Proof.
  intros Hnd Hhead r Hr Hid.
  destruct (head_filter_In _ _ _ Hhead) as [Hin Hmatch].
  apply andb_true_iff in Hmatch as [Hi Hu].
  apply bool_decide_eq_true_1 in Hi. apply bool_decide_eq_true_1 in Hu.
  assert (r = row) by (apply (same_id_same_row rows); congruence).
  subst r. auto.
Qed.

(** X2.  A mutation touches nothing that belongs to another user: on a
    consistent store, and whatever the outcome, the rows of the other users
    are the same rows in the same order, their accounts (balances included)
    are the same, no account appears or disappears for them, and categories
    and budgets are as they were. *)
Theorem mutation_leaves_other_users_alone (m : Mutation) (st : Store) :
  consistent st ->
  rowsOfOthers (userOf m) (snd (runMutation m st)) = rowsOfOthers (userOf m) st
  /\ (forall a acc,
        Account.userId acc <> userOf m ->
        accounts (snd (runMutation m st)) !! a = Some acc
        <-> accounts st !! a = Some acc)
  /\ categories (snd (runMutation m st)) = categories st
  /\ budgets (snd (runMutation m st)) = budgets st.
Proof.
  intros Hcons.
  destruct (runMutation_consistent_cases m st Hcons)
    as [(e & ->)|(st' & -> & (Hc & Hb & Hacc) & Heffect & _)]; cbn [snd].
  { repeat split; auto. }
  destruct Hcons as [[Hnd _] _].
  split; [|split; [|split; assumption]].
  - unfold rowsOfOthers.
    destruct m as [u i d | u i d | u i]; cbn [userOf ledgerEffect] in *.
    + destruct Heffect as (row & -> & _ & Hu & _). apply others_filter_app. exact Hu.
    + destruct Heffect as (row & Hhead & ->).
      apply others_filter_replaceRow.
      * cbn. destruct (head_filter_In _ _ _ Hhead) as [_ Hmatch].
        apply andb_true_iff in Hmatch as [_ Hu].
        apply bool_decide_eq_true_1 in Hu. exact Hu.
      * intros r Hr Hid. apply (rows_with_id_of_user u i _ row Hnd Hhead r Hr Hid).
    + destruct Heffect as (row & Hhead & ->).
      apply others_filter_delete.
      intros r Hr Hid. apply (rows_with_id_of_user u i _ row Hnd Hhead r Hr Hid).
  - intros a acc Hother.
    destruct (Hacc a) as [->|(acc0 & b & E0 & Hu0 & ->)]; [tauto|].
    rewrite E0. split; intros [= <-]; exfalso; apply Hother; [|exact Hu0].
    cbn. exact Hu0.
Qed.

Lemma mutation_leaves_other_users_alone_witness :
  rowsOfOthers "u1" (snd (runMutation Sample.move Sample.ledger))
  = rowsOfOthers "u1" Sample.ledger
  /\ (forall a acc,
        Account.userId acc <> "u1" ->
        accounts (snd (runMutation Sample.move Sample.ledger)) !! a = Some acc
        <-> accounts Sample.ledger !! a = Some acc)
  /\ categories (snd (runMutation Sample.move Sample.ledger))
     = categories Sample.ledger
  /\ budgets (snd (runMutation Sample.move Sample.ledger)) = budgets Sample.ledger.
Proof.
  apply (mutation_leaves_other_users_alone Sample.move Sample.ledger).
  apply consistentb_sound. vm_compute. reflexivity.
Defined.

(** X3.  On a consistent store a mutation that fails has written nothing:
    the store it leaves is the store it found.  The services open no
    database transaction; what makes a failure clean is that every check
    precedes the first write and that, on a consistent store, the
    recalculations after the write cannot fail. *)
Theorem failed_mutation_writes_nothing
    (m : Mutation) (st : Store) (e : Error) (st' : Store) :
  consistent st ->
  runMutation m st = (Throw e, st') ->
  st' = st.
Proof.
  intros Hcons E.
  destruct (runMutation_consistent_cases m st Hcons)
    as [(e' & E')|(st'' & E' & _)]; congruence.
Qed.

Lemma failed_mutation_writes_nothing_witness :
  runMutation (Delete "u1" "t6") Sample.ledger
  = (Throw transactionNotFound, Sample.ledger)
  /\ snd (runMutation (Delete "u1" "t6") Sample.ledger) = Sample.ledger.
Proof.
  assert (E : runMutation (Delete "u1" "t6") Sample.ledger
              = (Throw transactionNotFound, Sample.ledger))
    by (vm_compute; reflexivity).
  split; [exact E|].
  rewrite E at 1. cbn [snd].
  apply (failed_mutation_writes_nothing (Delete "u1" "t6") Sample.ledger
           transactionNotFound Sample.ledger).
  - apply consistentb_sound. vm_compute. reflexivity.
  - exact E.
Defined.

(** Why X3 asks for a consistent store: when the account of a transaction is
    missing, [deleteTransaction] deletes the row, fails in the recalculation
    and leaves the row deleted. *)
Example delete_with_missing_account_is_partial :
  fst (TransactionService.deleteTransaction "u2" "t7" danglingLedger)
  = Throw (PrismaError "P2025")
  /\ length (transactions danglingLedger) = 7%nat
  /\ length (transactions
               (snd (TransactionService.deleteTransaction "u2" "t7" danglingLedger)))
     = 6%nat.
Proof. repeat split; vm_compute; reflexivity. Qed.

(** ** Transactions by id *)

Lemma findFirst_run (P : Transaction.t -> bool) (st : Store) :
  prisma.transaction_findFirst P st = (Ok (head (List.filter P (transactions st))), st).
Proof. reflexivity. Qed.

Lemma getTransaction_run (u i : string) (st : Store) :
  TransactionService.getTransaction u i st
  = match head (List.filter (fun t => prisma.hasId i t && ofUser u t)
                  (transactions st)) with
    | Some t => (Ok t, st)
    | None => (Throw transactionNotFound, st)
    end.
Proof.
  unfold TransactionService.getTransaction, bind. rewrite findFirst_run.
  destruct (head _); reflexivity.
Qed.

(** X4.  A transaction that is not the caller's does not exist for the
    caller: when no row with the id belongs to the caller (the id is
    unknown, or it is the id of a transaction of another user),
    [getTransaction], [updateTransaction] and [deleteTransaction] all fail
    with 404 'Transaction not found', and the store is as it was. *)
Theorem foreign_transaction_is_not_found
    (u i : string) (data : UpdateTransactionData.t) (st : Store) :
  (forall t, In t (transactions st) ->
             Transaction.id t = i -> Transaction.userId t <> u) ->
  TransactionService.getTransaction u i st = (Throw transactionNotFound, st)
  /\ TransactionService.updateTransaction u i data st = (Throw transactionNotFound, st)
  /\ TransactionService.deleteTransaction u i st = (Throw transactionNotFound, st).
Proof.
  intros Hforeign.
  assert (Hnone : head (List.filter (fun t => prisma.hasId i t && ofUser u t)
                          (transactions st)) = None).
  { apply head_filter_None. intros t Ht.
    apply andb_false_iff.
    destruct (decide (Transaction.id t = i)) as [Hid|Hid].
    - right. apply bool_decide_eq_false_2. apply Hforeign; assumption.
    - left. apply bool_decide_eq_false_2. exact Hid. }
  split; [|split].
  - rewrite getTransaction_run, Hnone. reflexivity.
  - unfold TransactionService.updateTransaction, bind.
    rewrite findFirst_run, Hnone. reflexivity.
  - unfold TransactionService.deleteTransaction, bind.
    rewrite findFirst_run, Hnone. reflexivity.
Qed.

Lemma foreign_transaction_is_not_found_witness :
  TransactionService.getTransaction "u1" "t6" Sample.ledger
  = (Throw transactionNotFound, Sample.ledger)
  /\ TransactionService.updateTransaction "u1" "t6" (Sample.withDescription "mine")
       Sample.ledger
     = (Throw transactionNotFound, Sample.ledger)
  /\ TransactionService.deleteTransaction "u1" "t6" Sample.ledger
     = (Throw transactionNotFound, Sample.ledger).
Proof.
  apply (foreign_transaction_is_not_found "u1" "t6"
           (Sample.withDescription "mine") Sample.ledger).
  intros t Hin Hid. cbn in Hin.
  repeat destruct Hin as [<-|Hin]; try discriminate; try contradiction.
Defined.

(** ** Reading back what was written *)

Lemma filter_filter_implied {A} (P Q : A -> bool) (l : list A) :
  (forall x, P x = true -> Q x = true) ->
  List.filter P (List.filter Q l) = List.filter P l.
Proof.
  intros H. induction l as [|x l IH]; cbn; [reflexivity|].
  destruct (Q x) eqn:HQ; cbn; rewrite IH; [reflexivity|].
  destruct (P x) eqn:HP; [|reflexivity].
  rewrite (H x HP) in HQ. discriminate.
Qed.


Lemma filter_none {A} (P : A -> bool) (l : list A) :
  (forall x, In x l -> P x = false) -> List.filter P l = [].
Proof.
  induction l as [|x l IH]; cbn; [reflexivity|]. intros H.
  rewrite (H x (or_introl eq_refl)). apply IH. auto.
Qed.

Lemma existsb_hasId_false (i : string) (rows : list Transaction.t) :
  existsb (prisma.hasId i) rows = false ->
  forall t, In t rows -> prisma.hasId i t = false.
Proof.
  intros H t Ht. destruct (prisma.hasId i t) eqn:E; [|reflexivity].
  assert (existsb (prisma.hasId i) rows = true)
    by (apply existsb_exists; eauto).
  congruence.
Qed.

Lemma createTransaction_row userId newId data st tx st' :
  TransactionService.createTransaction userId newId data st = (Ok tx, st') ->
  tx = createdRow userId newId data
  /\ existsb (prisma.hasId newId) (transactions st) = false
  /\ transactions st' = (transactions st ++ [tx])%list.
Proof.
  intros E.
  refine (wp_run _ (fun r s => forall t, r = Ok t -> _) st _ _ _ E tx eq_refl).
  clear E tx st'.
  unfold TransactionService.createTransaction.
  repeat run_step; outcome_cases.
  all: cbn in *; repeat split; try assumption.
  all: unfold createdRow;
    repeat match goal with
           | H : CreateTransactionData.categoryId _ = _ |- _ => rewrite H
           end; reflexivity.
Qed.

(** X5.  A created transaction can be read back at once: after a successful
    [createTransaction], [getTransaction] with the new id returns, to the
    caller, the row that was created, which is the creation data with the
    caller as user and the status POSTED; to any other user the id answers
    404. *)
Theorem created_transaction_can_be_read
    (u i : string) (data : CreateTransactionData.t)
    (st : Store) (tx : Transaction.t) (st' : Store) :
  TransactionService.createTransaction u i data st = (Ok tx, st') ->
  tx = createdRow u i data
  /\ TransactionService.getTransaction u i st' = (Ok tx, st')
  /\ (forall u', u' <> u ->
        TransactionService.getTransaction u' i st'
        = (Throw transactionNotFound, st')).
Proof.
  intros E. apply createTransaction_row in E as (Htx & Hfresh & Hrows).
  split; [exact Htx|].
  assert (Hold : forall P : Transaction.t -> bool,
             List.filter (fun t => prisma.hasId i t && P t) (transactions st) = []).
  { intros P. apply filter_none. intros t Ht.
    rewrite (existsb_hasId_false i _ Hfresh t Ht). reflexivity. }
  assert (Hid : prisma.hasId i tx = true)
    by (subst tx; apply bool_decide_eq_true_2; reflexivity).
  split.
  - rewrite getTransaction_run, Hrows, List.filter_app, Hold. cbn.
    rewrite Hid. unfold ofUser. subst tx. cbn.
    rewrite bool_decide_eq_true_2 by reflexivity. reflexivity.
  - intros u' Hu'.
    rewrite getTransaction_run, Hrows, List.filter_app, Hold. cbn.
    rewrite Hid. unfold ofUser. subst tx. cbn.
    rewrite bool_decide_eq_false_2 by congruence. reflexivity.
Qed.

Lemma created_transaction_can_be_read_witness :
  exists tx st',
    TransactionService.createTransaction "u1" "t8"
      (Sample.create "acc2" INCOME 12 None Sample.march15) Sample.ledger
    = (Ok tx, st')
    /\ tx = createdRow "u1" "t8" (Sample.create "acc2" INCOME 12 None Sample.march15)
    /\ TransactionService.getTransaction "u1" "t8" st' = (Ok tx, st')
    /\ (forall u', u' <> "u1" ->
          TransactionService.getTransaction u' "t8" st'
          = (Throw transactionNotFound, st')).
Proof.
  assert (E : exists tx st',
             TransactionService.createTransaction "u1" "t8"
               (Sample.create "acc2" INCOME 12 None Sample.march15) Sample.ledger
             = (Ok tx, st'))
    by (eexists _, _; vm_compute; reflexivity).
  destruct E as (tx & st' & E). exists tx, st'. split; [exact E|].
  apply (created_transaction_can_be_read "u1" "t8" _ Sample.ledger tx st' E).
Defined.

(** X6.  A deleted transaction is gone, and only it: after a successful
    [deleteTransaction], its id answers 404 to every user, and every other
    id answers to every user what it answered before. *)
Theorem deleted_transaction_is_gone (u i : string) (st st' : Store) :
  TransactionService.deleteTransaction u i st = (Ok tt, st') ->
  (forall u', TransactionService.getTransaction u' i st'
              = (Throw transactionNotFound, st'))
  /\ (forall u' j, j <> i ->
        fst (TransactionService.getTransaction u' j st')
        = fst (TransactionService.getTransaction u' j st)).
Proof.
  intros E. apply deleteTransaction_ok in E as (t & _ & Hrows & _).
  split.
  - intros u'. rewrite getTransaction_run, Hrows.
    rewrite filter_none; [reflexivity|].
    intros x Hx. apply filter_In in Hx as [_ Hx].
    destruct (prisma.hasId i x); [discriminate|reflexivity].
  - intros u' j Hne. rewrite !getTransaction_run, Hrows.
    rewrite filter_filter_implied.
    + match goal with |- context [head ?l] => destruct (head l) end; reflexivity.
    + intros x Hx. apply andb_true_iff in Hx as [Hx _].
      apply bool_decide_eq_true_1 in Hx. apply negb_true_iff.
      apply bool_decide_eq_false_2. congruence.
Qed.

Lemma deleted_transaction_is_gone_witness :
  exists st',
    TransactionService.deleteTransaction "u1" "t2" Sample.ledger = (Ok tt, st')
    /\ (forall u', TransactionService.getTransaction u' "t2" st'
                   = (Throw transactionNotFound, st'))
    /\ (forall u' j, j <> "t2" ->
          fst (TransactionService.getTransaction u' j st')
          = fst (TransactionService.getTransaction u' j Sample.ledger)).
Proof.
  assert (E : exists st',
             TransactionService.deleteTransaction "u1" "t2" Sample.ledger
             = (Ok tt, st'))
    by (eexists; vm_compute; reflexivity).
  destruct E as (st' & E). exists st'. split; [exact E|].
  apply (deleted_transaction_is_gone "u1" "t2" Sample.ledger st' E).
Defined.





(** ** What a mutation does to the balance *)

Lemma ledgerBalance_app (a : string) (rows1 rows2 : list Transaction.t) :
  (ledgerBalance a (rows1 ++ rows2)
   == ledgerBalance a rows1 + ledgerBalance a rows2)%Q.
Proof.
  unfold ledgerBalance. rewrite List.filter_app, fmap_app. apply sumQ_app.
Qed.


Lemma contribution_createdRow (u i : string) (data : CreateTransactionData.t) :
  contribution (createdRow u i data)
  = signedAmount (CreateTransactionData.type data) (CreateTransactionData.amount data).
Proof. unfold contribution. cbn. destruct (CreateTransactionData.type data); reflexivity. Qed.

(** X8.  Posting a transaction moves the balance of its account by its signed
    amount: when the stored balance of the account agreed with the ledger
    before a successful [createTransaction], the balance afterwards is the
    balance before plus the amount for an INCOME, minus the amount for an
    EXPENSE, and the same for a TRANSFER. *)
Theorem create_moves_balance_by_signed_amount
    (u i : string) (data : CreateTransactionData.t)
    (st : Store) (tx : Transaction.t) (st' : Store) :
  balanceMatchesLedger st (CreateTransactionData.accountId data) ->
  TransactionService.createTransaction u i data st = (Ok tx, st') ->
  exists acc acc',
    accounts st !! CreateTransactionData.accountId data = Some acc
    /\ accounts st' !! CreateTransactionData.accountId data = Some acc'
    /\ (Account.balance acc'
        == Account.balance acc
           + signedAmount (CreateTransactionData.type data)
                          (CreateTransactionData.amount data))%Q.
Proof.
  intros Hbefore E.
  pose proof (wp_run _ _ _ _ _ (createTransaction_trace u i data st) E)
    as (new & Hnew & Hall).
  pose proof (createTransaction_ok _ _ _ _ _ _ E)
    as (_ & _ & _ & _ & _ & _ & _ & _ & Hlog).
  apply createTransaction_row in E as (Htx & _ & Hrows).
  unfold recalculatedBetween in Hnew. rewrite Hlog in Hnew.
  apply app_inv_head in Hnew. subst new. apply Forall_inv in Hall.
  destruct Hbefore as (acc & Hacc & _ & Hb).
  destruct Hall as (acc' & Hacc' & _ & Hb').
  exists acc, acc'. split; [exact Hacc|]. split; [exact Hacc'|].
  rewrite Hb', Hb, Hrows, ledgerBalance_app.
  rewrite ledgerBalance_cons. unfold ofAccount. subst tx.
  rewrite bool_decide_eq_true_2 by reflexivity.
  rewrite contribution_createdRow.
  change (ledgerBalance (CreateTransactionData.accountId data) []) with 0%Q. ring.
Qed.

Lemma create_moves_balance_by_signed_amount_witness :
  exists tx st' acc',
    TransactionService.createTransaction "u1" "t8"
      (Sample.create "acc2" EXPENSE 40 None Sample.march15) Sample.ledger
    = (Ok tx, st')
    /\ accounts st' !! "acc2" = Some acc'
    /\ (Account.balance acc' == -260 + - 40)%Q.
Proof.
  assert (E : exists tx st',
             TransactionService.createTransaction "u1" "t8"
               (Sample.create "acc2" EXPENSE 40 None Sample.march15) Sample.ledger
             = (Ok tx, st'))
    by (eexists _, _; vm_compute; reflexivity).
  destruct E as (tx & st' & E).
  destruct (create_moves_balance_by_signed_amount "u1" "t8"
              (Sample.create "acc2" EXPENSE 40 None Sample.march15)
              Sample.ledger tx st')
    as (acc & acc' & Hacc & Hacc' & Hbal).
  - eexists. split; [vm_compute; reflexivity|]. split; vm_compute; reflexivity.
  - exact E.
  - exists tx, st', acc'. split; [exact E|]. split; [exact Hacc'|].
    rewrite Hbal. vm_compute in Hacc. injection Hacc as <-. reflexivity.
Defined.







(* ===================================================================== *)
(** * Listings and statistics *)
(* ===================================================================== *)

(** ** [getTransactions] *)

Lemma In_skipn {A} (n : nat) (l : list A) (x : A) : In x (skipn n l) -> In x l.
Proof.
  revert l. induction n as [|n IH]; intros [|y l]; cbn; try tauto.
  intros H. right. apply IH. exact H.
Qed.


Lemma transactionsWhere_ofUser (db : Engine) (u : string)
    (query : GetTransactionsQuery.t) (t : Transaction.t) :
  TransactionService.transactionsWhere db u query t = true ->
  Transaction.userId t = u.
Proof.
  unfold TransactionService.transactionsWhere. intros H.
  repeat (apply andb_true_iff in H as [H _]).
  apply bool_decide_eq_true_1 in H. exact H.
Qed.

Lemma getTransactions_run (db : Engine) (u : string)
    (query : GetTransactionsQuery.t) (st : Store) (sorted : list Transaction.t) :
  (1 <= default 1%nat (GetTransactionsQuery.page query))%nat ->
  orderRows db (default "date" (GetTransactionsQuery.sortBy query))
    (default desc (GetTransactionsQuery.sortOrder query))
    (List.filter (TransactionService.transactionsWhere db u query) (transactions st))
  = Some sorted ->
  TransactionService.getTransactions db u query st
  = (Ok {| TransactionPage.transactions :=
             firstn (default 20%nat (GetTransactionsQuery.limit query))
               (skipn ((default 1%nat (GetTransactionsQuery.page query) - 1)
                       * default 20%nat (GetTransactionsQuery.limit query))
                  sorted);
           TransactionPage.total :=
             length (List.filter (TransactionService.transactionsWhere db u query)
                       (transactions st));
           TransactionPage.page := default 1%nat (GetTransactionsQuery.page query);
           TransactionPage.limit := default 20%nat (GetTransactionsQuery.limit query) |},
     st).
Proof.
  intros Hpage Hsorted.
  unfold TransactionService.getTransactions, bind, prisma.transaction_findMany_page.
  set (page := default 1%nat (GetTransactionsQuery.page query)) in *.
  set (limit := default 20%nat (GetTransactionsQuery.limit query)) in *.
  destruct ((Z.of_nat page - 1) * Z.of_nat limit <? 0) eqn:Hskip.
  { apply Z.ltb_lt in Hskip. nia. }
  rewrite Hsorted. unfold prisma.transaction_count, ret. cbn [fst snd].
  replace (Z.to_nat ((Z.of_nat page - 1) * Z.of_nat limit))
    with ((page - 1) * limit)%nat by nia.
  reflexivity.
Qed.

(** X11.  A page of [getTransactions] holds what the query asks for: when
    the page number is at least 1 and the engine can sort by the column, the
    call returns, leaves the store as it was, and echoes the page and the
    limit (1 and 20 when they are not given); the total is the number of
    rows that match the filter; the page holds [limit] rows, or what is left
    after the pages before it; and every row on it is a row of the table
    that belongs to the caller and matches the filter. *)
Theorem transactions_page_within_limit
    (db : Engine) (u : string) (query : GetTransactionsQuery.t) (st : Store)
    (sorted : list Transaction.t) :
  engineSorts db ->
  (1 <= default 1%nat (GetTransactionsQuery.page query))%nat ->
  orderRows db (default "date" (GetTransactionsQuery.sortBy query))
    (default desc (GetTransactionsQuery.sortOrder query))
    (List.filter (TransactionService.transactionsWhere db u query) (transactions st))
  = Some sorted ->
  exists pg,
    TransactionService.getTransactions db u query st = (Ok pg, st)
    /\ TransactionPage.page pg = default 1%nat (GetTransactionsQuery.page query)
    /\ TransactionPage.limit pg = default 20%nat (GetTransactionsQuery.limit query)
    /\ TransactionPage.total pg
       = length (List.filter (TransactionService.transactionsWhere db u query)
                   (transactions st))
    /\ length (TransactionPage.transactions pg)
       = Nat.min (TransactionPage.limit pg)
           (TransactionPage.total pg
            - (TransactionPage.page pg - 1) * TransactionPage.limit pg)
    /\ Forall (fun t =>
                 In t (transactions st)
                 /\ Transaction.userId t = u
                 /\ TransactionService.transactionsWhere db u query t = true)
              (TransactionPage.transactions pg).
Proof.
  intros Hengine Hpage Hsorted.
  pose proof (Hengine _ _ _ _ Hsorted) as Hperm.
  eexists. split; [apply (getTransactions_run db u query st sorted Hpage Hsorted)|].
  cbn [TransactionPage.page TransactionPage.limit TransactionPage.total
       TransactionPage.transactions].
  split; [reflexivity|]. split; [reflexivity|]. split; [reflexivity|]. split.
  - rewrite length_firstn, length_skipn, (Permutation_length Hperm). reflexivity.
  - apply Forall_forall. intros t Ht. apply list_elem_of_In in Ht.
    apply In_firstn in Ht. apply In_skipn in Ht.
    apply (Permutation_in _ Hperm) in Ht.
    apply filter_In in Ht as [Hin Hmatch].
    split; [exact Hin|]. split; [|exact Hmatch].
    apply (transactionsWhere_ofUser db u query t Hmatch).
Qed.

Lemma sampleEngine_sorts : engineSorts sampleEngine.
Proof.
  intros column order rows sorted. cbn.
  repeat case_decide; intros [= <-]; apply stableSort_Permutation.
Qed.

Lemma transactions_page_within_limit_witness :
  exists pg,
    TransactionService.getTransactions sampleEngine "u1"
      (withPage 2 (queryWithLimit 2)) Sample.ledger = (Ok pg, Sample.ledger)
    /\ TransactionPage.total pg = 5%nat
    /\ Transaction.id <$> TransactionPage.transactions pg = ["t4"; "t5"].
Proof.
  destruct (transactions_page_within_limit sampleEngine "u1"
              (withPage 2 (queryWithLimit 2)) Sample.ledger
              (stableSort (fun t x => Transaction.date t <? Transaction.date x)
                 (List.filter
                    (TransactionService.transactionsWhere sampleEngine "u1"
                       (withPage 2 (queryWithLimit 2)))
                    (transactions Sample.ledger))))
    as (pg & E & _ & _ & Htotal & _).
  - exact sampleEngine_sorts.
  - vm_compute. lia.
  - reflexivity.
  - exists pg. split; [exact E|]. split; [rewrite Htotal; vm_compute; reflexivity|].
    assert (E' : fst (TransactionService.getTransactions sampleEngine "u1"
                        (withPage 2 (queryWithLimit 2)) Sample.ledger) = Ok pg)
      by (rewrite E; reflexivity).
    vm_compute in E'. injection E' as <-. reflexivity.
Defined.

(** X12.  The pages of a query cover its matches, each once: with the same
    query and store, the rows of the pages 1 to [k], one after the other,
    are the first [k * limit] rows of the sorted listing; when [k * limit]
    reaches the total they are the whole listing, which is a rearrangement
    of the rows of the table that match the filter. *)
Theorem transaction_pages_cover_the_matches
    (db : Engine) (u : string) (query : GetTransactionsQuery.t) (st : Store)
    (sorted : list Transaction.t) (k : nat) :
  engineSorts db ->
  orderRows db (default "date" (GetTransactionsQuery.sortBy query))
    (default desc (GetTransactionsQuery.sortOrder query))
    (List.filter (TransactionService.transactionsWhere db u query) (transactions st))
  = Some sorted ->
  concat (pageRows db u query st <$> seq 1 k)
  = firstn (k * default 20%nat (GetTransactionsQuery.limit query)) sorted
  /\ ((length (List.filter (TransactionService.transactionsWhere db u query)
                 (transactions st))
       <= k * default 20%nat (GetTransactionsQuery.limit query))%nat ->
      concat (pageRows db u query st <$> seq 1 k) = sorted
      /\ Permutation (concat (pageRows db u query st <$> seq 1 k))
           (List.filter (TransactionService.transactionsWhere db u query)
              (transactions st))).
Proof.
  intros Hengine Hsorted.
  pose proof (Hengine _ _ _ _ Hsorted) as Hperm.
  assert (Hpages : concat (pageRows db u query st <$> seq 1 k)
                   = firstn (k * default 20%nat (GetTransactionsQuery.limit query)) sorted).
  { rewrite <- pages_concat. f_equal.
    apply list_fmap_ext. intros idx p Hp.
    apply lookup_seq in Hp as [-> _].
    unfold pageRows.
    rewrite (getTransactions_run db u (withPage (1 + idx) query) st sorted);
      [reflexivity|cbn; lia|exact Hsorted]. }
  split; [exact Hpages|]. intros Hk.
  assert (Hall : concat (pageRows db u query st <$> seq 1 k) = sorted).
  { rewrite Hpages. apply firstn_all2. rewrite (Permutation_length Hperm). exact Hk. }
  split; [exact Hall|]. rewrite Hall. exact Hperm.
Qed.

Lemma transaction_pages_cover_the_matches_witness :
  Transaction.id
    <$> concat (pageRows sampleEngine "u1" (queryWithLimit 2) Sample.ledger
                  <$> seq 1 3)
  = ["t3"; "t2"; "t4"; "t5"; "t1"]
  /\ Permutation
       (concat (pageRows sampleEngine "u1" (queryWithLimit 2) Sample.ledger
                  <$> seq 1 3))
       (List.filter
          (TransactionService.transactionsWhere sampleEngine "u1" (queryWithLimit 2))
          (transactions Sample.ledger)).
Proof.
  split; [vm_compute; reflexivity|].
  apply (transaction_pages_cover_the_matches sampleEngine "u1" (queryWithLimit 2)
           Sample.ledger
           (stableSort (fun t x => Transaction.date t <? Transaction.date x)
              (List.filter
                 (TransactionService.transactionsWhere sampleEngine "u1"
                    (queryWithLimit 2))
                 (transactions Sample.ledger))) 3).
  - exact sampleEngine_sorts.
  - reflexivity.
  - vm_compute. lia.
Defined.

(** ** [getStatistics] *)






(** ** [getRecentTransactions] *)

(** X14.  [getRecentTransactions] returns the latest POSTED transactions of
    the caller: it always returns and leaves the store as it was; it gives
    [limit] rows (10 when no limit is given), or all of them when there are
    fewer; every row is a POSTED row of the caller; the rows come latest
    first; and no POSTED row of the caller that was left out is later than
    a row that was returned. *)
Theorem recent_transactions_are_the_latest
    (u : string) (limit : option nat) (st : Store) :
  exists recent,
    AnalyticsService.getRecentTransactions u limit st = (Ok recent, st)
    /\ length recent
       = Nat.min (default 10%nat limit)
           (length (List.filter (fun t => ofUser u t && isPosted t) (transactions st)))
    /\ Forall (fun t =>
                 In t (transactions st)
                 /\ Transaction.userId t = u
                 /\ Transaction.status t = POSTED) recent
    /\ StronglySorted notEarlier recent
    /\ (forall t x,
          In t (transactions st) -> Transaction.userId t = u ->
          Transaction.status t = POSTED ->
          ~ In t recent -> In x recent ->
          Transaction.date t <= Transaction.date x).
Proof.
  set (rows := List.filter (fun t => ofUser u t && isPosted t) (transactions st)).
  set (sorted := stableSort (fun t x => Transaction.date t <? Transaction.date x) rows).
  assert (Hperm : Permutation sorted rows) by apply stableSort_Permutation.
  assert (Hsorted : StronglySorted notEarlier sorted).
  { apply stableSort_sorted; unfold notEarlier.
    - intros x y H. apply Z.ltb_lt in H. lia.
    - intros x y H. apply Z.ltb_ge in H. lia.
    - intros x y z. lia. }
  exists (firstn (default 10%nat limit) sorted).
  split; [reflexivity|]. split; [|split; [|split]].
  - rewrite length_firstn, (Permutation_length Hperm). reflexivity.
  - apply Forall_forall. intros t Ht. apply list_elem_of_In in Ht.
    apply In_firstn in Ht. apply (Permutation_in _ Hperm) in Ht.
    apply filter_In in Ht as [Hin Hmatch].
    apply andb_true_iff in Hmatch as [Hu Hp].
    apply bool_decide_eq_true_1 in Hu. apply bool_decide_eq_true_1 in Hp. auto.
  - apply StronglySorted_firstn. exact Hsorted.
  - intros t x Hin Hu Hp Hout Hx.
    assert (Ht : In t sorted).
    { apply (Permutation_in _ (Permutation_sym Hperm)).
      apply filter_In. split; [exact Hin|].
      apply andb_true_iff. split; apply bool_decide_eq_true_2; assumption. }
    rewrite <- (firstn_skipn (default 10%nat limit) sorted) in Ht, Hsorted.
    apply in_app_or in Ht as [Ht|Ht]; [contradiction|].
    apply (StronglySorted_app_inv _ _ _ Hsorted x t Hx Ht).
Qed.

(* ===================================================================== *)
(** * Budgets: create, read, update, delete *)
(* ===================================================================== *)

Lemma calculateSpending_run (u : string) (b : Budget.t) (st : Store) :
  exists s, BudgetService.calculateSpending u b st = (Ok (JS.Fin s), st).
Proof.
  unfold BudgetService.calculateSpending, bind.
  match goal with
  | |- context [prisma.transaction_aggregate_sum ?P st] =>
      destruct (aggregate_sum_run P st) as (d & -> & q & Hd & _)
  end.
  cbn. rewrite Hd. eexists. reflexivity.
Qed.

(** What [calculateSpending] returns depends on the transactions only. *)
Lemma calculateSpending_transactions (u : string) (b : Budget.t) (st st' : Store) :
  transactions st' = transactions st ->
  fst (BudgetService.calculateSpending u b st')
  = fst (BudgetService.calculateSpending u b st).
Proof.
  intros H. unfold BudgetService.calculateSpending, bind,
    prisma.transaction_aggregate_sum.
  rewrite H. destruct (List.filter _ (transactions st)); reflexivity.
Qed.

Lemma getBudget_none (u i : string) (st : Store) :
  head (List.filter (ownBudget i u) (budgets st)) = None ->
  BudgetService.getBudget u i st = (Throw budgetNotFound, st).
Proof.
  intros H. unfold BudgetService.getBudget, bind, prisma.budget_findFirst.
  unfold ownBudget in H. rewrite H. reflexivity.
Qed.

Lemma getBudget_some (u i : string) (st : Store) (b : Budget.t) :
  head (List.filter (ownBudget i u) (budgets st)) = Some b ->
  exists bp,
    BudgetService.getBudget u i st = (Ok bp, st)
    /\ BudgetWithProgress.budget bp = b.
Proof.
  intros H. unfold BudgetService.getBudget, bind, prisma.budget_findFirst.
  unfold ownBudget in H. rewrite H.
  destruct (calculateSpending_run u b st) as (s & ->).
  eexists. split; reflexivity.
Qed.

Lemma getBudget_fst (u i : string) (st st' : Store) :
  transactions st' = transactions st ->
  head (List.filter (ownBudget i u) (budgets st'))
  = head (List.filter (ownBudget i u) (budgets st)) ->
  fst (BudgetService.getBudget u i st') = fst (BudgetService.getBudget u i st).
Proof.
  intros Ht Hb. unfold BudgetService.getBudget, bind, prisma.budget_findFirst.
  unfold ownBudget in Hb. rewrite Hb. clear Hb.
  match goal with
  | |- context [head ?l] => destruct (head l) as [b|]; [|reflexivity]
  end.
  pose proof (calculateSpending_transactions u b st st' Ht) as Hs.
  destruct (BudgetService.calculateSpending u b st') as [[s'|e'] s1'],
           (BudgetService.calculateSpending u b st) as [[s|e] s1];
    cbn in Hs; try discriminate; injection Hs as ->; reflexivity.
Qed.

(** The primitive writes of the budget table. *)
Lemma wp_budget_create (row : Budget.t) Q st :
  (forall e, Q (Throw e) st) ->
  (existsb (prisma.budget_hasId (Budget.id row)) (budgets st) = false ->
   Q (Ok row) (prisma.set_budgets (budgets st ++ [row])%list st)) ->
  wp (prisma.budget_create row) Q st.
Proof.
  intros H1 H2. unfold wp, prisma.budget_create.
  destruct (existsb _ _) eqn:E1; cbn; [auto|].
  destruct (prisma.budget_reference_ok st row) eqn:E2; cbn; auto.
Qed.

Lemma wp_budget_update (id : string) (data : UpdateBudgetData.t) Q st :
  (forall e, Q (Throw e) st) ->
  (forall row,
     head (List.filter (prisma.budget_hasId id) (budgets st)) = Some row ->
     Q (Ok (prisma.applyBudgetUpdate data row))
       (prisma.set_budgets
          (prisma.replaceBudget id (prisma.applyBudgetUpdate data row) (budgets st))
          st)) ->
  wp (prisma.budget_update id data) Q st.
Proof.
  intros H1 H2. unfold wp, prisma.budget_update.
  destruct (head _) as [row|] eqn:E1; cbn; [|auto].
  destruct (prisma.budget_reference_ok st _) eqn:E2; cbn; eauto.
Qed.

Lemma wp_budget_delete (id : string) Q st :
  (forall e, Q (Throw e) st) ->
  Q (Ok tt)
    (prisma.set_budgets
       (List.filter (fun b => negb (prisma.budget_hasId id b)) (budgets st)) st) ->
  wp (prisma.budget_delete id) Q st.
Proof.
  intros H1 H2. unfold wp, prisma.budget_delete.
  destruct (existsb _ _) eqn:E1; cbn; auto.
Qed.

Ltac budget_step :=
  lazymatch goal with
  | |- wp (prisma.budget_create _) _ _ => apply wp_budget_create; intros
  | |- wp (prisma.budget_update _ _) _ _ => apply wp_budget_update; intros
  | |- wp (prisma.budget_delete _) _ _ => apply wp_budget_delete; intros
  | |- wp (prisma.budget_findFirst _) _ _ =>
      unfold wp at 1, prisma.budget_findFirst; cbn [fst snd]
  | |- _ => wp_step
  end.

Lemma createBudget_ok defaults u i createdAt data st b st' :
  BudgetService.createBudget defaults u i createdAt data st = (Ok b, st') ->
  b = createdBudget defaults u i createdAt data
  /\ existsb (prisma.budget_hasId i) (budgets st) = false
  /\ st' = prisma.set_budgets (budgets st ++ [b])%list st.
Proof.
  intros E.
  refine (wp_run _ (fun r s => forall t, r = Ok t -> _) st _ _ _ E b eq_refl).
  clear E b st'.
  unfold BudgetService.createBudget.
  repeat budget_step; outcome_cases.
  all: cbn in *; repeat split; try assumption.
  all: unfold createdBudget;
    repeat match goal with
           | H : CreateBudgetData.categoryId _ = _ |- _ => rewrite H
           end; reflexivity.
Qed.

Lemma updateBudget_ok u i data st b st' :
  BudgetService.updateBudget u i data st = (Ok b, st') ->
  exists existing row,
    head (List.filter (ownBudget i u) (budgets st)) = Some existing
    /\ head (List.filter (prisma.budget_hasId i) (budgets st)) = Some row
    /\ b = prisma.applyBudgetUpdate data row
    /\ st' = prisma.set_budgets (prisma.replaceBudget i b (budgets st)) st.
Proof.
  intros E.
  refine (wp_run _ (fun r s => forall t, r = Ok t -> _) st _ _ _ E b eq_refl).
  clear E b st'.
  unfold BudgetService.updateBudget, ownBudget.
  repeat budget_step; outcome_cases.
  all: eexists _, _; repeat split; eassumption.
Qed.

Lemma deleteBudget_ok u i st st' :
  BudgetService.deleteBudget u i st = (Ok tt, st') ->
  exists existing,
    head (List.filter (ownBudget i u) (budgets st)) = Some existing
    /\ st' = prisma.set_budgets
               (List.filter (fun b => negb (prisma.budget_hasId i b)) (budgets st)) st.
Proof.
  intros E.
  refine (wp_run _ (fun r s => forall t, r = Ok t -> _) st _ _ _ E tt eq_refl).
  clear E st'.
  unfold BudgetService.deleteBudget, ownBudget.
  repeat budget_step; outcome_cases.
  eexists. split; reflexivity.
Qed.

(** X15.  A budget that is not the caller's does not exist for the caller:
    when no budget with the id belongs to the caller, [getBudget],
    [updateBudget] and [deleteBudget] all fail with 404 'Budget not found',
    and the store is as it was. *)
Theorem foreign_budget_is_not_found
    (u i : string) (data : UpdateBudgetData.t) (st : Store) :
  (forall b, In b (budgets st) -> Budget.id b = i -> Budget.userId b <> u) ->
  BudgetService.getBudget u i st = (Throw budgetNotFound, st)
  /\ BudgetService.updateBudget u i data st = (Throw budgetNotFound, st)
  /\ BudgetService.deleteBudget u i st = (Throw budgetNotFound, st).
Proof.
  intros Hforeign.
  assert (Hnone : head (List.filter (ownBudget i u) (budgets st)) = None).
  { apply head_filter_None. intros b Hb. apply andb_false_iff.
    destruct (decide (Budget.id b = i)) as [Hid|Hid].
    - right. apply bool_decide_eq_false_2. apply Hforeign; assumption.
    - left. apply bool_decide_eq_false_2. exact Hid. }
  split; [apply getBudget_none; exact Hnone|].
  unfold ownBudget in Hnone.
  split.
  - unfold BudgetService.updateBudget, bind, prisma.budget_findFirst.
    rewrite Hnone. reflexivity.
  - unfold BudgetService.deleteBudget, bind, prisma.budget_findFirst.
    rewrite Hnone. reflexivity.
Qed.

Lemma foreign_budget_is_not_found_witness :
  BudgetService.getBudget "u1" "b5" Sample.ledger = (Throw budgetNotFound, Sample.ledger)
  /\ BudgetService.updateBudget "u1" "b5" (withAmount 1000) Sample.ledger
     = (Throw budgetNotFound, Sample.ledger)
  /\ BudgetService.deleteBudget "u1" "b5" Sample.ledger
     = (Throw budgetNotFound, Sample.ledger).
Proof.
  apply (foreign_budget_is_not_found "u1" "b5" (withAmount 1000) Sample.ledger).
  intros b Hin Hid. cbn in Hin.
  repeat destruct Hin as [<-|Hin]; try discriminate; try contradiction.
Defined.

Lemma existsb_budget_hasId_false (i : string) (rows : list Budget.t) :
  existsb (prisma.budget_hasId i) rows = false ->
  forall b, In b rows -> prisma.budget_hasId i b = false.
Proof.
  intros H b Hb. destruct (prisma.budget_hasId i b) eqn:E; [|reflexivity].
  assert (existsb (prisma.budget_hasId i) rows = true)
    by (apply existsb_exists; eauto).
  congruence.
Qed.

(** X16.  A created budget can be read back at once: a successful
    [createBudget] writes the creation data with the caller as user (and the
    defaults of the database for what the data leave out), adds that one
    row to the budgets and changes nothing else; [getBudget] with the new id
    then returns that row, with its progress, to the caller, and 404 to any
    other user. *)
Theorem created_budget_can_be_read
    (defaults : BudgetDefaults) (u i : string) (createdAt : Date)
    (data : CreateBudgetData.t) (st : Store) (b : Budget.t) (st' : Store) :
  BudgetService.createBudget defaults u i createdAt data st = (Ok b, st') ->
  b = createdBudget defaults u i createdAt data
  /\ budgets st' = (budgets st ++ [b])%list
  /\ transactions st' = transactions st
  /\ accounts st' = accounts st
  /\ categories st' = categories st
  /\ (exists bp,
        BudgetService.getBudget u i st' = (Ok bp, st')
        /\ BudgetWithProgress.budget bp = b)
  /\ (forall u', u' <> u ->
        BudgetService.getBudget u' i st' = (Throw budgetNotFound, st')).
Proof.
  intros E. apply createBudget_ok in E as (Hb & Hfresh & ->).
  cbn [prisma.set_budgets budgets transactions accounts categories].
  split; [exact Hb|]. do 4 (split; [reflexivity|]).
  assert (Hold : forall u', List.filter (ownBudget i u') (budgets st) = []).
  { intros u'. apply filter_none. intros x Hx. unfold ownBudget.
    pose proof (existsb_budget_hasId_false i _ Hfresh x Hx) as Hx'.
    unfold prisma.budget_hasId in Hx'. rewrite Hx'. reflexivity. }
  split.
  - apply getBudget_some. cbn [prisma.set_budgets budgets].
    rewrite List.filter_app, Hold. cbn. unfold ownBudget. subst b. cbn.
    rewrite !bool_decide_eq_true_2 by reflexivity. reflexivity.
  - intros u' Hu'. apply getBudget_none. cbn [prisma.set_budgets budgets].
    rewrite List.filter_app, Hold. cbn. unfold ownBudget. subst b. cbn.
    rewrite bool_decide_eq_true_2 by reflexivity.
    rewrite bool_decide_eq_false_2 by congruence. reflexivity.
Qed.

Lemma created_budget_can_be_read_witness :
  exists b st' bp,
    BudgetService.createBudget sampleDefaults "u1" "b6" 6 travelBudget Sample.ledger
    = (Ok b, st')
    /\ Budget.alertThreshold b = Some 80%Q
    /\ BudgetService.getBudget "u1" "b6" st' = (Ok bp, st')
    /\ BudgetWithProgress.budget bp = b.
Proof.
  assert (E : exists b st',
             BudgetService.createBudget sampleDefaults "u1" "b6" 6 travelBudget
               Sample.ledger = (Ok b, st'))
    by (eexists _, _; vm_compute; reflexivity).
  destruct E as (b & st' & E).
  destruct (created_budget_can_be_read sampleDefaults "u1" "b6" 6 travelBudget
              Sample.ledger b st' E)
    as (Hb & _ & _ & _ & _ & (bp & Hget & Hbp) & _).
  exists b, st', bp. split; [exact E|]. split; [rewrite Hb; reflexivity|].
  split; assumption.
Defined.

Lemma budget_filter_other (i j u' : string) (rows : list Budget.t) :
  j <> i ->
  List.filter (ownBudget j u')
    (List.filter (fun b => negb (prisma.budget_hasId i b)) rows)
  = List.filter (ownBudget j u') rows.
Proof.
  intros Hne. apply filter_filter_implied. intros x Hx.
  apply andb_true_iff in Hx as [Hx _]. apply bool_decide_eq_true_1 in Hx.
  apply negb_true_iff. apply bool_decide_eq_false_2. congruence.
Qed.

(** X17.  A deleted budget is gone, and only it: after a successful
    [deleteBudget] the id answers 404 to every user, every other id answers
    to every user what it answered before, and transactions, accounts and
    categories are as they were. *)
Theorem deleted_budget_is_gone (u i : string) (st st' : Store) :
  BudgetService.deleteBudget u i st = (Ok tt, st') ->
  (forall u', BudgetService.getBudget u' i st' = (Throw budgetNotFound, st'))
  /\ (forall u' j, j <> i ->
        fst (BudgetService.getBudget u' j st') = fst (BudgetService.getBudget u' j st))
  /\ transactions st' = transactions st
  /\ accounts st' = accounts st
  /\ categories st' = categories st.
Proof.
  intros E. apply deleteBudget_ok in E as (existing & _ & ->).
  split; [|split; [|repeat split]].
  - intros u'. apply getBudget_none. cbn [prisma.set_budgets budgets].
    rewrite filter_none; [reflexivity|].
    intros x Hx. apply filter_In in Hx as [_ Hx]. unfold ownBudget.
    unfold prisma.budget_hasId in Hx.
    destruct (bool_decide (Budget.id x = i)); [discriminate|reflexivity].
  - intros u' j Hne. apply getBudget_fst; [reflexivity|].
    cbn [prisma.set_budgets budgets]. rewrite (budget_filter_other i j u' _ Hne).
    reflexivity.
Qed.

Lemma deleted_budget_is_gone_witness :
  exists st',
    BudgetService.deleteBudget "u1" "b2" Sample.ledger = (Ok tt, st')
    /\ (forall u', BudgetService.getBudget u' "b2" st' = (Throw budgetNotFound, st'))
    /\ Budget.id <$> budgets st' = ["b1"; "b3"; "b4"; "b5"].
Proof.
  assert (E : exists st',
             BudgetService.deleteBudget "u1" "b2" Sample.ledger = (Ok tt, st')
             /\ Budget.id <$> budgets st' = ["b1"; "b3"; "b4"; "b5"])
    by (eexists; split; vm_compute; reflexivity).
  destruct E as (st' & E & Hids). exists st'. split; [exact E|].
  split; [|exact Hids].
  apply (deleted_budget_is_gone "u1" "b2" Sample.ledger st' E).
Defined.

Lemma same_id_same_budget (rows : list Budget.t) (r r' : Budget.t) :
  NoDup (Budget.id <$> rows) ->
  In r rows -> In r' rows -> Budget.id r = Budget.id r' -> r = r'.
Proof.
  induction rows as [|x rows IH]; cbn; [tauto|].
  intros Hnd. apply NoDup_cons in Hnd as [Hnotin Hnd].
  intros [->|Hr] [->|Hr'] Hid; auto.
  - exfalso. apply Hnotin. rewrite Hid. apply list_elem_of_fmap.
    exists r'. split; [reflexivity|apply list_elem_of_In; exact Hr'].
  - exfalso. apply Hnotin. rewrite <- Hid. apply list_elem_of_fmap.
    exists r. split; [reflexivity|apply list_elem_of_In; exact Hr].
Qed.

Lemma ids_replaceBudget (i : string) (new : Budget.t) (rows : list Budget.t) :
  Budget.id new = i ->
  Budget.id <$> prisma.replaceBudget i new rows = Budget.id <$> rows.
Proof.
  intros Hid. induction rows as [|r rows IH]; cbn; [reflexivity|].
  rewrite IH. f_equal. unfold prisma.budget_hasId. case_bool_decide; congruence.
Qed.

Lemma head_filter_replaceBudget (i u : string) (rows : list Budget.t)
    (row new : Budget.t) :
  head (List.filter (prisma.budget_hasId i) rows) = Some row ->
  Budget.id new = i -> Budget.userId new = u ->
  head (List.filter (ownBudget i u) (prisma.replaceBudget i new rows)) = Some new.
Proof.
  intros Hhead Hid Hu.
  assert (Hnew : ownBudget i u new = true).
  { apply andb_true_iff. split; apply bool_decide_eq_true_2; assumption. }
  induction rows as [|r rows IH]; cbn in *; [discriminate|].
  destruct (prisma.budget_hasId i r) eqn:Hr; cbn.
  - rewrite Hnew. reflexivity.
  - unfold ownBudget at 1. unfold prisma.budget_hasId in Hr. rewrite Hr.
    cbn. apply IH. exact Hhead.
Qed.

Lemma filter_replaceBudget_other (i j u' : string) (new : Budget.t)
    (rows : list Budget.t) :
  Budget.id new = i -> j <> i ->
  List.filter (ownBudget j u') (prisma.replaceBudget i new rows)
  = List.filter (ownBudget j u') rows.
Proof.
  intros Hnew Hne. induction rows as [|r rows IH]; cbn; [reflexivity|].
  rewrite IH. destruct (prisma.budget_hasId i r) eqn:Hr; [|reflexivity].
  apply bool_decide_eq_true_1 in Hr. unfold ownBudget.
  rewrite (bool_decide_eq_false_2 (Budget.id new = j)) by congruence.
  rewrite (bool_decide_eq_false_2 (Budget.id r = j)) by congruence.
  reflexivity.
Qed.

(** X18.  An update changes one budget and not its identity: when budget ids
    are unique, after a successful [updateBudget] the returned row is the
    caller's row with the given fields replaced; it keeps its id, its user
    and its creation time; the caller reads it back with [getBudget]; the
    ids of the table are the same, in the same order; every other id answers
    to every user what it answered before; and transactions, accounts and
    categories are as they were. *)
Theorem updated_budget_keeps_identity
    (u i : string) (data : UpdateBudgetData.t)
    (st : Store) (b : Budget.t) (st' : Store) :
  NoDup (Budget.id <$> budgets st) ->
  BudgetService.updateBudget u i data st = (Ok b, st') ->
  (exists old,
     head (List.filter (ownBudget i u) (budgets st)) = Some old
     /\ b = prisma.applyBudgetUpdate data old)
  /\ Budget.id b = i
  /\ Budget.userId b = u
  /\ (exists bp,
        BudgetService.getBudget u i st' = (Ok bp, st')
        /\ BudgetWithProgress.budget bp = b)
  /\ Budget.id <$> budgets st' = Budget.id <$> budgets st
  /\ (forall u' j, j <> i ->
        fst (BudgetService.getBudget u' j st') = fst (BudgetService.getBudget u' j st))
  /\ transactions st' = transactions st
  /\ accounts st' = accounts st
  /\ categories st' = categories st.
Proof.
  intros Hnd E.
  apply updateBudget_ok in E as (existing & row & Hex & Hrow & Hb & ->).
  destruct (head_filter_In _ _ _ Hex) as [Hin Hmatch].
  destruct (head_filter_In _ _ _ Hrow) as [Hin' Hmatch'].
  apply andb_true_iff in Hmatch as [Hi Hu].
  apply bool_decide_eq_true_1 in Hi. apply bool_decide_eq_true_1 in Hu.
  apply bool_decide_eq_true_1 in Hmatch'.
  assert (row = existing)
    by (apply (same_id_same_budget (budgets st)); congruence).
  subst row.
  assert (Hid : Budget.id b = i) by (subst b; exact Hi).
  assert (Huser : Budget.userId b = u) by (subst b; exact Hu).
  cbn [prisma.set_budgets budgets transactions accounts categories].
  split; [exists existing; auto|].
  split; [exact Hid|]. split; [exact Huser|].
  split; [|split; [|split; [|repeat split]]].
  - apply getBudget_some. cbn [prisma.set_budgets budgets].
    apply (head_filter_replaceBudget i u _ existing b Hrow Hid Huser).
  - apply ids_replaceBudget. exact Hid.
  - intros u' j Hne. apply getBudget_fst; [reflexivity|].
    cbn [prisma.set_budgets budgets].
    rewrite (filter_replaceBudget_other i j u' b _ Hid Hne). reflexivity.
Qed.

Lemma updated_budget_keeps_identity_witness :
  exists b st' bp,
    BudgetService.updateBudget "u1" "b3" (withAmount 150) Sample.ledger = (Ok b, st')
    /\ Budget.amount b = 150%Q
    /\ Budget.name b = "Dining"
    /\ BudgetService.getBudget "u1" "b3" st' = (Ok bp, st')
    /\ BudgetWithProgress.budget bp = b.
Proof.
  assert (E : exists b st',
             BudgetService.updateBudget "u1" "b3" (withAmount 150) Sample.ledger
             = (Ok b, st')
             /\ Budget.amount b = 150%Q /\ Budget.name b = "Dining")
    by (eexists _, _; repeat split; vm_compute; reflexivity).
  destruct E as (b & st' & E & Hamount & Hname).
  destruct (updated_budget_keeps_identity "u1" "b3" (withAmount 150)
              Sample.ledger b st')
    as (_ & _ & _ & (bp & Hget & Hbp) & _).
  - apply (bool_decide_unpack _). vm_compute. reflexivity.
  - exact E.
  - exists b, st', bp. auto.
Defined.

(** ** [getBudgets] *)

Lemma Forall2_budget_fmap (l : list Budget.t) (ys : list BudgetWithProgress.t) :
  Forall2 (fun b bp => BudgetWithProgress.budget bp = b) l ys ->
  BudgetWithProgress.budget <$> ys = l.
Proof. induction 1 as [|b bp l ys Hb _ IH]; cbn; congruence. Qed.

(** X19.  [getBudgets] lists the caller's budgets, newest first: it always
    returns and leaves the store as it was; the rows it reports are the
    budgets of the caller (of the period, when one is given), each once, and
    no other; and they come by creation time, the latest first. *)
Theorem budgets_are_listed_newest_first
    (u : string) (period : option BudgetPeriod) (st : Store) :
  exists bs,
    BudgetService.getBudgets u period st = (Ok bs, st)
    /\ Permutation (BudgetWithProgress.budget <$> bs)
         (List.filter (budgetsOf u period) (budgets st))
    /\ StronglySorted newerFirst (BudgetWithProgress.budget <$> bs).
Proof.
  set (sorted := stableSort (fun b x => Budget.createdAt b <? Budget.createdAt x)
                   (List.filter (budgetsOf u period) (budgets st))).
  unfold BudgetService.getBudgets, bind, prisma.budget_findMany.
  fold (budgetsOf u period). fold sorted.
  match goal with
  | |- context [mapM ?f sorted st] =>
      destruct (mapM_pure_Forall2 f
                  (fun b bp => BudgetWithProgress.budget bp = b) sorted st)
        as (bs & E & Hbs)
  end.
  { intros b. unfold bind.
    destruct (calculateSpending_run u b st) as (s & ->).
    eexists. split; reflexivity. }
  exists bs. rewrite E. split; [reflexivity|].
  rewrite (Forall2_budget_fmap _ _ Hbs).
  split; [apply stableSort_Permutation|].
  apply stableSort_sorted; unfold newerFirst.
  - intros x y H. apply Z.ltb_lt in H. lia.
  - intros x y H. apply Z.ltb_ge in H. lia.
  - intros x y z. lia.
Qed.

(* ===================================================================== *)
(** * Analytics by calendar month *)
(* ===================================================================== *)

Lemma dateBetween_monthStart (idx : Z) (t : Transaction.t) :
  dateBetween (DateFns.monthStart idx) (DateFns.monthStart (idx + 1) - 1) t
  = inMonth idx t.
Proof.
  unfold dateBetween, inMonth.
  pose proof (monthIndex_iff (Transaction.date t) idx) as H.
  destruct (Z.eqb_spec (DateFns.monthIndex (Transaction.date t)) idx) as [E|E].
  - apply andb_true_iff. split; apply Z.leb_le; tauto.
  - apply andb_false_iff.
    destruct (Z.leb_spec (DateFns.monthStart idx) (Transaction.date t)); [|auto].
    right. apply Z.leb_gt.
    destruct (Z.le_gt_cases (Transaction.date t) (DateFns.monthStart (idx + 1) - 1));
      [|assumption].
    exfalso. apply E. apply H. lia.
Qed.

Lemma dateBetween_month (d : Date) (t : Transaction.t) :
  dateBetween (DateFns.startOfMonth d) (DateFns.endOfMonth d) t
  = inMonth (DateFns.monthIndex d) t.
Proof. apply dateBetween_monthStart. Qed.

Lemma totalOf_month (u : string) (type : TransactionType) (d : Date) (st : Store) :
  totalOf u type (DateFns.startOfMonth d) (DateFns.endOfMonth d) st
  = monthTotal u type (DateFns.monthIndex d) st.
Proof.
  unfold totalOf, monthTotal. apply amountsOf_ext. intros t _.
  rewrite dateBetween_month. reflexivity.
Qed.

Lemma changeFrom_compat (last last' this this' : Q) :
  (last == last')%Q -> (this == this')%Q ->
  (changeFrom last this == changeFrom last' this')%Q.
Proof.
  intros Hl Ht. unfold changeFrom.
  destruct (Qlt_le_dec 0 last) as [H|H], (Qlt_le_dec 0 last') as [H'|H'].
  - rewrite Hl, Ht. reflexivity.
  - exfalso. rewrite Hl in H. apply (Qlt_not_le _ _ H H').
  - exfalso. rewrite <- Hl in H'. apply (Qlt_not_le _ _ H' H).
  - reflexivity.
Qed.

Lemma rateOf_compat (income income' expenses expenses' : Q) :
  (income == income')%Q -> (expenses == expenses')%Q ->
  (rateOf income expenses == rateOf income' expenses')%Q.
Proof.
  intros Hi He. unfold rateOf.
  destruct (Qlt_le_dec 0 income) as [H|H], (Qlt_le_dec 0 income') as [H'|H'].
  - rewrite Hi, He. reflexivity.
  - exfalso. rewrite Hi in H. apply (Qlt_not_le _ _ H H').
  - exfalso. rewrite <- Hi in H'. apply (Qlt_not_le _ _ H' H).
  - reflexivity.
Qed.

(** The guarded percentage of the analytics methods,
    [d > 0 ? ((a - b) / d) * 100 : 0]. *)
Lemma guarded_percentage (a b d : Q) :
  exists c,
    (if JS.gt (JS.Fin d) (JS.Fin 0)
     then JS.mul (JS.div (JS.sub (JS.Fin a) (JS.Fin b)) (JS.Fin d)) (JS.Fin 100)
     else JS.Fin 0) = JS.Fin c
    /\ (c == if Qlt_le_dec 0 d then (a - b) / d * 100 else 0)%Q.
Proof.
  destruct (Qlt_le_dec 0 d) as [H|H].
  - rewrite (gt_zero_true d H), (change_fin a b d H).
    eexists. split; [reflexivity|]. unfold Qminus. reflexivity.
  - assert (Hgt : JS.gt (JS.Fin d) (JS.Fin 0) = false).
    { destruct (JS.gt (JS.Fin d) (JS.Fin 0)) eqn:E; [|reflexivity].
      apply gt_zero_iff in E. exfalso. apply (Qlt_not_le _ _ E H). }
    rewrite Hgt. exists 0%Q. split; reflexivity.
Qed.

(** X20.  The dashboard compares calendar months: [getDashboardOverview]
    always returns and leaves the store as it was; the monthly income and
    expenses are the totals of the caller's POSTED rows dated in the calendar
    month of [now], and the month-over-month changes compare them with the
    totals of the calendar month just before it, whatever the day of the
    month and the lengths of the two months: each change is the difference
    in percent of last month's total, and 0 when that total is 0. *)
Theorem dashboard_compares_calendar_months (u : string) (now : Date) (st : Store) :
  exists ov income expenses incomeChange expenseChange,
    AnalyticsService.getDashboardOverview u now st = (Ok ov, st)
    /\ DashboardOverview.monthlyIncome ov = JS.Fin income
    /\ DashboardOverview.monthlyExpenses ov = JS.Fin expenses
    /\ Comparison.income (DashboardOverview.lastMonthComparison ov)
       = JS.Fin incomeChange
    /\ Comparison.expenses (DashboardOverview.lastMonthComparison ov)
       = JS.Fin expenseChange
    /\ (income == monthTotal u INCOME (DateFns.monthIndex now) st)%Q
    /\ (expenses == monthTotal u EXPENSE (DateFns.monthIndex now) st)%Q
    /\ (incomeChange
        == changeFrom (monthTotal u INCOME (DateFns.monthIndex now - 1) st)
                      (monthTotal u INCOME (DateFns.monthIndex now) st))%Q
    /\ (expenseChange
        == changeFrom (monthTotal u EXPENSE (DateFns.monthIndex now - 1) st)
                      (monthTotal u EXPENSE (DateFns.monthIndex now) st))%Q.
Proof.
  cut (wp (AnalyticsService.getDashboardOverview u now)
          (fun r s =>
             s = st
             /\ exists ov income expenses incomeChange expenseChange,
                  r = Ok ov
                  /\ DashboardOverview.monthlyIncome ov = JS.Fin income
                  /\ DashboardOverview.monthlyExpenses ov = JS.Fin expenses
                  /\ Comparison.income (DashboardOverview.lastMonthComparison ov)
                     = JS.Fin incomeChange
                  /\ Comparison.expenses (DashboardOverview.lastMonthComparison ov)
                     = JS.Fin expenseChange
                  /\ (income == monthTotal u INCOME (DateFns.monthIndex now) st)%Q
                  /\ (expenses == monthTotal u EXPENSE (DateFns.monthIndex now) st)%Q
                  /\ (incomeChange
                      == changeFrom
                           (monthTotal u INCOME (DateFns.monthIndex now - 1) st)
                           (monthTotal u INCOME (DateFns.monthIndex now) st))%Q
                  /\ (expenseChange
                      == changeFrom
                           (monthTotal u EXPENSE (DateFns.monthIndex now - 1) st)
                           (monthTotal u EXPENSE (DateFns.monthIndex now) st))%Q) st).
  { unfold wp.
    destruct (AnalyticsService.getDashboardOverview u now st) as [r s]. cbn.
    intros [-> (ov & i & e & ci & ce & -> & H)]. exists ov, i, e, ci, ce.
    split; [reflexivity|exact H]. }
  unfold AnalyticsService.getDashboardOverview.
  repeat analytics_step.
  match goal with
  | H1 : (?i == totalOf u INCOME (DateFns.startOfMonth now) _ st)%Q,
    H2 : (?e == totalOf u EXPENSE (DateFns.startOfMonth now) _ st)%Q,
    H3 : (?li == totalOf u INCOME (DateFns.startOfMonth (DateFns.subMonths now 1)) _ st)%Q,
    H4 : (?le == totalOf u EXPENSE (DateFns.startOfMonth (DateFns.subMonths now 1)) _ st)%Q
    |- _ =>
      rename H1 into Hi; rename H2 into He; rename H3 into Hli; rename H4 into Hle;
      rewrite totalOf_month in Hi, He, Hli, Hle;
      rewrite monthIndex_subMonths in Hli, Hle;
      destruct (guarded_percentage i li li) as (ci & Eci & Hci);
      destruct (guarded_percentage e le le) as (ce & Ece & Hce)
  end.
  split; [reflexivity|].
  eexists _, _, _, ci, ce. split; [reflexivity|].
  cbn [DashboardOverview.monthlyIncome DashboardOverview.monthlyExpenses
       DashboardOverview.lastMonthComparison Comparison.income Comparison.expenses].
  split; [reflexivity|]. split; [reflexivity|].
  split; [exact Eci|]. split; [exact Ece|].
  split; [exact Hi|]. split; [exact He|].
  split.
  - rewrite Hci. apply changeFrom_compat; assumption.
  - rewrite Hce. apply changeFrom_compat; assumption.
Qed.

(** ** [getMonthlySummary] *)

Lemma format_month_only (d d' : Date) (pattern : string) :
  DateFns.monthIndex d = DateFns.monthIndex d' ->
  pattern = "MMMM yyyy" \/ pattern = "MMM yyyy" \/ pattern = "yyyy" ->
  DateFns.format d pattern = DateFns.format d' pattern.
Proof.
  intros H Hp. destruct (monthIndex_determines d d' H) as [Hy Hm].
  assert (HM : DateFns.MMMM d = DateFns.MMMM d')
    by (unfold DateFns.MMMM; rewrite Hm; reflexivity).
  assert (HY : DateFns.yyyy d = DateFns.yyyy d')
    by (unfold DateFns.yyyy; rewrite Hy; reflexivity).
  unfold DateFns.format.
  destruct Hp as [-> | [-> | ->]]; repeat case_decide; try discriminate;
    try congruence; unfold DateFns.MMM; rewrite ?HM, ?HY; reflexivity.
Qed.

Lemma getMonthlySummary_month_only (u : string) (d d' : Date) (st : Store) :
  DateFns.monthIndex d = DateFns.monthIndex d' ->
  AnalyticsService.getMonthlySummary u d st
  = AnalyticsService.getMonthlySummary u d' st.
Proof.
  intros H. unfold AnalyticsService.getMonthlySummary,
    DateFns.startOfMonth, DateFns.endOfMonth.
  rewrite H, (format_month_only d d' "MMMM yyyy" H) by auto. reflexivity.
Qed.

Lemma getTotalByType_run (u : string) (type : TransactionType)
    (startDate endDate : Date) (st : Store) :
  exists q,
    AnalyticsService.getTotalByType u type startDate endDate st = (Ok (JS.Fin q), st)
    /\ (q == totalOf u type startDate endDate st)%Q.
Proof.
  unfold AnalyticsService.getTotalByType, bind.
  destruct (aggregate_sum_run
              (fun t => ofUser u t && hasType type t && isPosted t
                        && dateBetween startDate endDate t) st)
    as (d & -> & q & Hd & Hq).
  cbn. rewrite Hd. exists q. split; [reflexivity|exact Hq].
Qed.

Lemma getTotalByType_month (u : string) (type : TransactionType) (d : Date)
    (st : Store) :
  exists q,
    AnalyticsService.getTotalByType u type
      (DateFns.startOfMonth d) (DateFns.endOfMonth d) st = (Ok (JS.Fin q), st)
    /\ (q == monthTotal u type (DateFns.monthIndex d) st)%Q.
Proof.
  destruct (getTotalByType_run u type (DateFns.startOfMonth d)
              (DateFns.endOfMonth d) st) as (q & E & Hq).
  exists q. split; [exact E|]. rewrite <- totalOf_month. exact Hq.
Qed.

Lemma getMonthlySummary_run (u : string) (d : Date) (st : Store) :
  exists ms income expenses rate,
    AnalyticsService.getMonthlySummary u d st = (Ok ms, st)
    /\ MonthlySummary.income ms = JS.Fin income
    /\ MonthlySummary.expenses ms = JS.Fin expenses
    /\ MonthlySummary.net ms = JS.Fin (income + - expenses)
    /\ MonthlySummary.savingsRate ms = JS.Fin rate
    /\ (income == monthTotal u INCOME (DateFns.monthIndex d) st)%Q
    /\ (expenses == monthTotal u EXPENSE (DateFns.monthIndex d) st)%Q
    /\ (rate == rateOf (monthTotal u INCOME (DateFns.monthIndex d) st)
                       (monthTotal u EXPENSE (DateFns.monthIndex d) st))%Q
    /\ MonthlySummary.transactionCount ms
       = length (monthRows u (DateFns.monthIndex d) st)
    /\ MonthlySummary.topCategories ms
       = firstn 5 (MonthlySummary.categoryBreakdown ms)
    /\ AnalyticsService.getSpendingByCategory u
         (DateFns.startOfMonth d) (DateFns.endOfMonth d) st
       = (Ok (MonthlySummary.categoryBreakdown ms), st).
Proof.
  unfold AnalyticsService.getMonthlySummary.
  unfold bind at 1.
  destruct (getTotalByType_month u INCOME d st) as (i & -> & Hi).
  unfold bind at 1.
  destruct (getTotalByType_month u EXPENSE d st) as (e & -> & He).
  unfold bind at 1.
  destruct (getSpendingByCategory_run u (DateFns.startOfMonth d)
              (DateFns.endOfMonth d) st) as (m & tq & -> & _).
  unfold bind, prisma.transaction_count, ret. cbn [fst snd].
  destruct (guarded_percentage i e i) as (rate & Erate & Hrate).
  eexists _, i, e, rate. split; [reflexivity|].
  cbn [MonthlySummary.income MonthlySummary.expenses MonthlySummary.net
       MonthlySummary.savingsRate MonthlySummary.transactionCount
       MonthlySummary.topCategories MonthlySummary.categoryBreakdown].
  split; [reflexivity|]. split; [reflexivity|]. split; [reflexivity|].
  split; [exact Erate|]. split; [exact Hi|]. split; [exact He|].
  split; [rewrite Hrate; apply rateOf_compat; assumption|].
  split; [|split; reflexivity].
  unfold monthRows. f_equal. apply filter_ext_In. intros t _.
  rewrite dateBetween_month. reflexivity.
Qed.

(** X21.  A monthly summary is the summary of a calendar month:
    [getMonthlySummary] always returns and leaves the store as it was;
    income and expenses are the totals of the caller's POSTED rows dated in
    the calendar month of the given date, net is income minus expenses, the
    savings rate is what is left of the income in percent of the income (0
    without income: it is negative when more was spent than earned), the
    count is the number of the caller's POSTED rows of the month, of any
    type, the top categories are the first five of the breakdown; and any
    two dates of the same month give the same summary. *)
Theorem monthly_summary_is_of_the_calendar_month
    (u : string) (d : Date) (st : Store) :
  (exists ms income expenses rate,
     AnalyticsService.getMonthlySummary u d st = (Ok ms, st)
     /\ MonthlySummary.income ms = JS.Fin income
     /\ MonthlySummary.expenses ms = JS.Fin expenses
     /\ MonthlySummary.net ms = JS.Fin (income + - expenses)
     /\ MonthlySummary.savingsRate ms = JS.Fin rate
     /\ (income == monthTotal u INCOME (DateFns.monthIndex d) st)%Q
     /\ (expenses == monthTotal u EXPENSE (DateFns.monthIndex d) st)%Q
     /\ (rate == rateOf (monthTotal u INCOME (DateFns.monthIndex d) st)
                        (monthTotal u EXPENSE (DateFns.monthIndex d) st))%Q
     /\ MonthlySummary.transactionCount ms
        = length (monthRows u (DateFns.monthIndex d) st)
     /\ MonthlySummary.topCategories ms
        = firstn 5 (MonthlySummary.categoryBreakdown ms))
  /\ (forall d',
        DateFns.monthIndex d' = DateFns.monthIndex d ->
        AnalyticsService.getMonthlySummary u d' st
        = AnalyticsService.getMonthlySummary u d st).
Proof.
  split.
  - destruct (getMonthlySummary_run u d st)
      as (ms & i & e & r & H1 & H2 & H3 & H4 & H5 & H6 & H7 & H8 & H9 & H10 & _).
    exists ms, i, e, r. repeat split; assumption.
  - intros d' H. apply getMonthlySummary_month_only. exact H.
Qed.

(** ** Sums over months *)









(** ** [getSpendingTrends] *)


Lemma sumOf_amounts (l : list Transaction.t) :
  exists q,
    sumOf (fun t => JS.Fin (Transaction.amount t)) l = JS.Fin q
    /\ (q == sumQ (Transaction.amount <$> l))%Q.
Proof.
  destruct (sumOf_finite (fun t => JS.Fin (Transaction.amount t)) l) as (q & E & Hq).
  { apply Forall_forall. intros t _. eexists. reflexivity. }
  exists q. split; [exact E|]. rewrite Hq. reflexivity.
Qed.



Lemma yearIntervals (now : Date) :
  DateFns.eachMonthOfInterval (DateFns.startOfYear now) (DateFns.endOfYear now)
  = DateFns.monthStart <$> seqZ (12 * DateFns.yearOf now) (Z.of_nat 12).
Proof.
  unfold DateFns.eachMonthOfInterval.
  rewrite monthIndex_startOfYear, monthIndex_endOfYear. f_equal. f_equal. lia.
Qed.



Lemma trendPoint_finite (period : Period) (txs : list Transaction.t)
    (interval : Date) :
  exists income expenses,
    TrendPoint.income (AnalyticsService.trendPoint period txs interval) = JS.Fin income
    /\ TrendPoint.expenses (AnalyticsService.trendPoint period txs interval)
       = JS.Fin expenses
    /\ TrendPoint.net (AnalyticsService.trendPoint period txs interval)
       = JS.Fin (income + - expenses).
Proof.
  unfold AnalyticsService.trendPoint.
  cbn [TrendPoint.income TrendPoint.expenses TrendPoint.net].
  match goal with
  | |- context [sumOf _ (List.filter (hasType INCOME) ?l)] =>
      destruct (sumOf_amounts (List.filter (hasType INCOME) l)) as (i & -> & _);
      destruct (sumOf_amounts (List.filter (hasType EXPENSE) l)) as (e & -> & _)
  end.
  exists i, e. repeat split.
Qed.

Lemma length_eachDayOfInterval (start end_ : Date) :
  Z.of_nat (length (DateFns.eachDayOfInterval start end_))
  = Z.max 0 (DateFns.dayOf end_ - DateFns.dayOf start + 1).
Proof.
  unfold DateFns.eachDayOfInterval. rewrite length_fmap, length_seqZ. lia.
Qed.

Lemma week_days (now : Date) :
  DateFns.dayOf (DateFns.endOfWeek now) - DateFns.dayOf (DateFns.startOfWeek now) + 1
  = 7.
Proof.
  unfold DateFns.endOfWeek, DateFns.startOfWeek.
  set (first := DateFns.dayOf now - DateFns.weekday now).
  rewrite dayOf_start.
  assert (DateFns.dayOf (first * DateFns.msPerDay + 7 * DateFns.msPerDay - 1)
          = first + 6).
  { unfold DateFns.dayOf, DateFns.msPerDay. Z.div_mod_to_equations; lia. }
  lia.
Qed.

Lemma month_days (now : Date) :
  DateFns.dayOf (DateFns.endOfMonth now) - DateFns.dayOf (DateFns.startOfMonth now) + 1
  = DateFns.daysInMonth (DateFns.monthIndex now).
Proof.
  unfold DateFns.endOfMonth, DateFns.startOfMonth.
  rewrite daysInMonth_firstDay, !monthStart_firstDay, dayOf_start.
  set (next := firstDayOfMonth (DateFns.monthIndex now + 1)).
  assert (DateFns.dayOf (next * DateFns.msPerDay - 1) = next - 1).
  { unfold DateFns.dayOf, DateFns.msPerDay. Z.div_mod_to_equations; lia. }
  lia.
Qed.

(** X23.  The number of buckets of [getSpendingTrends]: the call always
    returns and leaves the store as it was, with 7 buckets for the period
    week, one for each day of the month of [now] (28 to 31) for the period
    month, and 12 for the period year; every bucket holds finite amounts and
    its net is its income minus its expenses. *)
Theorem trend_bucket_counts (u : string) (period : Period) (now : Date) (st : Store) :
  exists points,
    AnalyticsService.getSpendingTrends u period now st = (Ok points, st)
    /\ Z.of_nat (length points)
       = match period with
         | week => 7
         | month => DateFns.daysInMonth (DateFns.monthIndex now)
         | year => 12
         end
    /\ 7 <= Z.of_nat (length points) <= 31
    /\ Forall (fun p =>
                 exists income expenses,
                   TrendPoint.income p = JS.Fin income
                   /\ TrendPoint.expenses p = JS.Fin expenses
                   /\ TrendPoint.net p = JS.Fin (income + - expenses))
              points.
Proof.
  assert (Hrun : exists txs intervals,
             AnalyticsService.getSpendingTrends u period now st
             = (Ok (AnalyticsService.trendPoint period txs <$> intervals), st)
             /\ Z.of_nat (length intervals)
                = match period with
                  | week => 7
                  | month => DateFns.daysInMonth (DateFns.monthIndex now)
                  | year => 12
                  end).
  { unfold AnalyticsService.getSpendingTrends, bind,
      prisma.transaction_findMany_orderBy_date, ret.
    destruct period; cbn [fst snd]; eexists _, _; (split; [reflexivity|]).
    - rewrite length_eachDayOfInterval, week_days. reflexivity.
    - rewrite length_eachDayOfInterval, month_days.
      pose proof (firstDayOfMonth_step (DateFns.monthIndex now)).
      rewrite daysInMonth_firstDay. lia.
    - rewrite yearIntervals, length_fmap, length_seqZ. reflexivity. }
  destruct Hrun as (txs & intervals & E & Hlen).
  exists (AnalyticsService.trendPoint period txs <$> intervals).
  split; [exact E|]. rewrite length_fmap. split; [exact Hlen|]. split.
  - rewrite Hlen. destruct period; try lia.
    pose proof (firstDayOfMonth_step (DateFns.monthIndex now)).
    rewrite daysInMonth_firstDay. lia.
  - apply Forall_forall. intros p Hp.
    apply list_elem_of_fmap in Hp as (interval & -> & _).
    apply trendPoint_finite.
Qed.

(** ** [getYearToDateSummary] *)





(** ** [getSpendingByCategory] *)








(* ===================================================================== *)
(** * The routes by id *)
(* ===================================================================== *)

Lemma head_filter_Some_iff {A} (P : A -> bool) (l : list A) :
  (exists x, head (List.filter P l) = Some x) <-> exists x, In x l /\ P x = true.
Proof.
  split.
  - intros [x H]. exists x. apply (head_filter_In P l x H).
  - intros (x & Hin & HP).
    destruct (head (List.filter P l)) as [y|] eqn:E; [eauto|].
    rewrite head_filter_None in E. rewrite (E x Hin) in HP. discriminate.
Qed.

Lemma ownsTransaction_head (u i : string) (st : Store) :
  ownsTransaction u i st
  <-> exists t, head (List.filter (fun t => prisma.hasId i t && ofUser u t)
                        (transactions st)) = Some t.
Proof.
  rewrite head_filter_Some_iff. unfold ownsTransaction.
  split; intros (t & Hin & H); exists t; (split; [exact Hin|]).
  - destruct H as [Hi Hu]. apply andb_true_iff.
    split; apply bool_decide_eq_true_2; assumption.
  - apply andb_true_iff in H as [Hi Hu].
    split; [apply (bool_decide_eq_true_1 _ Hi)|apply (bool_decide_eq_true_1 _ Hu)].
Qed.

Lemma ownsBudget_head (u i : string) (st : Store) :
  ownsBudget u i st
  <-> exists b, head (List.filter (ownBudget i u) (budgets st)) = Some b.
Proof.
  rewrite head_filter_Some_iff. unfold ownsBudget, ownBudget.
  split; intros (b & Hin & H); exists b; (split; [exact Hin|]).
  - destruct H as [Hi Hu]. apply andb_true_iff.
    split; apply bool_decide_eq_true_2; assumption.
  - apply andb_true_iff in H as [Hi Hu].
    split; [apply (bool_decide_eq_true_1 _ Hi)|apply (bool_decide_eq_true_1 _ Hu)].
Qed.

(** On a consistent store the caller's transaction can be deleted. *)
Lemma deleteTransaction_owned (u i : string) (st : Store) :
  consistent st ->
  ownsTransaction u i st ->
  exists st', TransactionService.deleteTransaction u i st = (Ok tt, st').
Proof.
  intros Hcons Hown.
  destruct (runMutation_consistent_cases (Delete u i) st Hcons)
    as [(e & E)|(st' & E & _)]; [|eauto].
  exfalso. cbn [runMutation] in E.
  apply ownsTransaction_head in Hown as (t & Hhead).
  pose proof Hcons as [[Hnd _] Hall].
  pose proof (head_filter_unique _ _ _ _ Hnd Hhead) as Hrow.
  destruct (head_filter_In _ _ _ Hhead) as [Hin _].
  rewrite Forall_forall in Hall.
  destruct (Hall t (proj2 (list_elem_of_In _ _) Hin)) as (acc & Hacc & _).
  revert E. unfold TransactionService.deleteTransaction, bind.
  rewrite findFirst_run, Hhead. unfold prisma.transaction_delete.
  rewrite (proj2 (existsb_hasId_head i (transactions st)) (ex_intro _ t Hrow)).
  destruct (updateAccountBalance_found (Transaction.accountId t)
              (prisma.set_transactions
                 (List.filter (fun x => negb (prisma.hasId i x)) (transactions st)) st)
              acc Hacc) as (b & -> & _).
  discriminate.
Qed.

(** X26.  The routes that name a transaction by its id answer found or not
    found: on a consistent store, when the caller has a transaction with the
    id, GET /api/transactions/:id answers 200 and DELETE answers 204; when
    the caller has none (unknown id, or a transaction of another user), both
    answer 404 with the message 'Transaction not found' and leave the store
    as it was.  Neither answers with a server error, whatever NODE_ENV. *)
Theorem transaction_routes_answer_found_or_not_found
    (production : bool) (clientMessage : string -> string)
    (u i : string) (st : Store) :
  consistent st ->
  (ownsTransaction u i st ->
   TransactionRouter.get production clientMessage u i st = (success 200, st)
   /\ fst (TransactionRouter.delete production clientMessage u i st) = success 204)
  /\ (~ ownsTransaction u i st ->
      TransactionRouter.get production clientMessage u i st
      = (notFound "Transaction not found", st)
      /\ TransactionRouter.delete production clientMessage u i st
         = (notFound "Transaction not found", st)).
Proof.
  intros Hcons. unfold TransactionRouter.get, TransactionRouter.delete, route.
  split.
  - intros Hown. split.
    + apply ownsTransaction_head in Hown as (t & Hhead).
      rewrite getTransaction_run, Hhead. reflexivity.
    + destruct (deleteTransaction_owned u i st Hcons Hown) as (st' & ->). reflexivity.
  - intros Hnot.
    assert (Hnone : head (List.filter (fun t => prisma.hasId i t && ofUser u t)
                            (transactions st)) = None).
    { destruct (head _) as [t|] eqn:E; [|reflexivity].
      exfalso. apply Hnot. apply ownsTransaction_head. eauto. }
    split.
    + rewrite getTransaction_run, Hnone. reflexivity.
    + unfold TransactionService.deleteTransaction, bind.
      rewrite findFirst_run, Hnone. reflexivity.
Qed.

Lemma transaction_routes_answer_found_or_not_found_witness :
  Response.status (fst (TransactionRouter.delete true (fun _ => "") "u1" "t2"
                          Sample.ledger)) = 204
  /\ Response.status (fst (TransactionRouter.delete true (fun _ => "") "u2" "t2"
                             Sample.ledger)) = 404.
Proof.
  destruct (transaction_routes_answer_found_or_not_found true (fun _ => "")
              "u1" "t2" Sample.ledger) as [Hfound _].
  { apply consistentb_sound. vm_compute. reflexivity. }
  destruct (transaction_routes_answer_found_or_not_found true (fun _ => "")
              "u2" "t2" Sample.ledger) as [_ Hnot].
  { apply consistentb_sound. vm_compute. reflexivity. }
  split.
  - destruct Hfound as [_ ->]; [|reflexivity].
    eexists. split; [right; left; reflexivity|]. split; reflexivity.
  - destruct Hnot as [_ ->]; [|reflexivity].
    intros (t & Hin & Hid & Hu). cbn in Hin.
    repeat destruct Hin as [<-|Hin]; try discriminate; try contradiction.
Defined.

(** X27.  The routes that name a budget by its id answer found or not
    found, on every store: when the caller has a budget with the id,
    GET /api/budgets/:id answers 200 and leaves the store as it was, and
    DELETE answers 204; when the caller has none, both answer 404 with the
    message 'Budget not found' and leave the store as it was. *)
Theorem budget_routes_answer_found_or_not_found
    (production : bool) (clientMessage : string -> string)
    (u i : string) (st : Store) :
  (ownsBudget u i st ->
   BudgetRouter.get production clientMessage u i st = (success 200, st)
   /\ fst (BudgetRouter.delete production clientMessage u i st) = success 204)
  /\ (~ ownsBudget u i st ->
      BudgetRouter.get production clientMessage u i st
      = (notFound "Budget not found", st)
      /\ BudgetRouter.delete production clientMessage u i st
         = (notFound "Budget not found", st)).
Proof.
  unfold BudgetRouter.get, BudgetRouter.delete, route. split.
  - intros Hown. apply ownsBudget_head in Hown as (b & Hhead). split.
    + destruct (getBudget_some u i st b Hhead) as (bp & -> & _). reflexivity.
    + destruct (head_filter_In _ _ _ Hhead) as [Hin Hmatch].
      apply andb_true_iff in Hmatch as [Hi _].
      unfold BudgetService.deleteBudget, bind, prisma.budget_findFirst.
      unfold ownBudget in Hhead. rewrite Hhead. unfold prisma.budget_delete.
      assert (Hex : existsb (prisma.budget_hasId i) (budgets st) = true)
        by (apply existsb_exists; exists b; split; assumption).
      rewrite Hex. reflexivity.
  - intros Hnot.
    assert (Hnone : head (List.filter (ownBudget i u) (budgets st)) = None).
    { destruct (head _) as [b|] eqn:E; [|reflexivity].
      exfalso. apply Hnot. apply ownsBudget_head. eauto. }
    split.
    + rewrite (getBudget_none u i st Hnone). reflexivity.
    + unfold BudgetService.deleteBudget, bind, prisma.budget_findFirst.
      unfold ownBudget in Hnone. rewrite Hnone. reflexivity.
Qed.

(* ===================================================================== *)
(** * Further examples on the sample database *)
(* ===================================================================== *)

(** The statistics of [u1] from March 1 to March 15, 2024, whatever the time
    of day of the bounds: the expense of March 16 is out, that of March 15 at
    10:30 is in. *)
Example statistics_of_first_half_of_march :
  exists s,
    TransactionService.getStatistics "u1" (Some Sample.march1)
      (Some (Sample.march15 - 10 * 3600000)) Sample.ledger = (Ok s, Sample.ledger)
    /\ JS.eqb (Statistics.totalIncome s) (JS.Fin 3500) = true
    /\ JS.eqb (Statistics.totalExpenses s) (JS.Fin 340.99) = true
    /\ JS.eqb (Statistics.netAmount s) (JS.Fin 3159.01) = true
    /\ Statistics.transactionCount s = 4%nat
    /\ JS.eqb (Statistics.averageTransaction s) (JS.Fin (3840.99 / 4)) = true.
Proof. eexists. repeat split; vm_compute; reflexivity. Qed.

(** A search matches without regard to case; page 0 is refused by the
    client; so is a column the table does not have. *)
Example search_and_refusals :
  (Transaction.id
     <$> default [] (TransactionPage.transactions
                       <$> returned (TransactionService.getTransactions sampleEngine
                                       "u2" (queryWithSearch "ENTRY") Sample.ledger))
   = ["t6"; "t7"])
  /\ fst (TransactionService.getTransactions sampleEngine "u1"
            (withPage 0 (queryWithLimit 2)) Sample.ledger)
     = Throw (PrismaError "validation")
  /\ fst (prisma.transaction_findMany_page sampleEngine (ofUser "u1") "colour" asc 0 5
            Sample.ledger)
     = Throw (PrismaError "validation").
Proof. repeat split; vm_compute; reflexivity. Qed.

Example recent_two_of_u1 :
  Transaction.id
    <$> default [] (returned (AnalyticsService.getRecentTransactions "u1" (Some 2%nat)
                                Sample.ledger))
  = ["t3"; "t2"].
Proof. vm_compute. reflexivity. Qed.

(** What the handler answers to the errors of the services: the status of an
    [AppError] with the name of [Error]; 409, 404 and 400 for the errors of
    the Prisma client it knows; 500 for any other, with the message of the
    client outside production only. *)
Example errorHandler_answers :
  errorHandler true (fun _ => "Foreign key constraint failed")
    (AppError 404 "Account not found")
  = notFound "Account not found"
  /\ Response.status (errorHandler true (fun _ => "") (PrismaError "P2002")) = 409
  /\ Response.status (errorHandler true (fun _ => "") (PrismaError "P2025")) = 404
  /\ Response.status (errorHandler true (fun _ => "") (PrismaError "validation")) = 400
  /\ errorHandler true (fun _ => "Foreign key constraint failed") (PrismaError "P2003")
     = {| Response.status := 500; Response.error := Some "Internal Server Error";
          Response.message := Some "Something went wrong" |}
  /\ Response.message
       (errorHandler false (fun _ => "Foreign key constraint failed")
          (PrismaError "P2003"))
     = Some "Foreign key constraint failed".
Proof. repeat split; vm_compute; reflexivity. Qed.

(** Why X26 asks for a consistent store: when the account of the transaction
    is missing, DELETE /api/transactions/:id deletes the row and answers 404
    'Record not found'. *)
Example delete_route_with_missing_account :
  fst (TransactionRouter.delete true (fun _ => "") "u2" "t7" danglingLedger)
  = {| Response.status := 404; Response.error := Some "Not Found";
       Response.message := Some "Record not found" |}
  /\ Transaction.id
       <$> transactions
             (snd (TransactionRouter.delete true (fun _ => "") "u2" "t7" danglingLedger))
     = ["t1"; "t2"; "t3"; "t4"; "t5"; "t6"].
Proof. split; vm_compute; reflexivity. Qed.
